(** * CMORPH download script (cmorph.py): a shallow embedding and its properties

    The script authenticates against the RDA server, enumerates one file per
    calendar day of the requested months, fetches every file (or skips it when
    the local copy is up to date), classifies each transfer by comparing the
    size on disk with the declared content length, and reports three lists:
    updated, new and error.

    The embedding runs in a state-and-exception monad over a small world
    (file system, log, trace of external calls).  Python built-ins used by
    the script (int(), str.replace, "%.2d", calendar.monthrange, int/int true
    division, float multiplication and comparison) are modelled first. *)

From Stdlib Require Import ZArith String Ascii List Bool Lia SpecFloat DecimalString.
From stdpp Require Import base option list list_numbers gmap strings.

Local Open Scope string_scope.
Local Open Scope Z_scope.

(** ** Python exceptions and results *)

Inductive exn : Type :=
  | KeyError (key : string)
  | ValueError
  | ZeroDivisionError
  | OverflowError
  | FileNotFoundError (path : string)
  | IllegalMonthError (month : Z)
  | RequestException
  | SystemExit (code : Z).

Inductive Res (A : Type) : Type :=
  | Ok (a : A)
  | Raise (e : exn).
Arguments Ok {A} a.
Arguments Raise {A} e.

(** ** Strings

    A Python str is modelled by the string of its code points, which are
    below 256 here.  That is what the HTTP client hands over for a header
    value (header bytes are decoded as ISO-8859-1); arguments and variables
    of the environment with code points above 255 are not covered. *)

Module PyStr.

Definition is_digit (c : ascii) : bool :=
  let n := nat_of_ascii c in (48 <=? n)%nat && (n <=? 57)%nat.

Definition digit_of (c : ascii) : option Z :=
  if is_digit c then Some (Z.of_nat (nat_of_ascii c) - 48) else None.

Fixpoint all_digits (s : string) : bool :=
  match s with
  | EmptyString => true
  | String c s' => is_digit c && all_digits s'
  end.

(** Characters that [int()] treats as surrounding white space.  CPython
    passes code points below 127 unchanged to the parser of C strings, whose
    white space is tab to carriage return and the space; above, it turns
    Unicode white space, which is U+0085 and U+00A0 below 256, into a space.
    The separators U+001C to U+001F are therefore not white space here. *)
Definition is_space (c : ascii) : bool :=
  let n := nat_of_ascii c in
  ((9 <=? n)%nat && (n <=? 13)%nat) || (n =? 32)%nat
  || (n =? 133)%nat || (n =? 160)%nat.

Fixpoint lstrip (s : string) : string :=
  match s with
  | String c s' => if is_space c then lstrip s' else s
  | EmptyString => EmptyString
  end.

Fixpoint rstrip (s : string) : string :=
  match s with
  | EmptyString => EmptyString
  | String c s' =>
      match rstrip s' with
      | EmptyString => if is_space c then EmptyString else String c EmptyString
      | r => String c r
      end
  end.

(** Decimal digits with single underscores allowed between digits. *)
Fixpoint int_digits (acc : Z) (after_digit : bool) (s : string) : option Z :=
  match s with
  | EmptyString => if after_digit then Some acc else None
  | String c s' =>
      match digit_of c with
      | Some d => int_digits (10 * acc + d) true s'
      | None =>
          if Ascii.eqb c "_" && after_digit then int_digits acc false s' else None
      end
  end.

(** The value of a string of decimal digits, most significant digit first. *)
Fixpoint dec_value (acc : Z) (s : string) : Z :=
  match s with
  | EmptyString => acc
  | String c s' => dec_value (10 * acc + (Z.of_nat (nat_of_ascii c) - 48)) s'
  end.

(** The number of decimal digits in a string. *)
Fixpoint count_digits (s : string) : Z :=
  match s with
  | EmptyString => 0
  | String c s' => (if is_digit c then 1 else 0) + count_digits s'
  end.

(** The default of [sys.get_int_max_str_digits()], CPython 3.11 and later. *)
Definition max_str_digits : Z := 4300.

(** [int(s)] for a string [s], base 10: [None] stands for ValueError, which
    is also what a string of more than 4300 digits raises. *)
Definition py_int (s : string) : option Z :=
  let t := rstrip (lstrip s) in
  if max_str_digits <? count_digits t then None
  else
    match t with
    | String "+" r => int_digits 0 false r
    | String "-" r => Z.opp <$> int_digits 0 false r
    | _ => int_digits 0 false t
    end.

Definition int (s : string) : Res Z :=
  match py_int s with
  | Some z => Ok z
  | None => Raise ValueError
  end.

(** ["%.2d" % i]: decimal rendering with at least two digits. *)
Definition pad2 (s : string) : string :=
  match s with
  | String c EmptyString => String "0" (String c EmptyString)
  | EmptyString => "00"
  | _ => s
  end.

Definition fmt_2d (i : Z) : string :=
  if i <? 0 then String "-" (pad2 (NilZero.string_of_uint (N.to_uint (Z.to_N (- i)))))
  else pad2 (NilZero.string_of_uint (N.to_uint (Z.to_N i))).

(** [s.replace(old, new)] for a non-empty [old]: occurrences are replaced
    from the left and do not overlap.  [skip] counts the characters of an
    occurrence of [old] still to be dropped. *)
Fixpoint replace_go (old new : string) (skip : nat) (s : string) : string :=
  match s with
  | EmptyString => EmptyString
  | String c s' =>
      match skip with
      | S k => replace_go old new k s'
      | O =>
          if String.prefix old s
          then new ++ replace_go old new (String.length old - 1) s'
          else String c (replace_go old new O s')
      end
  end.

(** With an empty [old], Python inserts [new] before every character and
    at the end. *)
Fixpoint intersperse (new s : string) : string :=
  match s with
  | EmptyString => new
  | String c s' => new ++ String c (intersperse new s')
  end.

Definition replace (s old new : string) : string :=
  match old with
  | EmptyString => intersperse new s
  | _ => replace_go old new O s
  end.

(** [s.lower()]: A to Z, and the capital letters U+00C0 to U+00DE, the
    multiplication sign U+00D7 apart, are moved up by 32. *)
Definition is_upper (n : nat) : bool :=
  ((65 <=? n)%nat && (n <=? 90)%nat)
  || ((192 <=? n)%nat && (n <=? 222)%nat && negb (n =? 215)%nat).

Fixpoint lower (s : string) : string :=
  match s with
  | EmptyString => EmptyString
  | String c s' =>
      let n := nat_of_ascii c in
      String (if is_upper n then ascii_of_nat (n + 32) else c) (lower s')
  end.

End PyStr.


(** ** calendar.monthrange, after CPython's calendar.py (3.8 and later) *)

Module Calendar.

Definition February : Z := 2.

Definition mdays : list Z := [0; 31; 28; 31; 30; 31; 30; 31; 31; 30; 31; 30; 31].

Definition isleap (year : Z) : bool :=
  (year mod 4 =? 0) && (negb (year mod 100 =? 0) || (year mod 400 =? 0)).

(** datetime.date(year, month, day).weekday(), through the proleptic
    Gregorian ordinal; Monday is 0. *)
Definition days_before_year (year : Z) : Z :=
  let y := year - 1 in y * 365 + y / 4 - y / 100 + y / 400.

Definition days_in_month (year month : Z) : Z :=
  if (month =? February) && isleap year then 29 else nth (Z.to_nat month) mdays 0.

Definition days_before_month (year month : Z) : Z :=
  foldr Z.add 0 (days_in_month year <$> seqZ 1 (month - 1)).

Definition MINYEAR : Z := 1.
Definition MAXYEAR : Z := 9999.

Definition weekday (year month day : Z) : Z :=
  let year :=
    if negb ((MINYEAR <=? year) && (year <=? MAXYEAR)) then 2000 + year mod 400
    else year in
  (days_before_year year + days_before_month year month + day + 6) mod 7.

Definition monthrange (year month : Z) : Res (Z * Z) :=
  if negb ((1 <=? month) && (month <=? 12)) then Raise (IllegalMonthError month)
  else
    let day1 := weekday year month 1 in
    let ndays :=
      nth (Z.to_nat month) mdays 0
      + (if (month =? February) && isleap year then 1 else 0) in
    Ok (day1, ndays).

End Calendar.

(** ** Floats: int / int, float * int and float == int

    Python floats are IEEE 754 binary64 numbers; the operations below are the
    ones of [SpecFloat] at precision 53 and maximal exponent 1024. *)

Module PyFloat.

Definition prec : Z := 53.
Definition emax : Z := 1024.

(** [float(n)], correctly rounded; exact when [|n| <= 2^53]. *)
Definition of_int (n : Z) : spec_float := binary_normalize prec emax n 0 false.

(** [a / b] on ints: the correctly rounded quotient.  CPython raises
    ZeroDivisionError for [b = 0] and OverflowError when the quotient is too
    large for a float. *)
Definition truediv (a b : Z) : Res spec_float :=
  if b =? 0 then Raise ZeroDivisionError
  else if a =? 0 then Ok (S754_zero (b <? 0))
  else
    match SFdiv prec emax (S754_finite (a <? 0) (Z.to_pos (Z.abs a)) 0)
                          (S754_finite (b <? 0) (Z.to_pos (Z.abs b)) 0) with
    | S754_infinity _ => Raise OverflowError
    | q => Ok q
    end.

(** [x * n] for a float [x] and an int [n] that converts exactly. *)
Definition mul_int (x : spec_float) (n : Z) : spec_float :=
  SFmul prec emax x (of_int n).

(** [x == n] for a float [x] and an int [n] that converts exactly. *)
Definition eqb_int (x : spec_float) (n : Z) : bool :=
  SFeqb x (of_int n).

End PyFloat.

(** ** The world the script runs in *)

Record File := { content : list Byte.byte; mtime : nat }.

(** A response of the [requests] library: status, body text, cookies and
    headers; [chunks] is what [iter_content] yields, and [broken] says that
    the stream raises after the last of them. *)
Record Response := {
  status_code : Z;
  text : string;
  cookies : string;
  headers : list (string * string);
  chunks : list (list Byte.byte);
  broken : bool
}.

(** Calls that leave the process, in the order they are made. *)
Inductive event : Type :=
  | EvPost (url : string)
  | EvGet (url : string)
  | EvCheckMdt (path : string)
  | EvMakedirs (path : string)
  | EvOpen (path : string)
  | EvWrite (path : string) (n : nat)
  | EvStat (path : string)
  | EvSummary (updated new error : list string).

Record World := {
  fs : gmap string File;
  dirs : gset string;
  log : list string;
  trace : list event;
  now : nat
}.

Definition M (A : Type) : Type := World -> Res A * World.

Definition ret {A} (a : A) : M A := fun w => (Ok a, w).

Definition raise {A} (e : exn) : M A := fun w => (Raise e, w).

Definition bind {A B} (m : M A) (k : A -> M B) : M B :=
  fun w => match m w with
           | (Ok a, w') => k a w'
           | (Raise e, w') => (Raise e, w')
           end.

Definition lift {A} (r : Res A) : M A := fun w => (r, w).

Notation "'let*' x ':=' m 'in' k" := (bind m (fun x => k))
  (at level 10, x name, m at level 100, k at level 200).

Definition emit (e : event) : M unit :=
  fun w => (Ok tt, {| fs := fs w; dirs := dirs w; log := log w;
                      trace := trace w ++ [e]; now := now w |}).

Definition tick : M nat :=
  fun w => (Ok (now w), {| fs := fs w; dirs := dirs w; log := log w;
                           trace := trace w; now := S (now w) |}).

(** [data_log.info(msg)] *)
Definition log_info (msg : string) : M unit :=
  fun w => (Ok tt, {| fs := fs w; dirs := dirs w; log := log w ++ [msg];
                      trace := trace w; now := now w |}).

Definition set_fs (f : gmap string File -> gmap string File) : M unit :=
  fun w => (Ok tt, {| fs := f (fs w); dirs := dirs w; log := log w;
                      trace := trace w; now := now w |}).

(** Directories are recorded under their name followed by a slash, as the
    script writes them.  The directories named on the way to [path] are its
    prefixes that end with a slash. *)
Fixpoint dir_prefixes (path : string) : list string :=
  match path with
  | EmptyString => []
  | String c rest =>
      (if Ascii.eqb c "/" then [String c EmptyString] else [])
      ++ (String c <$> dir_prefixes rest)
  end.

Fixpoint ends_with_slash (s : string) : bool :=
  match s with
  | EmptyString => false
  | String c EmptyString => Ascii.eqb c "/"
  | String _ s' => ends_with_slash s'
  end.

Definition as_dir (path : string) : string :=
  if ends_with_slash path then path else path ++ "/".

(** [os.makedirs(path, exist_ok=True)] for a path that is not empty: the
    directory is created together with every parent that is missing.  The
    process is taken to be allowed to create them, and no file to stand where
    a directory is wanted. *)
Definition makedirs (path : string) : M unit :=
  fun w => (Ok tt, {| fs := fs w;
                      dirs := list_to_set (dir_prefixes (as_dir path)) ∪ dirs w;
                      log := log w;
                      trace := trace w ++ [EvMakedirs path]; now := now w |}).

(** The directory part of a path: what precedes the base name, slash
    included; empty for a name without a slash. *)
Fixpoint has_slash (s : string) : bool :=
  match s with
  | EmptyString => false
  | String c s' => Ascii.eqb c "/" || has_slash s'
  end.

Fixpoint dir_of (path : string) : string :=
  match path with
  | EmptyString => EmptyString
  | String c rest => if has_slash path then String c (dir_of rest) else EmptyString
  end.

(** The current directory and the root always exist. *)
Definition dir_exists (d : string) (w : World) : bool :=
  String.eqb d "" || String.eqb d "/" || bool_decide (d ∈ dirs w).

(** [os.path.exists(path)] *)
Definition path_exists (path : string) : M bool :=
  fun w => (Ok (bool_decide (is_Some (fs w !! path))), w).

(** [os.stat(path).st_size] *)
Definition stat_size (path : string) : M Z :=
  let* _ := emit (EvStat path) in
  fun w => match fs w !! path with
           | Some f => (Ok (Z.of_nat (length (content f))), w)
           | None => (Raise (FileNotFoundError path), w)
           end.

(** [open(path, 'wb')]: the file is created or truncated; when its
    directory does not exist the call raises FileNotFoundError and creates
    nothing.  The process is taken to be allowed to write there. *)
Definition open_wb (path : string) : M unit :=
  let* _ := emit (EvOpen path) in
  fun w =>
    if dir_exists (dir_of path) w
    then (let* t := tick in
          set_fs (fun m => <[path := {| content := []; mtime := t |}]> m)) w
    else (Raise (FileNotFoundError path), w).

(** [outfile.write(chunk)] *)
Definition write (path : string) (chunk : list Byte.byte) : M unit :=
  let* _ := emit (EvWrite path (length chunk)) in
  let* t := tick in
  set_fs (fun m => match m !! path with
                   | Some f => <[path := {| content := content f ++ chunk; mtime := t |}]> m
                   | None => <[path := {| content := chunk; mtime := t |}]> m
                   end).

(** [headers[name]]: the headers of a response are looked up without regard
    to case, under the name in lower case; that is the key of the KeyError
    raised for a header that is missing. *)
Definition header_item (hs : list (string * string)) (name : string) : Res string :=
  match List.find (fun kv => String.eqb (PyStr.lower (fst kv)) (PyStr.lower name)) hs with
  | Some kv => Ok (snd kv)
  | None => Raise (KeyError (PyStr.lower name))
  end.

(** ** The script *)

Record Args := {
  year : string;
  month : option (list string);
  debug : bool;
  user : string
}.

(** The three lists of the summary. *)
Record Buckets := {
  updated : list string;
  new : list string;
  error : list string
}.

Section Cmorph.

(** The remote server, the process environment and the date of the run. *)
Variable http_post : string -> list (string * string) -> option Response.
Variable http_get : nat -> string -> string -> option Response.
Variable environ : gmap string string.
Variable today : string.

(** Modelled from the spec: [check_mdt] of util.py, which is not part of the
    sources at hand.  It is given the open response, the local path and the
    log; it reads the remote modification time from the response and the
    local one from the file system, and answers whether the local copy is up
    to date.  It may raise and it may log, it does not write files. *)
Variable check_mdt : Response -> string -> gmap string File -> Res bool * list string.

Definition call_check_mdt (req : Response) (file_base : string) : M bool :=
  let* _ := emit (EvCheckMdt file_base) in
  fun w =>
    let '(r, lines) := check_mdt req file_base (fs w) in
    (r, {| fs := fs w; dirs := dirs w; log := log w ++ lines;
           trace := trace w; now := now w |}).

(** Modelled from the spec: [print_summary] of util.py, the outcome reporter:
    one record enumerating the identifiers of the three lists. *)
Definition print_summary (updated new error : list string) : M unit :=
  emit (EvSummary updated new error).

(** [requests.post(url, data=values)] *)
Definition requests_post (url : string) (values : list (string * string)) : M Response :=
  let* _ := emit (EvPost url) in
  let* _ := tick in
  match http_post url values with
  | Some r => ret r
  | None => raise RequestException
  end.

(** [requests.get(url, cookies=..., allow_redirects=True, stream=True)] *)
Definition requests_get (url cookies : string) : M Response :=
  let* _ := emit (EvGet url) in
  let* t := tick in
  match http_get t url cookies with
  | Some r => ret r
  | None => raise RequestException
  end.

(** Lines 81 to 86 of [check_file_status]: the status from the two sizes. *)
Definition file_status (size filesize : Z) : Res string :=
  let status := "incomplete" in
  match PyFloat.truediv size filesize with
  | Raise e => Raise e
  | Ok ratio =>
      let percent_complete := PyFloat.mul_int ratio 100 in
      if PyFloat.eqb_int percent_complete 100 then Ok "complete" else Ok status
  end.

Definition check_file_status (filepath : string) (filesize : Z) : M string :=
  let* size := stat_size filepath in
  lift (file_status size filesize).

Definition authenticate (username : string) : M Response :=
  let* pswd :=
    lift (match environ !! "RDAPSWD" with
          | Some p => Ok p
          | None => Raise (KeyError "RDAPSWD")
          end) in
  let url := "https://rda.ucar.edu/cgi-bin/login" in
  let values := [("email", username); ("passwd", pswd); ("action", "login")] in
  let* r := requests_post url values in
  if negb (status_code r =? 200) then
    let* _ := log_info "Bad Authentication" in
    let* _ := log_info (text r) in
    raise (SystemExit 1)
  else ret r.

Definition chunk_size : Z := 1048576.

(** The body of [with open(file_base, 'wb')]: one write per chunk, and a
    progress check after it when the file is larger than one chunk. *)
Fixpoint write_chunks (file_base : string) (filesize : Z)
    (cs : list (list Byte.byte)) : M unit :=
  match cs with
  | [] => ret tt
  | chunk :: cs' =>
      let* _ := write file_base chunk in
      let* _ :=
        (if chunk_size <? filesize
         then let* _ := check_file_status file_base filesize in ret tt
         else ret tt) in
      write_chunks file_base filesize cs'
  end.

(** The transfer proper, lines 109 to 116 of the script. *)
Definition fetch (req : Response) (file_base : string) (filesize : Z) : M string :=
  let* _ := open_wb file_base in
  let* _ := write_chunks file_base filesize (chunks req) in
  let* _ := (if broken req then raise RequestException else ret tt) in
  check_file_status file_base filesize.

Definition download_file (r : Response) (filename file_base : string)
    (update : bool) : M string :=
  let* req := requests_get filename (cookies r) in
  let* len := lift (header_item (headers req) "Content-length") in
  let* filesize := lift (PyStr.int len) in
  let* up_to_date :=
    (if update then call_check_mdt req file_base else ret false) in
  if up_to_date then ret "skip"
  else fetch req file_base filesize.

(** The files of one month: the common directory part, then one name per day. *)
Definition month_files (yr mn : string) (lastday : Z) : list string :=
  let fpath := "v1.0/30min/8km/" ++ yr ++ "/" ++ mn ++ "/" in
  let fname := "CMORPH_V1.0_ADJ_8km-30min_" ++ yr ++ mn ++ "DD00.nc" in
  let days := PyStr.fmt_2d <$> seqZ 1 lastday in
  (fun x => fpath ++ PyStr.replace fname "DD" x) <$> days.

Fixpoint get_filelist_from (flist : list string) (yr : string) (mns : list string)
    (data_dir : string) : M (list string) :=
  match mns with
  | [] => ret flist
  | mn :: mns' =>
      let fpath := "v1.0/30min/8km/" ++ yr ++ "/" ++ mn ++ "/" in
      let* _ := makedirs (data_dir ++ "/" ++ fpath) in
      let* y := lift (PyStr.int yr) in
      let* m := lift (PyStr.int mn) in
      let* range := lift (Calendar.monthrange y m) in
      let lastday := snd range in
      get_filelist_from (flist ++ month_files yr mn lastday) yr mns' data_dir
  end.

Definition get_filelist (yr : string) (mns : list string) (data_dir : string)
    : M (list string) :=
  get_filelist_from [] yr mns data_dir.

Definition dspath : string := "https://rda.ucar.edu/data/ds502.2/".

Definition remote_url (fpath : string) : string := dspath ++ "cmorph_" ++ fpath.

Definition local_path (data_dir fpath : string) : string := data_dir ++ "/" ++ fpath.

(** The classification of one target, lines 178 to 184 of the script. *)
Definition record (fpath : string) (update : bool) (status : string)
    (b : Buckets) : Buckets :=
  if String.eqb status "complete" then
    if update
    then {| updated := updated b ++ [fpath]; new := new b; error := error b |}
    else {| updated := updated b; new := new b ++ [fpath]; error := error b |}
  else if String.eqb status "incomplete" then
    {| updated := updated b; new := new b; error := error b ++ [fpath] |}
  else b.

(** One turn of the download loop of [main]. *)
Definition process (r : Response) (data_dir fpath : string) (b : Buckets) : M Buckets :=
  let remote := remote_url fpath in
  let file_base := local_path data_dir fpath in
  let* exists_ := path_exists file_base in
  let update := if exists_ then true else false in
  let* status := download_file r remote file_base update in
  ret (record fpath update status b).

Fixpoint download_all (r : Response) (data_dir : string) (flist : list string)
    (b : Buckets) : M Buckets :=
  match flist with
  | [] => ret b
  | fpath :: rest =>
      let* b' := process r data_dir fpath b in
      download_all r data_dir rest b'
  end.

Definition root_dir : string :=
  default "/g/data/ia39/aus-ref-clim-data-nci" (environ !! "AUSREFDIR").

Definition data_dir : string := root_dir ++ "/cmorph/data".

Definition main (args : Args) : M unit :=
  let yr := year args in
  let allmns := PyStr.fmt_2d <$> seqZ 1 12 in
  let mns := default allmns (month args) in
  let usr := default "None" (environ !! "USER") in
  let* _ := log_info ("Updated on " ++ today ++ " by " ++ usr) in
  let* r := authenticate (user args) in
  let* flist := get_filelist yr mns data_dir in
  let* b := download_all r data_dir flist
              {| updated := []; new := []; error := [] |} in
  print_summary (updated b) (new b) (error b).

End Cmorph.

(** ** Definitions that follow the words of the specification *)

(** A four-digit year and a two-digit month between 01 and 12. *)
Definition valid_year (yr : string) : Prop :=
  String.length yr = 4%nat /\ PyStr.all_digits yr = true.

Definition two_digit_months : list string :=
  ["01"; "02"; "03"; "04"; "05"; "06"; "07"; "08"; "09"; "10"; "11"; "12"].

Definition valid_month (mn : string) : Prop := mn ∈ two_digit_months.

(** Standard calendar rules: a year is a leap year when it is divisible by 4
    and not by 100, or divisible by 400. *)
Definition leap_year (y : Z) : bool :=
  ((y mod 4 =? 0) && negb (y mod 100 =? 0)) || (y mod 400 =? 0).

Definition calendar_days (y m : Z) : Z :=
  match m with
  | 1 | 3 | 5 | 7 | 8 | 10 | 12 => 31
  | 4 | 6 | 9 | 11 => 30
  | 2 => if leap_year y then 29 else 28
  | _ => 0
  end.

(** The path of a target below the roots, as the script builds it. *)
Definition target_path (yr mn dd : string) : string :=
  "v1.0/30min/8km/" ++ yr ++ "/" ++ mn ++ "/CMORPH_V1.0_ADJ_8km-30min_"
    ++ yr ++ mn ++ dd ++ "00.nc".

(** The remote path pattern as the specification words it. *)
Definition spec_remote_pattern (yr mn dd : string) : string :=
  "v1.0/30min/8km/" ++ yr ++ "/" ++ mn ++ "/cmorph_v1.0/30min/8km/" ++ yr ++ "/"
    ++ mn ++ "/CMORPH_V1.0_ADJ_8km-30min_" ++ yr ++ mn ++ dd ++ "00.nc".

(** The targets of one month and of a list of months, in the order of the
    plan: one per calendar day. *)
Definition month_targets (yr mn : string) : list string :=
  (fun d => target_path yr mn (PyStr.fmt_2d d))
    <$> seqZ 1 (calendar_days (PyStr.dec_value 0 yr) (PyStr.dec_value 0 mn)).

Definition plan (yr : string) (mns : list string) : list string :=
  mns ≫= month_targets yr.

(** The directory made for a month before its files are listed. *)
Definition month_dir (data_dir yr mn : string) : string :=
  data_dir ++ "/" ++ "v1.0/30min/8km/" ++ yr ++ "/" ++ mn ++ "/".

(** The remote path below the data set root, as the script requests it. *)
Definition code_remote_pattern (yr mn dd : string) : string :=
  "cmorph_v1.0/30min/8km/" ++ yr ++ "/" ++ mn ++ "/CMORPH_V1.0_ADJ_8km-30min_"
    ++ yr ++ mn ++ dd ++ "00.nc".

(** A world with no file, no directory and nothing logged. *)
Definition empty_world : World :=
  {| fs := ∅; dirs := ∅; log := []; trace := []; now := 0%nat |}.

(** Events of a transfer to [path]: writes and size checks of that file. *)
Definition transfer_event (path : string) (e : event) : Prop :=
  e = EvStat path \/ exists n, e = EvWrite path n.

(** An event that is not a staleness check. *)
Definition not_check_mdt (e : event) : Prop := forall p, e <> EvCheckMdt p.

(** A response that carries no Content-length header, in any letter case. *)
Definition lacks_content_length (req : Response) : Prop :=
  Forall (fun kv => PyStr.lower (fst kv) <> "content-length") (headers req).

Definition login_url : string := "https://rda.ucar.edu/cgi-bin/login".

(** [sub in s] *)
Fixpoint contains (sub s : string) : bool :=
  String.prefix sub s
  || match s with
     | EmptyString => false
     | String _ s' => contains sub s'
     end.

(** ** Concrete servers and worlds, used to run the script *)

Definition ok_response (len : string) (body : list (list Byte.byte)) : Response :=
  {| status_code := 200; text := "OK"; cookies := "sess=1";
     headers := [("Content-Length", len); ("Last-Modified", "Tue, 28 Jun 2022 00:00:00 GMT")];
     chunks := body; broken := false |}.

Definition no_length_response : Response :=
  {| status_code := 200; text := "OK"; cookies := "sess=1";
     headers := [("Last-Modified", "Tue, 28 Jun 2022 00:00:00 GMT")];
     chunks := [[Byte.x00]]; broken := false |}.

Definition forbidden_response : Response :=
  {| status_code := 403; text := "Forbidden"; cookies := "";
     headers := []; chunks := []; broken := false |}.

Definition login_accepts : string -> list (string * string) -> option Response :=
  fun _ _ => Some (ok_response "2" []).

Definition login_forbids : string -> list (string * string) -> option Response :=
  fun _ _ => Some forbidden_response.

(** A server on which every file is one byte long, declared as [len]. *)
Definition one_byte_server (len : string) : nat -> string -> string -> option Response :=
  fun _ _ _ => Some (ok_response len [[Byte.x00]]).

(** A server on which every file is empty and declared as such. *)
Definition empty_file_server : nat -> string -> string -> option Response :=
  fun _ _ _ => Some (ok_response "0" []).

Definition headerless_server : nat -> string -> string -> option Response :=
  fun _ _ _ => Some no_length_response.

(** Staleness checks that find the local copy always, or never, up to date. *)
Definition always_fresh : Response -> string -> gmap string File -> Res bool * list string :=
  fun _ _ _ => (Ok true, []).

Definition always_stale : Response -> string -> gmap string File -> Res bool * list string :=
  fun _ _ _ => (Ok false, []).

Definition rda_environ : gmap string string := {[ "RDAPSWD" := "secret" ]}.

Definition feb_first : string :=
  "v1.0/30min/8km/2022/02/CMORPH_V1.0_ADJ_8km-30min_2022020100.nc".

Definition feb_second : string :=
  "v1.0/30min/8km/2022/02/CMORPH_V1.0_ADJ_8km-30min_2022020200.nc".

(** The directory of February 2022 below /g/data, with its parents. *)
Definition feb_dirs : gset string :=
  list_to_set (dir_prefixes "/g/data/v1.0/30min/8km/2022/02/").

(** A world in which that directory exists and holds no file. *)
Definition feb_world : World :=
  {| fs := ∅; dirs := feb_dirs; log := []; trace := []; now := 0%nat |}.

(** A world in which the first file of February 2022 is already on disk. *)
Definition world_with_feb_first : World :=
  {| fs := {[ local_path "/g/data" feb_first
              := {| content := [Byte.x01; Byte.x02]; mtime := 0%nat |} ]};
     dirs := feb_dirs; log := []; trace := []; now := 0%nat |}.

(** The summary lists of a run, before the first target and all together. *)
Definition no_buckets : Buckets := {| updated := []; new := []; error := [] |}.

Definition all_entries (b : Buckets) : list string :=
  updated b ++ new b ++ error b.

(** ** Notions used to reason about rounding *)

(** The nonnegative rational [N / D] has integer part [m], and [l] locates it
    between [m] and [m + 1]: exactly [m], below, at or above the midpoint. *)
Definition inbetween (N D m : Z) (l : location) : Prop :=
  0 < D /\ 0 <= N /\ m = N / D /\
  match l with
  | loc_Exact => N mod D = 0
  | loc_Inexact c => N mod D <> 0 /\ (2 * (N mod D) ?= D) = c
  end.

(** What [binary_round_aux] returns for a mantissa and an exponent, with the
    overflow test of binary64. *)
Definition finite_or_inf (s : bool) (m e : Z) : spec_float :=
  if e <=? PyFloat.emax - PyFloat.prec then S754_finite s (Z.to_pos m) e
  else S754_infinity s.

(** The floats 1.0 and 100.0. *)
Definition float_one : spec_float := S754_finite false 4503599627370496 (-52).
Definition float_hundred : spec_float := S754_finite false 7036874417766400 (-46).

(** ** Notions used by the further properties *)


Definition is_Ok {A} (r : Res A) : bool :=
  match r with Ok _ => true | Raise _ => false end.

(** Events of the download of one target stored at [path], after its GET. *)
Definition local_event (path : string) (e : event) : Prop :=
  e = EvCheckMdt path \/ e = EvOpen path \/ transfer_event path e.

(** The URLs requested, and the summaries printed, in a trace. *)
Definition gets (evs : list event) : list string :=
  omap (fun e => match e with EvGet url => Some url | _ => None end) evs.

Definition summaries (evs : list event) : list Buckets :=
  omap (fun e => match e with
                 | EvSummary u n e => Some {| updated := u; new := n; error := e |}
                 | _ => None
                 end) evs.

(** The events of a transfer that runs to its end: one write per chunk, a
    progress check after each when the file is larger than one chunk. *)
Definition chunk_events (path : string) (filesize : Z) (chunk : list Byte.byte)
    : list event :=
  EvWrite path (length chunk)
  :: (if chunk_size <? filesize then [EvStat path] else []).

(** The months of a run: those given with -m, or all twelve. *)
Definition months_of (args : Args) : list string :=
  default (PyStr.fmt_2d <$> seqZ 1 12) (month args).

(** A response whose stream breaks after the first of the two bytes declared,
    and a server that answers every request with it. *)
Definition broken_response : Response :=
  {| status_code := 200; text := "OK"; cookies := "sess=1";
     headers := [("Content-Length", "2")];
     chunks := [[Byte.x00]]; broken := true |}.

Definition breaking_server : nat -> string -> string -> option Response :=
  fun _ _ _ => Some broken_response.

(** The arguments of a run over the whole of 2024. *)
Definition year_2024_args : Args :=
  {| year := "2024"; month := None; debug := false; user := "me@example.org" |}.

(** The arguments of a run over February 2022. *)
Definition feb_args : Args :=
  {| year := "2022"; month := Some ["02"]; debug := false; user := "me@example.org" |}.

(** * Properties *)

(** ** Strings *)

Example int_2022 : PyStr.py_int "2022" = Some 2022.
Proof. reflexivity. Qed.
Example int_signed_spaced : PyStr.py_int " -1_000 " = Some (-1000).
Proof. reflexivity. Qed.
Example int_double_underscore : PyStr.py_int "1__0" = None.
Proof. reflexivity. Qed.
Example int_empty : PyStr.py_int "" = None.
Proof. reflexivity. Qed.
Example int_no_break_space :
  PyStr.py_int (String (ascii_of_nat 49) (String (ascii_of_nat 160) "")) = Some 1.
Proof. reflexivity. Qed.
Example int_file_separator :
  PyStr.py_int (String (ascii_of_nat 28) (String (ascii_of_nat 50) "")) = None.
Proof. reflexivity. Qed.
Example fmt_7 : PyStr.fmt_2d 7 = "07".
Proof. reflexivity. Qed.
Example fmt_123 : PyStr.fmt_2d 123 = "123".
Proof. reflexivity. Qed.
Example replace_overlap : PyStr.replace "aDDbDDD" "DD" "07" = "a07b07D".
Proof. reflexivity. Qed.
Example replace_empty_old : PyStr.replace "ab" "" "-" = "-a-b-".
Proof. reflexivity. Qed.
Example monthrange_feb_2022 : Calendar.monthrange 2022 2 = Ok (1, 28).
Proof. reflexivity. Qed.
Example monthrange_feb_2000 : Calendar.monthrange 2000 2 = Ok (1, 29).
Proof. reflexivity. Qed.
Example monthrange_bad_month : Calendar.monthrange 2022 13 = Raise (IllegalMonthError 13).
Proof. reflexivity. Qed.

Module PyStrFacts.
Import PyStr.

Lemma is_digit_range c :
  is_digit c = true -> (48 <= nat_of_ascii c <= 57)%nat.
Proof.
  unfold is_digit. rewrite andb_true_iff, !Nat.leb_le. lia.
Qed.

Lemma digit_not_space c : is_digit c = true -> is_space c = false.
Proof.
  intros H%is_digit_range. unfold is_space.
  rewrite !orb_false_iff, andb_false_iff, !Nat.eqb_neq, !Nat.leb_gt. lia.
Qed.

Lemma count_digits_all s :
  all_digits s = true -> count_digits s = Z.of_nat (String.length s).
Proof.
  induction s as [|c s IH]; [done|].
  intros [Hc Hs]%andb_true_iff. cbn [count_digits String.length].
  rewrite Hc, IH by done. lia.
Qed.

Lemma digit_of_digit c :
  is_digit c = true -> digit_of c = Some (Z.of_nat (nat_of_ascii c) - 48).
Proof. unfold digit_of. now intros ->. Qed.

Lemma digit_neq c (d : ascii) :
  is_digit c = true -> is_digit d = false -> c <> d.
Proof. intros Hc Hd ->. congruence. Qed.

Lemma lstrip_digits s : all_digits s = true -> lstrip s = s.
Proof.
  destruct s as [|c s]; simpl; [done|].
  intros [Hc _]%andb_true_iff. now rewrite digit_not_space.
Qed.

Lemma rstrip_digits s : all_digits s = true -> rstrip s = s.
Proof.
  induction s as [|c s IH]; simpl; [done|].
  intros [Hc Hs]%andb_true_iff. rewrite IH by done.
  destruct s; [now rewrite digit_not_space | done].
Qed.

Lemma int_digits_digits s : forall acc b,
  all_digits s = true -> (s <> "" \/ b = true) ->
  int_digits acc b s = Some (dec_value acc s).
Proof.
  induction s as [|c s IH]; intros acc b Hd Hne; simpl.
  - destruct Hne as [Hne | Hb]; [done | now rewrite Hb].
  - simpl in Hd. apply andb_true_iff in Hd as [Hc Hs].
    rewrite digit_of_digit by done. apply IH; auto.
Qed.

Lemma py_int_digits s :
  all_digits s = true -> s <> "" -> (String.length s <= 4300)%nat ->
  py_int s = Some (dec_value 0 s).
Proof.
  intros Hd Hne Hlen. unfold py_int. cbv zeta.
  rewrite lstrip_digits, rstrip_digits by done.
  replace (max_str_digits <? count_digits s) with false
    by (symmetry; apply Z.ltb_ge; rewrite count_digits_all by done;
        unfold max_str_digits; lia).
  destruct s as [|c s]; [done|].
  assert (Hc : is_digit c = true) by (simpl in Hd; now apply andb_true_iff in Hd).
  assert (c <> "+"%char) by (apply digit_neq; done).
  assert (c <> "-"%char) by (apply digit_neq; done).
  transitivity (int_digits 0 false (String c s)).
  - destruct c as [b0 b1 b2 b3 b4 b5 b6 b7].
    destruct b0, b1, b2, b3, b4, b5, b6, b7; try reflexivity; congruence.
  - apply int_digits_digits; auto.
Qed.

End PyStrFacts.

(** ** The file plan *)

Module PlanFacts.
Import PyStr PyStrFacts.

Lemma append_cons c s t : String c s ++ t = String c (s ++ t).
Proof. reflexivity. Qed.

Lemma append_empty t : "" ++ t = t.
Proof. reflexivity. Qed.

Lemma prefix_cons a s1 b s2 :
  String.prefix (String a s1) (String b s2)
  = if ascii_dec a b then String.prefix s1 s2 else false.
Proof. reflexivity. Qed.

Lemma prefix_DD_other c s : c <> "D"%char -> String.prefix "DD" (String c s) = false.
Proof. intros Hc. rewrite prefix_cons. destruct (ascii_dec "D" c); congruence. Qed.

Lemma replace_go_other x c s :
  c <> "D"%char ->
  replace_go "DD" x 0 (String c s) = String c (replace_go "DD" x 0 s).
Proof.
  intros Hc. change (replace_go "DD" x 0 (String c s))
    with (if String.prefix "DD" (String c s)
          then x ++ replace_go "DD" x (String.length "DD" - 1) s
          else String c (replace_go "DD" x 0 s)).
  now rewrite prefix_DD_other.
Qed.

Lemma replace_go_single_D x c s :
  c <> "D"%char ->
  replace_go "DD" x 0 (String "D" (String c s))
  = String "D" (String c (replace_go "DD" x 0 s)).
Proof.
  intros Hc.
  change (replace_go "DD" x 0 (String "D" (String c s)))
    with (if String.prefix "DD" (String "D" (String c s))
          then x ++ replace_go "DD" x (String.length "DD" - 1) (String c s)
          else String "D" (replace_go "DD" x 0 (String c s))).
  replace (String.prefix "DD" (String "D" (String c s))) with false.
  - now rewrite replace_go_other.
  - rewrite !prefix_cons. destruct (ascii_dec "D" "D"); [|done].
    destruct (ascii_dec "D" c); congruence.
Qed.

Lemma replace_go_digits x d : forall t,
  all_digits d = true ->
  replace_go "DD" x 0 (d ++ t) = d ++ replace_go "DD" x 0 t.
Proof.
  induction d as [|c d IH]; intros t Hd; [done|].
  simpl in Hd. apply andb_true_iff in Hd as [Hc Hd].
  change (String c d ++ t) with (String c (d ++ t)).
  rewrite replace_go_other by (apply digit_neq; done).
  now rewrite IH.
Qed.

(** The day marker is the only occurrence of [DD] in the name of a file,
    whatever digits the year and the month are made of. *)
Lemma replace_fname yr mn x :
  all_digits yr = true -> all_digits mn = true ->
  replace ("CMORPH_V1.0_ADJ_8km-30min_" ++ yr ++ mn ++ "DD00.nc") "DD" x
  = "CMORPH_V1.0_ADJ_8km-30min_" ++ yr ++ mn ++ x ++ "00.nc".
Proof.
  intros Hy Hm. unfold replace.
  rewrite !append_cons, !append_empty.
  do 13 (rewrite replace_go_other by discriminate).
  rewrite replace_go_single_D by discriminate.
  do 11 (rewrite replace_go_other by discriminate).
  rewrite !replace_go_digits by done.
  reflexivity.
Qed.

End PlanFacts.

Module CalendarFacts.
Import Calendar.

Lemma isleap_leap_year y : isleap y = leap_year y.
Proof.
  unfold isleap, leap_year.
  destruct (Z.eqb_spec (y mod 4) 0) as [H4|H4],
           (Z.eqb_spec (y mod 100) 0) as [H100|H100],
           (Z.eqb_spec (y mod 400) 0) as [H400|H400];
    simpl; try reflexivity; exfalso;
    revert H4 H100 H400; Z.div_mod_to_equations; lia.
Qed.

Lemma monthrange_days y m :
  1 <= m <= 12 -> exists day1, monthrange y m = Ok (day1, calendar_days y m).
Proof.
  intros Hm. unfold monthrange.
  replace ((1 <=? m) && (m <=? 12)) with true
    by (symmetry; apply andb_true_iff; split; apply Z.leb_le; lia).
  simpl negb. cbv iota. eexists. do 2 f_equal.
  rewrite isleap_leap_year.
  assert (Hcases : m = 1 \/ m = 2 \/ m = 3 \/ m = 4 \/ m = 5 \/ m = 6 \/ m = 7
                   \/ m = 8 \/ m = 9 \/ m = 10 \/ m = 11 \/ m = 12) by lia.
  repeat destruct Hcases as [-> | Hcases]; try subst m;
    try reflexivity; simpl; destruct (leap_year y); reflexivity.
Qed.

Lemma calendar_days_range y m : 1 <= m <= 12 -> 28 <= calendar_days y m <= 31.
Proof.
  intros Hm.
  assert (Hcases : m = 1 \/ m = 2 \/ m = 3 \/ m = 4 \/ m = 5 \/ m = 6 \/ m = 7
                   \/ m = 8 \/ m = 9 \/ m = 10 \/ m = 11 \/ m = 12) by lia.
  repeat destruct Hcases as [-> | Hcases]; try subst m; simpl;
    try destruct (leap_year y); lia.
Qed.

End CalendarFacts.

(** ** Floats: rounding, division and the comparison with 100 *)

Module RoundingFacts.

Lemma digits2_pos_size p : digits2_pos p = Pos.size p.
Proof. induction p as [p IH|p IH|]; simpl; now rewrite ?IH. Qed.

Lemma Zdigits2_log2 m : 0 < m -> Zdigits2 m = Z.log2 m + 1.
Proof.
  destruct m as [|p|p]; try lia. intros _. simpl.
  destruct p as [p|p|]; simpl; rewrite ?digits2_pos_size; lia.
Qed.

Lemma Zdigits2_bounds m :
  0 < m -> 2 ^ (Zdigits2 m - 1) <= m < 2 ^ Zdigits2 m.
Proof.
  intros Hm. rewrite Zdigits2_log2 by done.
  replace (Z.log2 m + 1 - 1) with (Z.log2 m) by lia.
  replace (Z.log2 m + 1) with (Z.succ (Z.log2 m)) by lia.
  now apply Z.log2_spec.
Qed.

Lemma Zdigits2_le m k : 0 < m -> m < 2 ^ k -> Zdigits2 m <= k.
Proof.
  intros Hm Hlt. rewrite Zdigits2_log2 by done.
  apply Z.log2_lt_pow2 in Hlt; lia.
Qed.

Lemma Zdigits2_ge m k : 0 < m -> 2 ^ (k - 1) <= m -> k <= Zdigits2 m.
Proof.
  intros Hm Hle. rewrite Zdigits2_log2 by done.
  destruct (Z.le_gt_cases 0 (k - 1)) as [Hk|Hk].
  - apply Z.log2_le_pow2 in Hle; lia.
  - pose proof (Z.log2_nonneg m). lia.
Qed.

Lemma shr_1_eq mrs :
  0 <= shr_m mrs ->
  shr_1 mrs = {| shr_m := shr_m mrs / 2; shr_r := Z.odd (shr_m mrs);
                 shr_s := shr_r mrs || shr_s mrs |}.
Proof.
  destruct mrs as [m r s]. simpl. intros Hm.
  rewrite <- Z.div2_div.
  destruct m as [|p|p]; [done| |lia].
  destruct p; reflexivity.
Qed.

Lemma shr_1_inbetween N D mrs :
  inbetween N D (shr_m mrs) (loc_of_shr_record mrs) ->
  inbetween N (2 * D) (shr_m (shr_1 mrs)) (loc_of_shr_record (shr_1 mrs)).
Proof.
  intros (HD & HN & Hm & Hl).
  assert (Hm0 : 0 <= shr_m mrs) by (rewrite Hm; apply Z.div_pos; lia).
  rewrite shr_1_eq by done.
  destruct mrs as [m r s]. simpl in *.
  pose proof (Z.mod_pos_bound N D HD) as Hr0.
  pose proof (Zmod_odd m) as Hodd.
  assert (Hdiv : N / (2 * D) = m / 2).
  { rewrite Hm, Z.div_div by lia. f_equal. lia. }
  assert (Hmod : N mod (2 * D) = N mod D + D * (m mod 2)).
  { rewrite (Z.mul_comm 2 D), Z.rem_mul_r by lia. now rewrite Hm. }
  split_and!; [lia|done|done|].
  rewrite Hmod, Hodd.
  destruct r, s, (Z.odd m); simpl in *;
    repeat match goal with
    | H : _ /\ _ |- _ => destruct H
    | H : (_ ?= _) = _ |- _ => apply Z.compare_eq_iff in H || rewrite Z.compare_lt_iff in H || rewrite Z.compare_gt_iff in H
    | |- _ /\ _ => split
    | |- (_ ?= _) = Eq => apply Z.compare_eq_iff
    | |- (_ ?= _) = Lt => apply Z.compare_lt_iff
    | |- (_ ?= _) = Gt => apply Z.compare_gt_iff
    end; lia.
Qed.

Lemma iter_shr_1_inbetween N p : forall D mrs,
  inbetween N D (shr_m mrs) (loc_of_shr_record mrs) ->
  inbetween N (D * 2 ^ Zpos p) (shr_m (SpecFloat.iter_pos shr_1 p mrs))
    (loc_of_shr_record (SpecFloat.iter_pos shr_1 p mrs)).
Proof.
  induction p as [p IH|p IH|]; intros D mrs H; simpl SpecFloat.iter_pos.
  - apply shr_1_inbetween, IH, IH in H.
    replace (D * 2 ^ Z.pos p~1) with (2 * D * 2 ^ Z.pos p * 2 ^ Z.pos p); [done|].
    replace (Z.pos p~1) with (Z.pos p + Z.pos p + 1) by lia.
    rewrite !Z.pow_add_r by lia. ring.
  - apply IH, IH in H.
    replace (D * 2 ^ Z.pos p~0) with (D * 2 ^ Z.pos p * 2 ^ Z.pos p); [done|].
    replace (Z.pos p~0) with (Z.pos p + Z.pos p) by lia.
    rewrite !Z.pow_add_r by lia. ring.
  - apply shr_1_inbetween in H. now rewrite Z.mul_comm.
Qed.

Lemma shr_inbetween N D mrs e n :
  inbetween N D (shr_m mrs) (loc_of_shr_record mrs) ->
  0 <= n ->
  inbetween N (D * 2 ^ n) (shr_m (fst (shr mrs e n)))
    (loc_of_shr_record (fst (shr mrs e n)))
  /\ snd (shr mrs e n) = e + n.
Proof.
  intros H Hn. destruct n as [|p|p]; [| |lia].
  - simpl. rewrite Z.mul_1_r. split; [done | lia].
  - simpl. split; [|done]. now apply iter_shr_1_inbetween.
Qed.

Lemma loc_of_shr_record_of_loc m l :
  loc_of_shr_record (shr_record_of_loc m l) = l
  /\ shr_m (shr_record_of_loc m l) = m.
Proof. now destruct l as [|[]]. Qed.

Lemma round_nearest_even_spec N D m l :
  inbetween N D m l ->
  (round_nearest_even m l = m \/ round_nearest_even m l = m + 1)
  /\ 2 * Z.abs (round_nearest_even m l * D - N) <= D.
Proof.
  intros (HD & HN & Hm & Hl).
  pose proof (Z.mod_pos_bound N D HD) as Hr0.
  pose proof (Z.div_mod N D ltac:(lia)) as Hdm. rewrite <- Hm in Hdm.
  destruct l as [|[]]; simpl.
  - split; [now left|]. nia.
  - destruct Hl as [Hne Hc%Z.compare_eq_iff].
    destruct (Z.even m); split; auto; nia.
  - destruct Hl as [Hne Hc]. rewrite Z.compare_lt_iff in Hc.
    split; [now left|]. nia.
  - destruct Hl as [Hne Hc]. rewrite Z.compare_gt_iff in Hc.
    split; [now right|]. nia.
Qed.

Lemma fexp_normal e : -1074 <= e - 53 -> fexp PyFloat.prec PyFloat.emax e = e - 53.
Proof. unfold fexp, emin, PyFloat.prec, PyFloat.emax. lia. Qed.

Lemma Zdigits2_unique m d : 0 < m -> 2 ^ (d - 1) <= m < 2 ^ d -> Zdigits2 m = d.
Proof.
  intros Hm [Hlo Hhi].
  assert (Hd : 0 <= d).
  { destruct (Z.le_gt_cases 0 d); [done|]. rewrite Z.pow_neg_r in Hhi; lia. }
  pose proof (Zdigits2_le m d Hm Hhi). pose proof (Zdigits2_ge m d Hm Hlo). lia.
Qed.

(** Rounding a value [N / D * 2^ex] whose integer part [mx] has at least 53
    bits, away from the subnormal range: the mantissa [M'] chosen is within
    half a unit of the value at the new exponent, and a carry to [2^53] is
    renormalised. *)
Lemma binary_round_aux_normal N D s mx ex lx :
  inbetween N D mx lx -> 2 ^ 52 <= mx -> -1074 <= ex ->
  let n := Zdigits2 mx - 53 in
  exists M',
    2 ^ 52 <= M' <= 2 ^ 53
    /\ 0 <= n
    /\ 2 * Z.abs (M' * (D * 2 ^ n) - N) <= D * 2 ^ n
    /\ binary_round_aux PyFloat.prec PyFloat.emax s mx ex lx
       = if M' <? 2 ^ 53 then finite_or_inf s M' (ex + n)
         else finite_or_inf s (2 ^ 52) (ex + n + 1).
Proof.
  intros Hin Hmx Hex n.
  assert (Hmx0 : 0 < mx) by lia.
  pose proof (Zdigits2_bounds mx Hmx0) as [Hlo Hhi].
  assert (Hd : 53 <= Zdigits2 mx) by (apply Zdigits2_ge; [done|exact Hmx]).
  assert (Hn : 0 <= n) by (unfold n; lia).
  unfold binary_round_aux, shr_fexp.
  rewrite fexp_normal by lia.
  replace (Zdigits2 mx + ex - 53 - ex) with n by (unfold n; lia).
  pose proof (loc_of_shr_record_of_loc mx lx) as [Hloc Hm].
  assert (Hin0 : inbetween N D (shr_m (shr_record_of_loc mx lx))
                   (loc_of_shr_record (shr_record_of_loc mx lx)))
    by now rewrite Hloc, Hm.
  destruct (shr_inbetween N D _ ex n Hin0 Hn) as [Hin1 He1].
  destruct (shr (shr_record_of_loc mx lx) ex n) as [mrs1 e1]. simpl in Hin1, He1.
  subst e1.
  set (m1 := shr_m mrs1) in *. set (l1 := loc_of_shr_record mrs1) in *.
  destruct (round_nearest_even_spec _ _ _ _ Hin1) as [HM Hhalf].
  set (M' := round_nearest_even m1 l1) in *.
  assert (Hpow : 0 < 2 ^ n) by (apply Z.pow_pos_nonneg; lia).
  assert (Hm1 : 2 ^ 52 <= m1 < 2 ^ 53).
  { destruct Hin as (HD & HN & Hmxeq & _). destruct Hin1 as (_ & _ & Hm1eq & _).
    rewrite <- Z.div_div, <- Hmxeq in Hm1eq by lia. rewrite Hm1eq.
    replace (Zdigits2 mx) with (53 + n) in Hhi by (unfold n; lia).
    replace (Zdigits2 mx - 1) with (52 + n) in Hlo by (unfold n; lia).
    rewrite Z.pow_add_r in Hlo, Hhi by lia. split.
    - apply Z.div_le_lower_bound; lia.
    - apply Z.div_lt_upper_bound; lia. }
  exists M'. split_and!; [lia|lia|done|exact Hhalf|].
  destruct (Z.ltb_spec M' (2 ^ 53)) as [Hlt|Hge].
  - assert (HdM : Zdigits2 M' = 53) by (apply Zdigits2_unique; simpl; lia).
    rewrite HdM, fexp_normal by lia.
    replace (53 + (ex + n) - 53 - (ex + n)) with 0 by lia.
    simpl. unfold finite_or_inf.
    destruct M' as [|p|p]; try lia. reflexivity.
  - assert (HM53 : M' = 2 ^ 53) by lia. rewrite HM53.
    change (Zdigits2 (2 ^ 53)) with 54. rewrite fexp_normal by lia.
    replace (54 + (ex + n) - 53 - (ex + n)) with 1 by lia.
    simpl. unfold finite_or_inf. reflexivity.
Qed.

Lemma new_location_inbetween N D :
  0 < D -> 0 <= N -> inbetween N D (N / D) (new_location D (N mod D)).
Proof.
  intros HD HN. split_and!; [done..|].
  pose proof (Z.mod_pos_bound N D HD) as Hr.
  unfold new_location, new_location_even, new_location_odd.
  destruct (Z.even D) eqn:Heven; destruct (Z.eqb_spec (N mod D) 0) as [H0|H0];
    try done.
  split; [done|].
  pose proof (Zmod_even D) as Hmod. rewrite Heven in Hmod.
  pose proof (Z.div_mod D 2 ltac:(lia)) as HD2. rewrite Hmod in HD2.
  destruct (Z.compare_spec (2 * (N mod D) + 1) D);
    [apply Z.compare_lt_iff | apply Z.compare_lt_iff | apply Z.compare_gt_iff]; lia.
Qed.

Lemma div_eucl_div_mod a b : Z.div_eucl a b = (a / b, a mod b).
Proof. unfold Z.div, Z.modulo. now destruct (Z.div_eucl a b). Qed.

(** The scaling chosen by the division: the quotient computed has at least
    53 bits. *)
Lemma SFdiv_core_binary_spec a b :
  0 < a -> 0 < b < 2 ^ 53 ->
  let s := Z.max 0 (53 + Zdigits2 b - Zdigits2 a) in
  SFdiv_core_binary PyFloat.prec PyFloat.emax a 0 b 0
  = ((a * 2 ^ s) / b, - s, new_location b ((a * 2 ^ s) mod b))
  /\ 2 ^ 52 <= (a * 2 ^ s) / b.
Proof.
  intros Ha [Hb Hb53] s.
  pose proof (Zdigits2_bounds a Ha) as [Halo Hahi].
  pose proof (Zdigits2_bounds b Hb) as [Hblo Hbhi].
  assert (Hd2 : Zdigits2 b <= 53) by now apply Zdigits2_le.
  assert (Hd1 : 1 <= Zdigits2 a) by (apply Zdigits2_ge; simpl; lia).
  assert (Hd2' : 1 <= Zdigits2 b) by (apply Zdigits2_ge; simpl; lia).
  split.
  - unfold SFdiv_core_binary.
    replace (Zdigits2 a + 0 - (Zdigits2 b + 0)) with (Zdigits2 a - Zdigits2 b) by lia.
    rewrite fexp_normal by lia.
    replace (Z.min (Zdigits2 a - Zdigits2 b - 53) (0 - 0)) with (- s) by (unfold s; lia).
    replace (0 - 0 - - s) with s by lia.
    assert (Hs : 0 <= s) by (unfold s; lia).
    replace (match s with Z0 => a | Z.pos _ => Z.shiftl a s | Z.neg _ => 0 end)
      with (a * 2 ^ s).
    + now rewrite div_eucl_div_mod.
    + destruct s as [|p|p] eqn:Hs'; [simpl; lia| |lia].
      now rewrite Z.shiftl_mul_pow2 by lia.
  - assert (Hs : 0 <= s) by (unfold s; lia).
    apply Z.div_le_lower_bound; [done|].
    assert (Hge : 2 ^ 52 * 2 ^ Zdigits2 b <= a * 2 ^ s).
    { rewrite <- Z.pow_add_r by lia.
      transitivity (2 ^ (Zdigits2 a - 1) * 2 ^ s).
      - rewrite <- Z.pow_add_r by lia. apply Z.pow_le_mono_r; unfold s; lia.
      - apply Z.mul_le_mono_nonneg_r; [|done]. apply Z.pow_nonneg. lia. }
    nia.
Qed.

(** The quotient of two positive ints, the divisor below [2^53]: a mantissa
    of 53 bits within half a unit of the exact quotient, or an overflow. *)
Lemma SFdiv_pos (pa pb : positive) :
  Zpos pb < 2 ^ 53 ->
  let a := Zpos pa in
  let b := Zpos pb in
  let s := Z.max 0 (53 + Zdigits2 b - Zdigits2 a) in
  let n := Zdigits2 ((a * 2 ^ s) / b) - 53 in
  exists M',
    2 ^ 52 <= M' <= 2 ^ 53 /\ 0 <= n
    /\ 2 * Z.abs (M' * (b * 2 ^ n) - a * 2 ^ s) <= b * 2 ^ n
    /\ SFdiv PyFloat.prec PyFloat.emax (S754_finite false pa 0) (S754_finite false pb 0)
       = if M' <? 2 ^ 53 then finite_or_inf false M' (- s + n)
         else finite_or_inf false (2 ^ 52) (- s + n + 1).
Proof.
  intros Hb a b s n.
  assert (Ha0 : 0 < a) by done. assert (Hb0 : 0 < b) by done.
  destruct (SFdiv_core_binary_spec a b Ha0 (conj Hb0 Hb)) as [Hcore Hq].
  fold s in Hcore, Hq.
  assert (Hs : 0 <= s) by (unfold s; lia).
  assert (Hin : inbetween (a * 2 ^ s) b ((a * 2 ^ s) / b)
                  (new_location b ((a * 2 ^ s) mod b))).
  { apply new_location_inbetween; [done|]. apply Z.mul_nonneg_nonneg; [lia|].
    apply Z.pow_nonneg. lia. }
  destruct (binary_round_aux_normal _ _ false _ (- s) _ Hin Hq) as (M' & HM & Hn & Hhalf & Hres).
  { unfold s. pose proof (Zdigits2_le b 53 Hb0 Hb).
    assert (1 <= Zdigits2 a) by (apply Zdigits2_ge; simpl; lia). lia. }
  exists M'. split_and!; [lia|lia|exact Hn|exact Hhalf|].
  unfold SFdiv. fold a b. rewrite Hcore. exact Hres.
Qed.

Lemma SFeqb_finite m1 e1 m2 e2 :
  SFeqb (S754_finite false m1 e1) (S754_finite false m2 e2) = true ->
  m1 = m2 /\ e1 = e2.
Proof.
  unfold SFeqb, SFcompare.
  destruct (Z.compare_spec e1 e2) as [->| |]; try discriminate.
  change (Pos.compare_cont Eq m1 m2) with (Pos.compare m1 m2).
  destruct (Pos.compare_spec m1 m2) as [->| |]; try discriminate. done.
Qed.

(** Multiplying a normal float by 100 gives exactly 100.0 for 1.0 alone. *)
Lemma mul_hundred_is_hundred m e :
  2 ^ 52 <= Zpos m < 2 ^ 53 -> -1028 <= e ->
  PyFloat.eqb_int (PyFloat.mul_int (S754_finite false m e) 100) 100 = true ->
  S754_finite false m e = float_one.
Proof.
  intros Hm He. unfold PyFloat.eqb_int, PyFloat.mul_int.
  change (PyFloat.of_int 100) with float_hundred. unfold float_hundred, SFmul.
  set (c := 7036874417766400%positive).
  assert (Hc : Zpos c = 7036874417766400) by done.
  assert (Hin : inbetween (Zpos (m * c)) 1 (Zpos (m * c)) loc_Exact).
  { split_and!; [lia|lia| |apply Z.mod_1_r]. now rewrite Z.div_1_r. }
  assert (Hprod : 2 ^ 104 <= Zpos (m * c) < 2 ^ 106) by (rewrite Pos2Z.inj_mul; nia).
  destruct (binary_round_aux_normal _ _ (xorb false false) _ (e + -46) _ Hin)
    as (M' & HM & Hn & Hhalf & ->); [lia|lia|].
  set (n := Zdigits2 (Zpos (m * c)) - 53) in *.
  assert (Hn' : n = 52 \/ n = 53).
  { assert (105 <= Zdigits2 (Zpos (m * c))) by (apply Zdigits2_ge; simpl; lia).
    assert (Zdigits2 (Zpos (m * c)) <= 106) by (apply Zdigits2_le; simpl; lia).
    unfold n. lia. }
  rewrite Pos2Z.inj_mul, Hc in Hhalf. simpl xorb.
  destruct (Z.ltb_spec M' (2 ^ 53)) as [Hlt|Hge]; unfold finite_or_inf.
  - destruct (Z.leb_spec (e + -46 + n) (PyFloat.emax - PyFloat.prec));
      [|discriminate].
    intros [HMc He']%SFeqb_finite.
    assert (HM' : M' = 7036874417766400).
    { rewrite <- Hc, <- HMc. rewrite Z2Pos.id; lia. }
    unfold float_one. destruct Hn' as [Hn'|Hn']; rewrite Hn' in *.
    + assert (Zpos m = 2 ^ 52) by lia. f_equal; lia.
    + exfalso. lia.
  - destruct (Z.leb_spec (e + -46 + n + 1) (PyFloat.emax - PyFloat.prec));
      [|discriminate].
    intros [HMc _]%SFeqb_finite. vm_compute in HMc. discriminate HMc.
Qed.

(** [a / b] for positive ints, [b] below [2^53]. *)
Lemma truediv_pos a b :
  0 < a -> 0 < b < 2 ^ 53 ->
  (PyFloat.truediv a b = Raise OverflowError
   \/ exists m e,
        PyFloat.truediv a b = Ok (S754_finite false m e)
        /\ 2 ^ 52 <= Zpos m < 2 ^ 53 /\ -1028 <= e
        /\ (S754_finite false m e = float_one <-> a = b))
  /\ (a < 2 ^ 63 -> exists q, PyFloat.truediv a b = Ok q).
Proof.
  intros Ha [Hb Hb53].
  destruct a as [|pa|pa]; try lia. destruct b as [|pb|pb]; try lia.
  unfold PyFloat.truediv. simpl Z.eqb. cbv iota.
  change (Z.to_pos (Z.abs (Z.pos pa))) with pa.
  change (Z.to_pos (Z.abs (Z.pos pb))) with pb.
  change (Z.pos pa <? 0) with false. change (Z.pos pb <? 0) with false.
  destruct (SFdiv_pos pa pb Hb53) as (M' & HM & Hn & Hhalf & ->).
  set (a := Z.pos pa) in *. set (b := Z.pos pb) in *.
  set (s := Z.max 0 (53 + Zdigits2 b - Zdigits2 a)) in *.
  set (q := a * 2 ^ s / b) in *.
  set (n := Zdigits2 q - 53) in *.
  assert (Hd2 : 1 <= Zdigits2 b <= 53).
  { split; [apply Zdigits2_ge; simpl; lia | now apply Zdigits2_le]. }
  assert (Hd1 : 1 <= Zdigits2 a) by (apply Zdigits2_ge; simpl; lia).
  assert (Hs : 0 <= s <= 105) by (unfold s; lia).
  assert (HP : 0 < 2 ^ n) by (apply Z.pow_pos_nonneg; lia).
  (* the float is 1.0 exactly when the two ints are equal *)
  assert (Hone : forall E, (E = - s + n /\ M' = 2 ^ 52) \/ (E = - s + n + 1 /\ M' = 2 ^ 53) ->
                           E = -52 -> a = b).
  { intros E HE HE52.
    assert (Hsn : exists k, 2 ^ s = 2 ^ n * 2 ^ k /\ M' = 2 ^ k /\ (k = 52 \/ k = 53)).
    { destruct HE as [[-> ->] | [-> ->]].
      - exists 52. replace s with (n + 52) by lia. rewrite Z.pow_add_r by lia.
        split_and!; [done|done|now left].
      - exists 53. replace s with (n + 53) by lia. rewrite Z.pow_add_r by lia.
        split_and!; [done|done|now right]. }
    destruct Hsn as (k & Hsk & HMk & Hk). rewrite Hsk, HMk in Hhalf.
    set (P := 2 ^ n) in *. set (K := 2 ^ k) in *.
    assert (HK : 2 ^ 52 <= K) by (destruct Hk as [-> | ->]; done).
    destruct (Z.lt_trichotomy a b) as [Hlt | [Heq | Hgt]]; [exfalso|done|exfalso].
    - assert (P * K * 1 <= P * K * (b - a)) by (apply Z.mul_le_mono_nonneg_l; nia).
      assert (K * (b * P) - a * (P * K) <= b * P) by lia.
      nia.
    - assert (P * K * 1 <= P * K * (a - b)) by (apply Z.mul_le_mono_nonneg_l; nia).
      assert (a * (P * K) - K * (b * P) <= b * P) by lia.
      nia. }
  assert (Heq1 : a = b -> M' = 2 ^ 52 /\ - s + n = -52).
  { intros Hab. assert (Hs53 : s = 53) by (unfold s; rewrite Hab; lia).
    assert (Hq : q = 2 ^ 53).
    { unfold q. rewrite Hs53, Hab, Z.mul_comm. apply Z.div_mul. lia. }
    assert (Hn1 : n = 1) by (unfold n; rewrite Hq; reflexivity).
    rewrite Hn1, Hs53, Hab in Hhalf. change (2 ^ 1) with 2 in Hhalf.
    split; [|lia]. nia. }
  assert (Hrange : a < 2 ^ 63 -> - s + n + 1 <= 971).
  { intros Ha63.
    assert (Hq0 : 0 < q) by (unfold q; pose proof (proj2 (SFdiv_core_binary_spec a b Ha (conj Hb Hb53))); fold s in H; lia).
    assert (Hq63 : q < 2 ^ (63 + s)).
    { unfold q. apply Z.div_lt_upper_bound; [done|].
      rewrite Z.pow_add_r by lia.
      assert (0 < 2 ^ s) by (apply Z.pow_pos_nonneg; lia). nia. }
    pose proof (Zdigits2_le q (63 + s) Hq0 Hq63). unfold n. lia. }
  assert (HtoM : Z.pos (Z.to_pos M') = M') by (apply Z2Pos.id; lia).
  destruct (Z.ltb_spec M' (2 ^ 53)) as [Hlt|Hge]; unfold finite_or_inf.
  - destruct (Z.leb_spec (- s + n) (PyFloat.emax - PyFloat.prec)) as [Hle|Hgt].
    + split; [right | eauto].
      exists (Z.to_pos M'), (- s + n). split_and!; [done|lia|lia|lia|].
      unfold float_one. split.
      * intros [= HMeq HEeq]. apply (Hone (- s + n)); [left|done].
        split; [done|]. rewrite <- HtoM, HMeq. reflexivity.
      * intros Hab. destruct (Heq1 Hab) as [-> ->]. reflexivity.
    + split; [now left|]. intros Ha63. apply Hrange in Ha63.
      unfold PyFloat.emax, PyFloat.prec in Hgt. lia.
  - assert (HM53 : M' = 2 ^ 53) by lia.
    destruct (Z.leb_spec (- s + n + 1) (PyFloat.emax - PyFloat.prec)) as [Hle|Hgt].
    + split; [right | eauto].
      exists (Z.to_pos (2 ^ 52)), (- s + n + 1). split_and!; [done|done|done|lia|].
      unfold float_one. split.
      * intros [= HEeq]. apply (Hone (- s + n + 1)); [right|done]. done.
      * intros Hab. destruct (Heq1 Hab) as [HM52 _]. rewrite HM52 in HM53. discriminate.
    + split; [now left|]. intros Ha63. apply Hrange in Ha63.
      unfold PyFloat.emax, PyFloat.prec in Hgt. lia.
Qed.

Lemma binary_round_aux_sign s mx ex lx :
  match binary_round_aux PyFloat.prec PyFloat.emax s mx ex lx with
  | S754_finite s' _ _ => s' = s
  | _ => True
  end.
Proof.
  unfold binary_round_aux.
  destruct (shr_fexp _ _ mx ex lx) as [mrs1 e1].
  destruct (shr_fexp _ _ _ e1 loc_Exact) as [mrs2 e2].
  destruct (shr_m mrs2); [done| |done]. now destruct (_ <=? _).
Qed.

(** A float that is negative, zero or not a number is not 100.0 after a
    multiplication by 100. *)
Lemma negative_times_hundred q :
  match q with S754_finite s _ _ => s = true | S754_infinity _ => False | _ => True end ->
  PyFloat.eqb_int (PyFloat.mul_int q 100) 100 = false.
Proof.
  unfold PyFloat.eqb_int, PyFloat.mul_int.
  change (PyFloat.of_int 100) with float_hundred. unfold float_hundred.
  destruct q as [s|s| |s m e]; try done.
  intros ->. unfold SFmul.
  pose proof (binary_round_aux_sign (xorb true false)
                (Z.pos (m * 7036874417766400)) (e + -46) loc_Exact) as Hs.
  destruct (binary_round_aux _ _ _ _ _ _) as [s'|s'| |s' m' e']; try done.
  - now destruct s'.
  - simpl in Hs. now rewrite Hs.
Qed.

Lemma truediv_neg a b q :
  0 < a -> b < 0 -> PyFloat.truediv a b = Ok q ->
  match q with S754_finite s _ _ => s = true | S754_infinity _ => False | _ => True end.
Proof.
  intros Ha Hb. unfold PyFloat.truediv.
  destruct (Z.eqb_spec b 0) as [|_]; [lia|].
  destruct (Z.eqb_spec a 0) as [|_]; [lia|].
  replace (a <? 0) with false by (symmetry; apply Z.ltb_ge; lia).
  replace (b <? 0) with true by (symmetry; apply Z.ltb_lt; lia).
  unfold SFdiv.
  destruct (SFdiv_core_binary _ _ _ _ _ _) as [[mz ez] lz].
  pose proof (binary_round_aux_sign (xorb false true) mz ez lz) as Hs.
  destruct (binary_round_aux _ _ _ _ _ _) as [s'|s'| |s' m' e']; try done;
    now intros [= <-].
Qed.

Lemma file_status_Ok size filesize st :
  file_status size filesize = Ok st ->
  exists q, PyFloat.truediv size filesize = Ok q
            /\ st = if PyFloat.eqb_int (PyFloat.mul_int q 100) 100
                    then "complete" else "incomplete".
Proof.
  unfold file_status. destruct (PyFloat.truediv size filesize) as [q|e]; [|done].
  cbv zeta. intros H. exists q. split; [done|].
  destruct (PyFloat.eqb_int _ _); now injection H.
Qed.

Lemma truediv_zero_l b : b <> 0 -> PyFloat.truediv 0 b = Ok (S754_zero (b <? 0)).
Proof. intros Hb. unfold PyFloat.truediv. now destruct (Z.eqb_spec b 0). Qed.

(** The status computed from the two sizes: when the declared length is below
    [2^53], a status is complete exactly when the sizes are equal. *)
Lemma file_status_spec size filesize :
  0 <= size -> filesize < 2 ^ 53 ->
  (forall st, file_status size filesize = Ok st ->
     (st = "complete" <-> size = filesize)
     /\ (st = "incomplete" <-> size <> filesize))
  /\ (0 < filesize -> size < 2 ^ 63 -> exists st, file_status size filesize = Ok st).
Proof.
  intros Hsize Hfs53.
  assert (Hno : forall q, PyFloat.eqb_int (PyFloat.mul_int q 100) 100 = false ->
            size <> filesize ->
            let st := if PyFloat.eqb_int (PyFloat.mul_int q 100) 100
                      then "complete" else "incomplete" in
            (st = "complete" <-> size = filesize)
            /\ (st = "incomplete" <-> size <> filesize)).
  { intros q Heq Hne. cbv zeta. rewrite Heq. split; split; done. }
  destruct (Z.lt_trichotomy filesize 0) as [Hneg | [Hzero | Hpos]].
  - split; [|lia]. intros st (q & Hq & ->)%file_status_Ok.
    apply Hno; [|lia].
    destruct (Z.eq_dec size 0) as [->|Hnz].
    + rewrite truediv_zero_l in Hq by lia. now injection Hq as <-.
    + apply negative_times_hundred. eapply truediv_neg; [|exact Hneg|exact Hq]. lia.
  - subst filesize. split; [|lia]. intros st (q & Hq & _)%file_status_Ok.
    unfold PyFloat.truediv in Hq. discriminate Hq.
  - destruct (Z.eq_dec size 0) as [->|Hnz].
    + split.
      * intros st (q & Hq & ->)%file_status_Ok. apply Hno; [|lia].
        rewrite truediv_zero_l in Hq by lia. now injection Hq as <-.
      * intros _ _. unfold file_status. rewrite truediv_zero_l by lia.
        cbv zeta. destruct (PyFloat.eqb_int _ _); eauto.
    + assert (Hsz : 0 < size) by lia.
      destruct (truediv_pos size filesize Hsz (conj Hpos Hfs53)) as [Hdiv Htotal].
      split.
      * intros st (q & Hq & ->)%file_status_Ok.
        destruct Hdiv as [Hov | (m & e & Hq' & Hm & He & Hone)]; [congruence|].
        rewrite Hq in Hq'. injection Hq' as ->.
        destruct (PyFloat.eqb_int _ _) eqn:Heq.
        -- apply mul_hundred_is_hundred in Heq; [|done..].
           apply Hone in Heq. split; split; done.
        -- assert (size <> filesize).
           { intros Hab. apply Hone in Hab. rewrite Hab in Heq.
             vm_compute in Heq. discriminate Heq. }
           split; split; done.
      * intros _ H63. destruct (Htotal H63) as [q Hq]. unfold file_status. rewrite Hq.
        cbv zeta. destruct (PyFloat.eqb_int _ _); eauto.
Qed.

End RoundingFacts.

(** ** Running the monad *)

Lemma bind_inv {A B} (m : M A) (k : A -> M B) w r w' :
  bind m k w = (r, w') ->
  (exists a w1, m w = (Ok a, w1) /\ k a w1 = (r, w'))
  \/ (exists e, m w = (Raise e, w') /\ r = Raise e).
Proof.
  unfold bind. destruct (m w) as [[a|e] w1]; intros H.
  - left. eauto.
  - right. injection H as <- <-. eauto.
Qed.

Lemma bind_ok {A B} (m : M A) (k : A -> M B) w a w1 :
  m w = (Ok a, w1) -> bind m k w = k a w1.
Proof. unfold bind. now intros ->. Qed.

Lemma bind_lift_ok {A B} (a : A) (k : A -> M B) w : bind (lift (Ok a)) k w = k a w.
Proof. reflexivity. Qed.

Lemma bind_ret {A B} (a : A) (k : A -> M B) w : bind (ret a) k w = k a w.
Proof. reflexivity. Qed.

Lemma bind_assoc {A B C} (m : M A) (k : A -> M B) (h : B -> M C) w :
  bind (bind m k) h w = bind m (fun a => bind (k a) h) w.
Proof. unfold bind. now destruct (m w) as [[a|e] w1]. Qed.

Lemma bind_ext {A B} (m : M A) (k k' : A -> M B) w :
  (forall a w1, k a w1 = k' a w1) -> bind m k w = bind m k' w.
Proof. intros H. unfold bind. destruct (m w) as [[a|e] w1]; [apply H | done]. Qed.

Lemma bind_raise {A B} (m : M A) (k : A -> M B) w e w1 :
  m w = (Raise e, w1) -> bind m k w = (Raise e, w1).
Proof. unfold bind. now intros ->. Qed.

Module PlanTheorems.
Import PyStr PyStrFacts PlanFacts CalendarFacts.

Lemma append_assoc (a b c : string) : (a ++ b) ++ c = a ++ b ++ c.
Proof. induction a as [|x a IH]; [done|]. rewrite !append_cons. now rewrite IH. Qed.

Lemma valid_year_int yr :
  valid_year yr -> all_digits yr = true /\ py_int yr = Some (dec_value 0 yr).
Proof.
  intros [Hlen Hd]. split; [done|]. apply py_int_digits; [done| |lia].
  intros ->. discriminate.
Qed.

Lemma valid_month_int mn :
  valid_month mn ->
  all_digits mn = true /\ String.length mn = 2%nat
  /\ py_int mn = Some (dec_value 0 mn) /\ 1 <= dec_value 0 mn <= 12.
Proof.
  unfold valid_month, two_digit_months. rewrite !elem_of_cons, elem_of_nil.
  intros H. repeat destruct H as [-> | H]; try done; repeat split; done.
Qed.

Lemma month_files_targets yr mn :
  all_digits yr = true -> all_digits mn = true ->
  month_files yr mn (calendar_days (dec_value 0 yr) (dec_value 0 mn))
  = month_targets yr mn.
Proof.
  intros Hy Hm. unfold month_files, month_targets. cbv zeta.
  rewrite <- list_fmap_compose. apply list_fmap_ext. intros _ d _.
  unfold compose. rewrite replace_fname by done. unfold target_path.
  now rewrite !append_assoc.
Qed.

Lemma get_filelist_from_plan yr data_dir :
  valid_year yr ->
  forall mns flist w, Forall valid_month mns ->
  exists w',
    get_filelist_from flist yr mns data_dir w = (Ok (flist ++ plan yr mns)%list, w')
    /\ fs w' = fs w /\ log w' = log w /\ now w' = now w
    /\ trace w' = (trace w ++ (EvMakedirs <$> (month_dir data_dir yr <$> mns)))%list.
Proof.
  intros [Hdy Hy]%valid_year_int.
  induction mns as [|mn mns IH]; intros flist w Hv.
  - exists w. simpl. unfold ret, plan. simpl. now rewrite !app_nil_r.
  - apply Forall_cons in Hv as [(Hdm & _ & Hm & Hr)%valid_month_int Hv].
    destruct (monthrange_days (dec_value 0 yr) _ Hr) as [day1 Hmr].
    simpl. unfold bind at 1. simpl.
    unfold bind at 1, lift at 1, int. rewrite Hy.
    unfold bind at 1, lift at 1. rewrite Hm.
    unfold bind at 1, lift at 1. rewrite Hmr. simpl.
    rewrite month_files_targets by done.
    edestruct IH as (w' & -> & Hfs & Hlog & Hnow & Htr); [done|].
    exists w'. simpl in *. repeat split; try done.
    + unfold plan. simpl. now rewrite app_assoc.
    + rewrite Htr. now rewrite <- app_assoc.
Qed.

Lemma get_filelist_plan yr mns data_dir w :
  valid_year yr -> Forall valid_month mns ->
  exists w',
    get_filelist yr mns data_dir w = (Ok (plan yr mns), w')
    /\ fs w' = fs w /\ log w' = log w /\ now w' = now w
    /\ trace w' = (trace w ++ (EvMakedirs <$> (month_dir data_dir yr <$> mns)))%list.
Proof.
  intros Hy Hm. unfold get_filelist.
  destruct (get_filelist_from_plan yr data_dir Hy mns [] w Hm) as (w' & H & Hrest).
  exists w'. split; [exact H | exact Hrest].
Qed.

Lemma fmt_2d_two_digits d :
  1 <= d <= 31 -> String.length (fmt_2d d) = 2%nat /\ all_digits (fmt_2d d) = true.
Proof.
  intros Hd.
  assert (Hin : d ∈ seqZ 1 31) by (apply elem_of_seqZ; lia).
  revert Hin. generalize d. apply Forall_forall.
  vm_compute. repeat constructor.
Qed.



Lemma elem_of_plan yr mns fpath :
  fpath ∈ plan yr mns <->
  exists mn d, mn ∈ mns
    /\ 1 <= d <= calendar_days (dec_value 0 yr) (dec_value 0 mn)
    /\ fpath = target_path yr mn (fmt_2d d).
Proof.
  unfold plan. rewrite list_elem_of_bind. unfold month_targets. split.
  - intros (mn & Hin & Hmn). apply list_elem_of_fmap in Hin as (d & -> & Hd).
    apply elem_of_seqZ in Hd. exists mn, d. repeat split; try done; lia.
  - intros (mn & d & Hmn & Hd & ->). exists mn. split; [|done].
    apply list_elem_of_fmap. exists d. split; [done|]. apply elem_of_seqZ. lia.
Qed.

(** C3, as the script builds the paths: every target of the plan is the one
    of some requested month and some day of that month; its remote URL is the
    data set root followed by
    cmorph_v1.0/30min/8km/YYYY/MM/CMORPH_V1.0_ADJ_8km-30min_YYYYMMDD00.nc
    and its local path is the data directory followed by the same path
    without the leading cmorph_ . *)
Theorem target_paths_of_plan (yr : string) (mns : list string) (data_dir : string)
    (w w' : World) (flist : list string) :
  valid_year yr -> Forall valid_month mns ->
  get_filelist yr mns data_dir w = (Ok flist, w') ->
  forall fpath, fpath ∈ flist ->
  exists mn d,
    mn ∈ mns
    /\ 1 <= d <= calendar_days (dec_value 0 yr) (dec_value 0 mn)
    /\ String.length (fmt_2d d) = 2%nat
    /\ remote_url fpath = dspath ++ code_remote_pattern yr mn (fmt_2d d)
    /\ local_path data_dir fpath = data_dir ++ "/" ++ target_path yr mn (fmt_2d d).
Proof.
  intros Hy Hm Hrun fpath Hin.
  destruct (get_filelist_plan yr mns data_dir w Hy Hm) as (w2 & Hrun2 & _).
  rewrite Hrun in Hrun2. injection Hrun2 as -> _.
  apply elem_of_plan in Hin as (mn & d & Hmn & Hd & ->).
  exists mn, d. repeat split; try done; try lia.
  apply fmt_2d_two_digits.
  rewrite Forall_forall in Hm. specialize (Hm mn Hmn).
  apply valid_month_int in Hm as (_ & _ & _ & Hr).
  pose proof (calendar_days_range (dec_value 0 yr) _ Hr). lia.
Qed.

Lemma target_paths_of_plan_2022_02 :
  exists mn d,
    mn ∈ ["02"] /\ 1 <= d <= calendar_days (dec_value 0 "2022") (dec_value 0 mn)
    /\ String.length (fmt_2d d) = 2%nat
    /\ remote_url "v1.0/30min/8km/2022/02/CMORPH_V1.0_ADJ_8km-30min_2022020100.nc"
       = dspath ++ code_remote_pattern "2022" mn (fmt_2d d)
    /\ local_path "/g/data" "v1.0/30min/8km/2022/02/CMORPH_V1.0_ADJ_8km-30min_2022020100.nc"
       = "/g/data" ++ "/" ++ target_path "2022" mn (fmt_2d d).
Proof.
  assert (Hy : valid_year "2022") by (split; reflexivity).
  assert (Hm : Forall valid_month ["02"]).
  { apply Forall_singleton. unfold valid_month, two_digit_months. set_solver. }
  apply (target_paths_of_plan "2022" ["02"] "/g/data" empty_world
           (snd (get_filelist "2022" ["02"] "/g/data" empty_world))
           (plan "2022" ["02"]) Hy Hm).
  - vm_compute. reflexivity.
  - vm_compute. left.
Defined.

(** C3, as the specification words the remote pattern: the first target of
    February 2022 is requested at .../ds502.2/cmorph_v1.0/30min/8km/2022/02/...,
    which is not the worded pattern for any day (with or without the root). *)
Lemma remote_path_is_not_the_spec_pattern :
  exists flist w' fpath,
    get_filelist "2022" ["02"] "/g/data" empty_world = (Ok flist, w')
    /\ flist !! 0%nat = Some fpath
    /\ remote_url fpath
       = "https://rda.ucar.edu/data/ds502.2/cmorph_v1.0/30min/8km/2022/02/CMORPH_V1.0_ADJ_8km-30min_2022020100.nc"
    /\ (forall dd, remote_url fpath <> dspath ++ spec_remote_pattern "2022" "02" dd)
    /\ (forall dd, remote_url fpath <> spec_remote_pattern "2022" "02" dd).
Proof.
  eexists _, _, _. split; [vm_compute; reflexivity|].
  split; [reflexivity|]. split; [reflexivity|].
  split; intros dd H; vm_compute in H; discriminate H.
Qed.

Lemma get_filelist_from_elems yr data_dir mns : forall flist w l w',
  get_filelist_from flist yr mns data_dir w = (Ok l, w') ->
  forall x, x ∈ l -> x ∈ flist \/ exists mn n, mn ∈ mns /\ x ∈ month_files yr mn n.
Proof.
  induction mns as [|mn mns IH]; intros flist w l w' H x Hx.
  - injection H as <- <-. now left.
  - simpl in H.
    apply bind_inv in H as [(? & w1 & _ & H) | (e & _ & [=])].
    apply bind_inv in H as [(y & w2 & _ & H) | (e & _ & [=])].
    apply bind_inv in H as [(m & w3 & _ & H) | (e & _ & [=])].
    apply bind_inv in H as [(range & w4 & _ & H) | (e & _ & [=])].
    destruct (IH _ _ _ _ H x Hx) as [Hin | (mn' & n & Hmn' & Hin)].
    + apply elem_of_app in Hin as [Hin | Hin]; [now left|].
      right. exists mn, (snd range). split; [now left | done].
    + right. exists mn', n. split; [now right | done].
Qed.

Lemma month_files_prefix yr mn n x :
  x ∈ month_files yr mn n -> exists rest, x = "v1.0/30min/8km/" ++ rest.
Proof.
  unfold month_files. cbv zeta. intros (d & -> & _)%list_elem_of_fmap.
  rewrite !append_assoc. eauto.
Qed.

End PlanTheorems.

Section CmorphFacts.

Set Default Proof Using "Type".

Variable http_get : nat -> string -> string -> option Response.
Variable check_mdt : Response -> string -> gmap string File -> Res bool * list string.

Lemma file_status_cases size filesize st :
  file_status size filesize = Ok st -> st = "complete" \/ st = "incomplete".
Proof.
  unfold file_status. destruct (PyFloat.truediv size filesize); [|done].
  destruct (PyFloat.eqb_int _ _); intros [= <-]; auto.
Qed.

Lemma check_file_status_eq path filesize w :
  check_file_status path filesize w
  = (match fs w !! path with
     | None => Raise (FileNotFoundError path)
     | Some f => file_status (Z.of_nat (length (content f))) filesize
     end,
     {| fs := fs w; dirs := dirs w; log := log w;
        trace := trace w ++ [EvStat path]; now := now w |}).
Proof.
  unfold check_file_status, stat_size, bind, emit, lift, ret. simpl.
  destruct (fs w !! path) as [f|]; [|done].
  now destruct (file_status _ filesize).
Qed.

Lemma check_file_status_frame path filesize w r w' :
  check_file_status path filesize w = (r, w') ->
  fs w' = fs w /\ dirs w' = dirs w /\ log w' = log w
  /\ trace w' = (trace w ++ [EvStat path])%list.
Proof. rewrite check_file_status_eq. now intros [= _ <-]. Qed.

Lemma write_spec path chunk w r w' :
  write path chunk w = (r, w') ->
  r = Ok tt /\ dirs w' = dirs w /\ log w' = log w
  /\ trace w' = (trace w ++ [EvWrite path (length chunk)])%list
  /\ (forall q, q <> path -> fs w' !! q = fs w !! q)
  /\ (exists f', fs w' !! path = Some f'
       /\ content f' = (from_option content [] (fs w !! path) ++ chunk)%list).
Proof.
  unfold write, bind, emit, tick, set_fs. simpl. intros [= <- <-]. simpl.
  repeat split; try done.
  - intros q Hq. destruct (fs w !! path); now rewrite lookup_insert_ne.
  - destruct (fs w !! path) as [f|]; rewrite lookup_insert_eq; eauto.
Qed.

Lemma open_wb_spec path w r w' :
  open_wb path w = (r, w') ->
  dirs w' = dirs w /\ log w' = log w
  /\ trace w' = (trace w ++ [EvOpen path])%list
  /\ (forall q, q <> path -> fs w' !! q = fs w !! q)
  /\ (dir_exists (dir_of path) w = true ->
        r = Ok tt /\ exists f', fs w' !! path = Some f' /\ content f' = [])
  /\ (dir_exists (dir_of path) w = false ->
        r = Raise (FileNotFoundError path) /\ fs w' = fs w).
Proof.
  unfold open_wb, bind, emit, tick, set_fs, dir_exists. simpl.
  destruct (_ || _ || bool_decide _); intros [= <- <-]; simpl.
  - split_and!; try done.
    + intros q Hq. now rewrite lookup_insert_ne.
    + intros _. split; [done|]. rewrite lookup_insert_eq. eauto.
  - split_and!; done.
Qed.

(** The progress report after a chunk. *)
Lemma progress_spec path filesize w r w' :
  (if chunk_size <? filesize
   then let* _ := check_file_status path filesize in ret tt
   else ret tt) w = (r, w') ->
  fs w' = fs w /\ dirs w' = dirs w /\ log w' = log w
  /\ (exists evs, trace w' = (trace w ++ evs)%list /\ Forall (transfer_event path) evs)
  /\ (filesize <= chunk_size -> r = Ok tt).
Proof.
  assert (Hev : Forall (transfer_event path) [EvStat path])
    by (repeat constructor).
  destruct (Z.ltb_spec chunk_size filesize) as [Hlt|Hge]; intros H.
  - apply bind_inv in H as [(a & w1 & H1 & H2) | (e & H1 & ->)].
    + injection H2 as <- <-. apply check_file_status_frame in H1 as (? & ? & ? & ?).
      split_and!; [done..| |lia]. by exists [EvStat path].
    + apply check_file_status_frame in H1 as (? & ? & ? & ?).
      split_and!; [done..| |lia]. by exists [EvStat path].
  - injection H as <- <-. split_and!; [done..| |done].
    exists []. split; [now rewrite app_nil_r | constructor].
Qed.

Lemma write_chunks_spec path filesize cs : forall w r w',
  write_chunks path filesize cs w = (r, w') ->
  dirs w' = dirs w /\ log w' = log w
  /\ (forall q, q <> path -> fs w' !! q = fs w !! q)
  /\ (exists evs, trace w' = (trace w ++ evs)%list /\ Forall (transfer_event path) evs)
  /\ (forall f, fs w !! path = Some f -> r = Ok tt ->
        exists f', fs w' !! path = Some f'
                   /\ content f' = (content f ++ concat cs)%list)
  /\ (filesize <= chunk_size -> r = Ok tt).
Proof.
  induction cs as [|chunk cs IH]; intros w r w' H.
  - simpl in H. injection H as <- <-. split_and!; [done..| | |done].
    + exists []. split; [now rewrite app_nil_r | constructor].
    + intros f Hf _. exists f. split; [done|]. simpl. now rewrite app_nil_r.
  - simpl in H.
    apply bind_inv in H as [(a & w1 & H1 & H) | (e & H1 & ->)];
      apply write_spec in H1 as (Hr1 & Hd1 & Hl1 & Ht1 & Hfs1 & (f1 & Hf1 & Hc1));
      [|done].
    apply bind_inv in H as [(a2 & w2 & H2 & H) | (e & H2 & ->)];
      apply progress_spec in H2 as (Hfs2 & Hd2 & Hl2 & (evs2 & Ht2 & Hevs2) & Hr2).
    + apply IH in H as (Hd & Hl & Hfs & (evs & Ht & Hevs) & Hc & Hr).
      split_and!; [congruence..| | | |done].
      * intros q Hq. rewrite Hfs, Hfs2 by done. now apply Hfs1.
      * exists (EvWrite path (length chunk) :: evs2 ++ evs)%list. split.
        -- rewrite Ht, Ht2, Ht1. now rewrite <- !app_assoc.
        -- constructor; [right; eauto|]. now apply Forall_app.
      * intros f Hf Hok. rewrite Hf in Hc1. simpl in Hc1.
        rewrite <- Hfs2 in Hf1. destruct (Hc f1 Hf1 Hok) as (f' & Hf' & Hc').
        exists f'. split; [done|]. rewrite Hc', Hc1. simpl.
        now rewrite <- app_assoc.
    + split_and!; [congruence..| | | |done].
      * intros q Hq. rewrite Hfs2. now apply Hfs1.
      * exists (EvWrite path (length chunk) :: evs2). split.
        -- rewrite Ht2, Ht1. now rewrite <- app_assoc.
        -- constructor; [right; eauto | done].
      * intros _ _ [=].
Qed.

Lemma lift_inv {A} (x : Res A) w r w' : lift x w = (r, w') -> r = x /\ w' = w.
Proof. now intros [= <- <-]. Qed.

Lemma requests_get_spec url c w r w' :
  requests_get http_get url c w = (r, w') ->
  fs w' = fs w /\ dirs w' = dirs w /\ log w' = log w
  /\ trace w' = (trace w ++ [EvGet url])%list
  /\ r = match http_get (now w) url c with
         | Some q => Ok q
         | None => Raise RequestException
         end.
Proof.
  unfold requests_get, bind, emit, tick. simpl.
  destruct (http_get (now w) url c); now intros [= <- <-].
Qed.

Lemma call_check_mdt_spec req path w r w' :
  call_check_mdt check_mdt req path w = (r, w') ->
  fs w' = fs w /\ dirs w' = dirs w
  /\ log w' = (log w ++ snd (check_mdt req path (fs w)))%list
  /\ trace w' = (trace w ++ [EvCheckMdt path])%list
  /\ r = fst (check_mdt req path (fs w)).
Proof.
  unfold call_check_mdt, bind, emit. simpl.
  destruct (check_mdt req path (fs w)) as [x lines]. now intros [= <- <-].
Qed.

Lemma check_file_status_result path filesize w st w' :
  check_file_status path filesize w = (Ok st, w') ->
  exists f,
    fs w !! path = Some f
    /\ file_status (Z.of_nat (length (content f))) filesize = Ok st.
Proof.
  rewrite check_file_status_eq. destruct (fs w !! path) as [f|]; [|done].
  intros [= H _]. eauto.
Qed.

Lemma fetch_spec req path filesize w r w' :
  fetch req path filesize w = (r, w') ->
  dirs w' = dirs w /\ log w' = log w
  /\ (forall q, q <> path -> fs w' !! q = fs w !! q)
  /\ (exists evs, trace w' = (trace w ++ EvOpen path :: evs)%list
                  /\ Forall (transfer_event path) evs)
  /\ (forall st, r = Ok st ->
        broken req = false
        /\ exists f,
             fs w' !! path = Some f
             /\ content f = concat (chunks req)
             /\ file_status (Z.of_nat (length (content f))) filesize = Ok st)
  /\ (filesize = 0 -> broken req = false -> dir_exists (dir_of path) w = true ->
        r = Raise ZeroDivisionError)
  /\ (dir_exists (dir_of path) w = false ->
        r = Raise (FileNotFoundError path) /\ fs w' = fs w
        /\ trace w' = (trace w ++ [EvOpen path])%list).
Proof.
  unfold fetch. intros H.
  apply bind_inv in H as [(a & w1 & H1 & H) | (e & H1 & ->)];
    apply open_wb_spec in H1 as (Hd1 & Hl1 & Ht1 & Hfs1 & Hyes & Hno).
  2: { destruct (dir_exists (dir_of path) w).
       - now destruct (Hyes eq_refl) as [[=] _].
       - destruct (Hno eq_refl) as [[= ->] Hfs].
         split_and!; try done. exists []. split; [done|constructor]. }
  destruct (dir_exists (dir_of path) w) eqn:Hdir;
    [|now destruct (Hno eq_refl) as [[=] _]].
  destruct (Hyes eq_refl) as [_ (f1 & Hf1 & Hc1)].
  apply bind_inv in H as [(a2 & w2 & H2 & H) | (e & H2 & ->)];
    apply write_chunks_spec in H2
      as (Hd2 & Hl2 & Hfs2 & (evs2 & Ht2 & Hevs2) & Hc2 & Hr2).
  - destruct a2. destruct (Hc2 f1 Hf1 eq_refl) as (f2 & Hf2 & Hcf2).
    rewrite Hc1 in Hcf2. simpl in Hcf2.
    destruct (broken req) eqn:Hbroken.
    + apply bind_inv in H as [(a3 & w3 & H3 & H) | (e & H3 & ->)]; [done|].
      injection H3 as <- <-.
      split_and!; [congruence..| | |done|done|done].
      * intros q Hq. rewrite Hfs2 by done. now apply Hfs1.
      * exists evs2. split; [|done]. rewrite Ht2, Ht1. now rewrite <- app_assoc.
    + apply bind_inv in H as [(a3 & w3 & H3 & H) | (e & H3 & ->)]; [|done].
      injection H3 as <- <-.
      pose proof (check_file_status_frame _ _ _ _ _ H) as (Hfs4 & Hd4 & Hl4 & Ht4).
      split_and!; [congruence..| | | | |done].
      * intros q Hq. rewrite Hfs4, Hfs2 by done. now apply Hfs1.
      * exists (evs2 ++ [EvStat path])%list. split.
        -- rewrite Ht4, Ht2, Ht1. now rewrite <- !app_assoc.
        -- apply Forall_app. split; [done|]. repeat constructor.
      * intros st ->. split; [done|].
        apply check_file_status_result in H as (f & Hf & Hst).
        exists f. rewrite Hfs4. split_and!; try done. congruence.
      * intros -> _ _. rewrite check_file_status_eq, Hf2 in H.
        unfold file_status, PyFloat.truediv in H. simpl in H. now injection H as <- _.
  - split_and!; [congruence..| | |done| |done].
    + intros q Hq. rewrite Hfs2 by done. now apply Hfs1.
    + exists evs2. split; [|done]. rewrite Ht2, Ht1. now rewrite <- app_assoc.
    + intros -> _ _. assert (Hle : 0 <= chunk_size) by done. now apply Hr2 in Hle.
Qed.

Lemma header_item_missing req :
  lacks_content_length req ->
  header_item (headers req) "Content-length" = Raise (KeyError "content-length").
Proof.
  unfold lacks_content_length, header_item. intros H.
  change (PyStr.lower "Content-length") with "content-length".
  replace (List.find _ (headers req)) with (@None (string * string)); [done|].
  symmetry. induction H as [|kv hs Hkv _ IH]; [done|].
  cbn [List.find].
  destruct (String.eqb_spec (PyStr.lower (fst kv)) "content-length"); done.
Qed.

Lemma download_file_status r url path update w st w' :
  download_file http_get check_mdt r url path update w = (Ok st, w') ->
  st = "skip" \/ st = "complete" \/ st = "incomplete".
Proof.
  unfold download_file. intros H.
  apply bind_inv in H as [(req & w1 & _ & H) | (e & _ & [=])].
  apply bind_inv in H as [(len & w2 & _ & H) | (e & _ & [=])].
  apply bind_inv in H as [(filesize & w3 & _ & H) | (e & _ & [=])].
  apply bind_inv in H as [([] & w4 & _ & H) | (e & _ & [=])].
  - injection H as <- _. now left.
  - apply fetch_spec in H as (_ & _ & _ & _ & Hst & _).
    destruct (Hst st eq_refl) as (_ & f & _ & _ & Hfst).
    right. eapply file_status_cases, Hfst.
Qed.

(** C6: a download that resolves to skip was in update mode, and it leaves
    the file system as it found it: the local file keeps its bytes and its
    modification time, nothing is opened for writing and nothing is written;
    only the GET and the staleness check took place. *)
Theorem skip_leaves_local_file_unmodified (r : Response) (url path : string)
    (update : bool) (w w' : World) :
  download_file http_get check_mdt r url path update w = (Ok "skip", w') ->
  update = true
  /\ fs w' = fs w
  /\ (forall f, fs w !! path = Some f -> fs w' !! path = Some f)
  /\ dirs w' = dirs w
  /\ trace w' = (trace w ++ [EvGet url; EvCheckMdt path])%list.
Proof.
  unfold download_file. intros H.
  apply bind_inv in H as [(req & w1 & H1 & H) | (e & _ & [=])].
  apply requests_get_spec in H1 as (Hfs1 & Hd1 & _ & Ht1 & _).
  apply bind_inv in H as [(len & w2 & H2 & H) | (e & _ & [=])].
  apply lift_inv in H2 as [_ ->].
  apply bind_inv in H as [(filesize & w3 & H3 & H) | (e & _ & [=])].
  apply lift_inv in H3 as [_ ->].
  apply bind_inv in H as [(up & w4 & H4 & H) | (e & _ & [=])].
  destruct up.
  - injection H as <-. destruct update.
    + apply call_check_mdt_spec in H4 as (Hfs4 & Hd4 & _ & Ht4 & _).
      split_and!; [done|congruence|congruence|congruence|].
      rewrite Ht4, Ht1. now rewrite <- app_assoc.
    + discriminate H4.
  - apply fetch_spec in H as (_ & _ & _ & _ & Hst & _).
    destruct (Hst _ eq_refl) as (_ & f & _ & _ & Heq).
    apply file_status_cases in Heq as [[=] | [=]].
Qed.

(** C10: the GET is issued and the Content-length header is read and parsed
    before the staleness check.  When the response has no such header, the
    download raises KeyError, with the name of the header in lower case as
    its key, after the GET alone, in update mode too and whatever the
    staleness check would have answered; the exception ends the loop over the
    targets.  When the header is there and is not an integer, the download
    raises ValueError after the GET alone, in update mode too.  When it is an
    integer, an update-mode download performs the GET first and the staleness
    check second. *)
Theorem content_length_is_read_before_the_staleness_check (r : Response)
    (url path : string) (update : bool) (w : World) (req : Response) :
  http_get (now w) url (cookies r) = Some req ->
  (lacks_content_length req ->
     exists w',
       download_file http_get check_mdt r url path update w
       = (Raise (KeyError "content-length"), w')
       /\ trace w' = (trace w ++ [EvGet url])%list
       /\ fs w' = fs w /\ log w' = log w)
  /\ (lacks_content_length req ->
      forall data_dir fpath rest b,
        url = remote_url fpath -> path = local_path data_dir fpath ->
        update = bool_decide (is_Some (fs w !! path)) ->
        exists w',
          download_all http_get check_mdt r data_dir (fpath :: rest) b w
          = (Raise (KeyError "content-length"), w')
          /\ trace w' = (trace w ++ [EvGet url])%list)
  /\ (forall len,
        header_item (headers req) "Content-length" = Ok len ->
        PyStr.py_int len = None ->
        exists w',
          download_file http_get check_mdt r url path update w
          = (Raise ValueError, w')
          /\ trace w' = (trace w ++ [EvGet url])%list
          /\ fs w' = fs w /\ log w' = log w)
  /\ (forall len filesize res w',
        header_item (headers req) "Content-length" = Ok len ->
        PyStr.py_int len = Some filesize ->
        download_file http_get check_mdt r url path true w = (res, w') ->
        exists evs, trace w' = (trace w ++ EvGet url :: EvCheckMdt path :: evs)%list).
Proof.
  intros Hget.
  assert (Hmiss : lacks_content_length req ->
     exists w', download_file http_get check_mdt r url path update w
                = (Raise (KeyError "content-length"), w')
       /\ trace w' = (trace w ++ [EvGet url])%list
       /\ fs w' = fs w /\ log w' = log w).
  { intros Hno. unfold download_file.
    destruct (requests_get http_get url (cookies r) w) as [rq w1] eqn:H1.
    pose proof (requests_get_spec _ _ _ _ _ H1) as (Hfs1 & _ & Hl1 & Ht1 & Hr).
    rewrite Hget in Hr. subst rq.
    exists w1. rewrite (bind_ok _ _ _ _ _ H1).
    rewrite header_item_missing by done. done. }
  split_and!; [exact Hmiss| | |].
  - intros Hno data_dir fpath rest b -> -> ->.
    destruct (Hmiss Hno) as (w' & Hrun & Ht & _).
    exists w'. split; [|done]. simpl.
    unfold process, bind at 2, path_exists.
    erewrite bind_raise; [reflexivity|].
    destruct (bool_decide _); erewrite bind_raise; done.
  - intros len Hlen Hint. unfold download_file.
    destruct (requests_get http_get url (cookies r) w) as [rq w1] eqn:H1.
    pose proof (requests_get_spec _ _ _ _ _ H1) as (Hfs1 & _ & Hl1 & Ht1 & Hr).
    rewrite Hget in Hr. subst rq.
    exists w1. rewrite (bind_ok _ _ _ _ _ H1), Hlen, bind_lift_ok.
    unfold PyStr.int. rewrite Hint. done.
  - intros len filesize res w' Hlen Hint. unfold download_file. intros H.
    apply bind_inv in H as [(rq & w1 & H1 & H) | (e & H1 & ->)];
      apply requests_get_spec in H1 as (_ & _ & _ & Ht1 & Hr);
      rewrite Hget in Hr; [|done]. injection Hr as ->.
    apply bind_inv in H as [(len' & w2 & H2 & H) | (e & H2 & ->)];
      apply lift_inv in H2 as [Hl ->]; rewrite Hlen in Hl; [|done].
    injection Hl as ->.
    apply bind_inv in H as [(fsz & w3 & H3 & H) | (e & H3 & ->)];
      apply lift_inv in H3 as [Hi ->]; unfold PyStr.int in Hi; rewrite Hint in Hi;
      [|done].
    apply bind_inv in H as [(up & w4 & H4 & H) | (e & H4 & ->)];
      apply call_check_mdt_spec in H4 as (_ & _ & _ & Ht4 & _).
    + destruct up.
      * injection H as _ <-. exists []. rewrite Ht4, Ht1. now rewrite <- app_assoc.
      * apply fetch_spec in H as (_ & _ & _ & (evs & Ht & _) & _).
        exists (EvOpen path :: evs). rewrite Ht, Ht4, Ht1. now rewrite <- !app_assoc.
    + exists []. rewrite Ht4, Ht1. now rewrite <- app_assoc.
Qed.

Lemma write_chunks_events path filesize cs : forall w w',
  write_chunks path filesize cs w = (Ok tt, w') ->
  trace w' = (trace w ++ (cs ≫= chunk_events path filesize))%list.
Proof.
  induction cs as [|chunk cs IH]; intros w w' H.
  - injection H as <-. now rewrite app_nil_r.
  - simpl in H.
    apply bind_inv in H as [(a & w1 & H1 & H) | (e & _ & [=])].
    apply write_spec in H1 as (_ & _ & _ & Ht1 & _).
    apply bind_inv in H as [(a2 & w2 & H2 & H) | (e & _ & [=])].
    apply IH in H. rewrite H, bind_cons. unfold chunk_events at 2.
    destruct (chunk_size <? filesize).
    + apply bind_inv in H2 as [(st & w3 & H3 & H2) | (e & _ & [=])].
      injection H2 as _ <-.
      apply check_file_status_frame in H3 as (_ & _ & _ & Ht3).
      rewrite Ht3, Ht1. now rewrite <- !app_assoc.
    + injection H2 as _ <-. rewrite Ht1. now rewrite <- !app_assoc.
Qed.

Lemma fetch_events req path filesize w st w' :
  fetch req path filesize w = (Ok st, w') ->
  trace w' = (trace w ++ EvOpen path
                :: (chunks req ≫= chunk_events path filesize) ++ [EvStat path])%list.
Proof.
  unfold fetch. intros H.
  apply bind_inv in H as [(a & w1 & H1 & H) | (e & _ & [=])].
  apply open_wb_spec in H1 as (_ & _ & Ht1 & _).
  apply bind_inv in H as [([] & w2 & H2 & H) | (e & _ & [=])].
  apply write_chunks_events in H2.
  apply bind_inv in H as [(a3 & w3 & H3 & H) | (e & _ & [=])].
  destruct (broken req); [discriminate H3|]. injection H3 as _ <-.
  apply check_file_status_frame in H as (_ & _ & _ & Ht).
  rewrite Ht, H2, Ht1. rewrite <- !app_assoc. reflexivity.
Qed.

Lemma download_file_frame r url path update w res w' :
  download_file http_get check_mdt r url path update w = (res, w') ->
  dirs w' = dirs w
  /\ (forall q, q <> path -> fs w' !! q = fs w !! q)
  /\ exists evs, trace w' = (trace w ++ EvGet url :: evs)%list
                 /\ Forall (local_event path) evs.
Proof.
  unfold download_file. intros H.
  apply bind_inv in H as [(req & w1 & H1 & H) | (e & H1 & ->)];
    apply requests_get_spec in H1 as (Hfs1 & Hd1 & _ & Ht1 & _).
  2: { split_and!; [done|congruence|]. exists []. split; [done|constructor]. }
  apply bind_inv in H as [(len & w2 & [_ ->]%lift_inv & H) | (e & [_ ->]%lift_inv & ->)].
  2: { split_and!; [done|congruence|]. exists []. split; [done|constructor]. }
  apply bind_inv in H as [(fsz & w3 & [_ ->]%lift_inv & H) | (e & [_ ->]%lift_inv & ->)].
  2: { split_and!; [done|congruence|]. exists []. split; [done|constructor]. }
  assert (Hup : exists w4 evs4,
            fs w4 = fs w1 /\ dirs w4 = dirs w1
            /\ trace w4 = (trace w1 ++ evs4)%list /\ Forall (local_event path) evs4
            /\ ((exists e, res = Raise e /\ w' = w4)
                \/ (res = Ok "skip" /\ w' = w4)
                \/ fetch req path fsz w4 = (res, w'))).
  { destruct update.
    - assert (Hev : Forall (local_event path) [EvCheckMdt path])
        by (repeat constructor).
      apply bind_inv in H as [(up & w4 & H4 & H) | (e & H4 & ->)];
        apply call_check_mdt_spec in H4 as (Hfs4 & Hd4 & _ & Ht4 & _).
      + exists w4, [EvCheckMdt path]. split_and!; [done..|].
        destruct up; [injection H as <- <-|]; auto.
      + exists w', [EvCheckMdt path]. split_and!; [done..|]. left. eauto.
    - rewrite bind_ret in H. exists w1, []. rewrite app_nil_r.
      split_and!; try done. now right; right. }
  destruct Hup as (w4 & evs4 & Hfs4 & Hd4 & Ht4 & Hev4 & Hcases).
  assert (Hstop : w' = w4 ->
            dirs w' = dirs w
            /\ (forall q, q <> path -> fs w' !! q = fs w !! q)
            /\ exists evs, trace w' = (trace w ++ EvGet url :: evs)%list
                           /\ Forall (local_event path) evs).
  { intros ->. split_and!; [congruence|intros; congruence|].
    exists evs4. split; [|done]. rewrite Ht4, Ht1. now rewrite <- app_assoc. }
  destruct Hcases as [(e & _ & Hw) | [[_ Hw] | Hfetch]]; [auto..|].
  apply fetch_spec in Hfetch as (Hd & _ & Hfs & (evs & Ht & Hevs) & _).
  split_and!; [congruence| |].
  - intros q Hq. rewrite Hfs by done. congruence.
  - exists (evs4 ++ EvOpen path :: evs)%list. split.
    + rewrite Ht, Ht4, Ht1. now rewrite <- !app_assoc.
    + apply Forall_app. split; [done|]. constructor; [right; now left|].
      eapply Forall_impl; [exact Hevs|]. intros e He. right. now right.
Qed.

Lemma dir_exists_dirs d w1 w2 : dirs w1 = dirs w2 -> dir_exists d w1 = dir_exists d w2.
Proof. unfold dir_exists. now intros ->. Qed.

(** A download outside update mode, or of a copy found stale, comes down to
    the transfer, started after the GET and the staleness check. *)
Lemma download_file_reaches_fetch r url path update w req len filesize :
  http_get (now w) url (cookies r) = Some req ->
  header_item (headers req) "Content-length" = Ok len ->
  PyStr.py_int len = Some filesize ->
  (update = false \/ fst (check_mdt req path (fs w)) = Ok false) ->
  exists w1,
    download_file http_get check_mdt r url path update w = fetch req path filesize w1
    /\ fs w1 = fs w /\ dirs w1 = dirs w
    /\ trace w1 = (trace w ++ EvGet url :: (if update then [EvCheckMdt path] else []))%list.
Proof.
  intros Hget Hlen Hint Hup. unfold download_file.
  destruct (requests_get http_get url (cookies r) w) as [rq w1] eqn:H1.
  pose proof (requests_get_spec _ _ _ _ _ H1) as (Hfs1 & Hd1 & _ & Ht1 & Hr).
  rewrite Hget in Hr. subst rq. rewrite (bind_ok _ _ _ _ _ H1).
  rewrite Hlen, bind_lift_ok. unfold PyStr.int. rewrite Hint, bind_lift_ok.
  destruct update.
  - destruct Hup as [[=] | Hup].
    destruct (call_check_mdt check_mdt req path w1) as [rc w2] eqn:H2.
    pose proof (call_check_mdt_spec _ _ _ _ _ H2) as (Hfs2 & Hd2 & _ & Ht2 & Hrc).
    rewrite Hfs1, Hup in Hrc. subst rc. rewrite (bind_ok _ _ _ _ _ H2).
    exists w2. split_and!; [done|congruence|congruence|].
    rewrite Ht2, Ht1. now rewrite <- app_assoc.
  - rewrite bind_ret. exists w1. split_and!; done.
Qed.

(** The writes go through, progress checks included, as long as the sizes
    stay in the range where the ratio is a float. *)
Lemma write_chunks_returns path filesize cs : forall w f,
  fs w !! path = Some f -> 0 < filesize < 2 ^ 53 ->
  Z.of_nat (length (content f)) + Z.of_nat (length (concat cs)) < 2 ^ 63 ->
  exists w', write_chunks path filesize cs w = (Ok tt, w').
Proof.
  induction cs as [|chunk cs IH]; intros w f Hf Hsize Hlen; [by exists w|].
  simpl. destruct (write path chunk w) as [r1 w1] eqn:H1.
  pose proof (write_spec _ _ _ _ _ H1) as (-> & _ & _ & _ & _ & (f1 & Hf1 & Hc1)).
  rewrite (bind_ok _ _ _ _ _ H1). rewrite Hf in Hc1. simpl in Hc1.
  simpl in Hlen. rewrite length_app in Hlen.
  assert (Hprog : exists w2,
            (if chunk_size <? filesize
             then let* _ := check_file_status path filesize in ret tt
             else ret tt) w1 = (Ok tt, w2)
            /\ fs w2 = fs w1).
  { destruct (chunk_size <? filesize); [|by exists w1].
    unfold bind at 1. rewrite check_file_status_eq, Hf1.
    destruct (proj2 (RoundingFacts.file_status_spec
                       (Z.of_nat (length (content f1))) filesize
                       ltac:(lia) ltac:(lia))) as [st ->];
      [lia|rewrite Hc1, length_app; lia|].
    eexists. split; reflexivity. }
  destruct Hprog as (w2 & H2 & Hfs2). rewrite (bind_ok _ _ _ _ _ H2).
  apply (IH w2 f1); [congruence|done|]. rewrite Hc1, length_app. lia.
Qed.

(** With its directory in place, a transfer whose stream does not break
    returns a status when the declared length is positive and below 2^53 and
    the body is shorter than 2^63 bytes. *)
Lemma fetch_returns req path filesize w :
  dir_exists (dir_of path) w = true -> broken req = false ->
  0 < filesize < 2 ^ 53 -> Z.of_nat (length (concat (chunks req))) < 2 ^ 63 ->
  exists st w', fetch req path filesize w = (Ok st, w').
Proof.
  intros Hdir Hbroken Hsize Hlen. unfold fetch.
  destruct (open_wb path w) as [r1 w1] eqn:H1.
  pose proof (open_wb_spec _ _ _ _ H1) as (_ & _ & _ & _ & Hyes & _).
  destruct (Hyes Hdir) as (-> & f1 & Hf1 & Hc1). rewrite (bind_ok _ _ _ _ _ H1).
  destruct (write_chunks_returns path filesize (chunks req) w1 f1 Hf1 Hsize)
    as (w2 & H2); [rewrite Hc1; simpl; lia|].
  rewrite (bind_ok _ _ _ _ _ H2), Hbroken, bind_ret.
  pose proof (write_chunks_spec _ _ _ _ _ _ H2) as (_ & _ & _ & _ & Hc2 & _).
  destruct (Hc2 f1 Hf1 eq_refl) as (f2 & Hf2 & Hcf2).
  rewrite check_file_status_eq, Hf2.
  destruct (proj2 (RoundingFacts.file_status_spec
                     (Z.of_nat (length (content f2))) filesize
                     ltac:(lia) ltac:(lia))) as [st ->];
    [lia|rewrite Hcf2, Hc1; simpl; lia|].
  eauto.
Qed.

Lemma transfer_event_not_check_mdt path e : transfer_event path e -> not_check_mdt e.
Proof. intros [-> | [n ->]] p; discriminate. Qed.

Lemma download_file_no_update r url path w res w' :
  download_file http_get check_mdt r url path false w = (res, w') ->
  exists evs,
    trace w' = (trace w ++ EvGet url :: evs)%list
    /\ Forall not_check_mdt evs
    /\ (forall req len filesize,
          http_get (now w) url (cookies r) = Some req ->
          header_item (headers req) "Content-length" = Ok len ->
          PyStr.py_int len = Some filesize ->
          exists evs', evs = EvOpen path :: evs').
Proof.
  unfold download_file. intros H.
  apply bind_inv in H as [(req & w1 & H1 & H) | (e & H1 & ->)];
    apply requests_get_spec in H1 as (_ & _ & _ & Ht1 & Hr).
  2: { exists []. split_and!; [done|constructor|].
       intros req len filesize Hget. now rewrite Hget in Hr. }
  apply bind_inv in H as [(len & w2 & H2 & H) | (e & H2 & ->)];
    apply lift_inv in H2 as [Hl ->].
  2: { exists []. split_and!; [done|constructor|].
       intros req' len filesize Hget Hlen. rewrite Hget in Hr.
       injection Hr as <-. now rewrite Hlen in Hl. }
  apply bind_inv in H as [(fsz & w3 & H3 & H) | (e & H3 & ->)];
    apply lift_inv in H3 as [Hi ->].
  2: { exists []. split_and!; [done|constructor|].
       intros req' len' filesize Hget Hlen Hint. rewrite Hget in Hr.
       injection Hr as <-. rewrite Hlen in Hl. injection Hl as <-.
       unfold PyStr.int in Hi. now rewrite Hint in Hi. }
  apply bind_inv in H as [(up & w4 & H4 & H) | (e & [=] & _)].
  injection H4 as <- <-.
  apply fetch_spec in H as (_ & _ & _ & (evs & Ht & Hevs) & _).
  exists (EvOpen path :: evs). split_and!.
  - rewrite Ht, Ht1. now rewrite <- app_assoc.
  - constructor; [intros p; discriminate|].
    eapply Forall_impl; [exact Hevs|]. apply transfer_event_not_check_mdt.
  - eauto.
Qed.

Lemma download_file_ignores_check_mdt cm1 cm2 r url path w :
  download_file http_get cm1 r url path false w
  = download_file http_get cm2 r url path false w.
Proof. reflexivity. Qed.

(** C5: a target whose local file is absent when its turn comes is fetched
    outside update mode.  The turn starts with the GET of the remote URL, no
    staleness check appears among its calls, its result is the same whatever
    the staleness check would answer, and once the response declares an
    integer content length the local file is opened for writing.  The fetch
    is a full one: a turn that returns has written every chunk of the
    response, in order, and made the final check; the file holds the bytes
    received, and the target is filed as new or as error, never as updated.
    The turn does return when the directory of the file exists, the stream
    does not break, the declared length is positive and below 2^53 and the
    body is shorter than 2^63 bytes; without the directory it ends with
    FileNotFoundError. *)
Theorem absent_local_file_never_enters_update_mode (r : Response)
    (data_dir fpath : string) (b : Buckets) (w : World)
    (res : Res Buckets) (w' : World) :
  fs w !! local_path data_dir fpath = None ->
  process http_get check_mdt r data_dir fpath b w = (res, w') ->
  (exists evs,
     trace w' = (trace w ++ EvGet (remote_url fpath) :: evs)%list
     /\ Forall not_check_mdt evs
     /\ (forall req len filesize,
           http_get (now w) (remote_url fpath) (cookies r) = Some req ->
           header_item (headers req) "Content-length" = Ok len ->
           PyStr.py_int len = Some filesize ->
           exists evs', evs = EvOpen (local_path data_dir fpath) :: evs'))
  /\ (forall check_mdt',
        process http_get check_mdt' r data_dir fpath b w = (res, w'))
  /\ (forall req len filesize,
        http_get (now w) (remote_url fpath) (cookies r) = Some req ->
        header_item (headers req) "Content-length" = Ok len ->
        PyStr.py_int len = Some filesize ->
        (forall b', res = Ok b' ->
           trace w'
           = (trace w ++ EvGet (remote_url fpath)
                :: EvOpen (local_path data_dir fpath)
                :: (chunks req ≫= chunk_events (local_path data_dir fpath) filesize)
                ++ [EvStat (local_path data_dir fpath)])%list
           /\ (exists f, fs w' !! local_path data_dir fpath = Some f
                         /\ content f = concat (chunks req))
           /\ updated b' = updated b
           /\ ((new b' = (new b ++ [fpath])%list /\ error b' = error b)
               \/ (new b' = new b /\ error b' = (error b ++ [fpath])%list)))
        /\ (dir_exists (dir_of (local_path data_dir fpath)) w = true ->
            broken req = false -> 0 < filesize < 2 ^ 53 ->
            Z.of_nat (length (concat (chunks req))) < 2 ^ 63 ->
            exists b', res = Ok b')
        /\ (dir_exists (dir_of (local_path data_dir fpath)) w = false ->
            res = Raise (FileNotFoundError (local_path data_dir fpath)))).
Proof.
  intros Hnone H.
  assert (Hproc : forall cm,
    process http_get cm r data_dir fpath b w
    = (let* status := download_file http_get cm r (remote_url fpath)
                        (local_path data_dir fpath) false in
       ret (record fpath false status b)) w).
  { intros cm. unfold process, bind at 1, path_exists.
    rewrite bool_decide_eq_false_2; [done|]. rewrite Hnone. by intros [? ?]. }
  split_and!.
  - rewrite Hproc in H.
    apply bind_inv in H as [(st & w1 & H1 & H) | (e & H1 & ->)].
    + injection H as <- <-. now apply download_file_no_update in H1.
    + now apply download_file_no_update in H1.
  - intros cm'. rewrite Hproc. rewrite Hproc in H. exact H.
  - intros req len filesize Hget Hlen Hint. rewrite Hproc in H.
    destruct (download_file_reaches_fetch r (remote_url fpath)
                (local_path data_dir fpath) false w req len filesize
                Hget Hlen Hint (or_introl eq_refl))
      as (w1 & Hdl & Hfs1 & Hd1 & Ht1).
    unfold bind in H. rewrite Hdl in H.
    destruct (fetch req (local_path data_dir fpath) filesize w1) as [rf wf] eqn:Hf.
    split_and!.
    + intros b' ->. destruct rf as [st|e]; [|discriminate H].
      injection H as <- <-.
      pose proof (fetch_events _ _ _ _ _ _ Hf) as Htr.
      apply fetch_spec in Hf as (_ & _ & _ & _ & Hst & _).
      destruct (Hst st eq_refl) as (_ & f & Hfw & Hcf & Hstatus).
      split_and!.
      * rewrite Htr, Ht1. now rewrite <- app_assoc.
      * eauto.
      * apply file_status_cases in Hstatus as [-> | ->]; reflexivity.
      * apply file_status_cases in Hstatus as [-> | ->]; [left|right]; done.
    + intros Hdir Hbroken Hsize Hbody.
      destruct (fetch_returns req (local_path data_dir fpath) filesize w1)
        as (st & w2 & Hret); [by rewrite (dir_exists_dirs _ w1 w)|done..|].
      rewrite Hret in Hf. injection Hf as <- <-. injection H as <- _. eauto.
    + intros Hdir.
      apply fetch_spec in Hf as (_ & _ & _ & _ & _ & _ & Hno).
      destruct Hno as (-> & _); [by rewrite (dir_exists_dirs _ w1 w)|].
      now injection H as <- _.
Qed.

Lemma truediv_nonzero a b : b <> 0 -> PyFloat.truediv a b <> Raise ZeroDivisionError.
Proof.
  intros Hb. unfold PyFloat.truediv.
  destruct (Z.eqb_spec b 0) as [|_]; [done|].
  destruct (a =? 0); [done|]. now destruct (SFdiv _ _ _ _).
Qed.

(** C9: the completeness check divides by the declared content length.  With
    a declared length of 0 the check of an existing file raises
    ZeroDivisionError, and so does a download that reaches the transfer: no
    status is returned.  (A download that cannot open its file, for want of
    its directory, ends with FileNotFoundError before the check.)  With any
    other declared length the check never raises ZeroDivisionError. *)
Theorem zero_content_length_makes_the_check_crash (path : string) (w : World) :
  (forall f, fs w !! path = Some f ->
     fst (check_file_status path 0 w) = Raise ZeroDivisionError)
  /\ (forall r url update req len,
        http_get (now w) url (cookies r) = Some req ->
        header_item (headers req) "Content-length" = Ok len ->
        PyStr.py_int len = Some 0 ->
        broken req = false ->
        (update = false \/ fst (check_mdt req path (fs w)) = Ok false) ->
        fst (download_file http_get check_mdt r url path update w)
        = if dir_exists (dir_of path) w then Raise ZeroDivisionError
          else Raise (FileNotFoundError path))
  /\ (forall filesize, filesize <> 0 ->
        fst (check_file_status path filesize w) <> Raise ZeroDivisionError).
Proof.
  split_and!.
  - intros f Hf. rewrite check_file_status_eq, Hf. reflexivity.
  - intros r url update req len Hget Hlen Hint Hbroken Hup.
    destruct (download_file_reaches_fetch r url path update w req len 0
                Hget Hlen Hint Hup) as (w1 & -> & _ & Hd1 & _).
    destruct (fetch req path 0 w1) as [rf wf] eqn:Hf.
    apply fetch_spec in Hf as (_ & _ & _ & _ & _ & Hz & Hno).
    rewrite (dir_exists_dirs _ w1 w Hd1) in Hz, Hno.
    destruct (dir_exists (dir_of path) w); [now apply Hz | now apply Hno].
  - intros filesize Hnz. rewrite check_file_status_eq.
    destruct (fs w !! path) as [f|]; [|done]. simpl. unfold file_status.
    pose proof (truediv_nonzero (Z.of_nat (length (content f))) filesize Hnz).
    destruct (PyFloat.truediv _ _); [|congruence].
    now destruct (PyFloat.eqb_int _ _).
Qed.

(** *** The download loop *)

Lemma process_inv r data_dir fpath b w b' w' :
  process http_get check_mdt r data_dir fpath b w = (Ok b', w') ->
  let update := bool_decide (is_Some (fs w !! local_path data_dir fpath)) in
  exists status,
    download_file http_get check_mdt r (remote_url fpath)
      (local_path data_dir fpath) update w = (Ok status, w')
    /\ b' = record fpath update status b.
Proof.
  unfold process, bind at 1, path_exists. cbv zeta.
  destruct (bool_decide _); intros H;
    apply bind_inv in H as [(st & w1 & H1 & H) | (e & _ & [=])];
    injection H as <- <-; eauto.
Qed.

Lemma record_grows fpath update status b :
  exists au an ae,
    updated (record fpath update status b) = (updated b ++ au)%list
    /\ new (record fpath update status b) = (new b ++ an)%list
    /\ error (record fpath update status b) = (error b ++ ae)%list
    /\ (au ++ an ++ ae = [fpath] \/ au ++ an ++ ae = [])%list
    /\ (fpath ∈ au <-> status = "complete" /\ update = true)
    /\ (fpath ∈ an <-> status = "complete" /\ update = false)
    /\ (fpath ∈ ae <-> status = "incomplete").
Proof.
  clear http_get check_mdt.
  unfold record.
  destruct (String.eqb_spec status "complete") as [->|Hc].
  - destruct update.
    + exists [fpath], [], []. simpl. rewrite !app_nil_r.
      split_and!; try done; try (by left); rewrite ?list_elem_of_singleton, ?elem_of_nil;
        intuition congruence.
    + exists [], [fpath], []. simpl. rewrite !app_nil_r.
      split_and!; try done; try (by left); rewrite ?list_elem_of_singleton, ?elem_of_nil;
        intuition congruence.
  - destruct (String.eqb_spec status "incomplete") as [->|Hi].
    + exists [], [], [fpath]. simpl. rewrite !app_nil_r.
      split_and!; try done; try (by left); rewrite ?list_elem_of_singleton, ?elem_of_nil;
        intuition congruence.
    + exists [], [], []. simpl. rewrite !app_nil_r.
      split_and!; try done; try (by right); rewrite ?elem_of_nil; intuition congruence.
Qed.

Lemma download_all_grows r data_dir flist : forall b w b' w',
  download_all http_get check_mdt r data_dir flist b w = (Ok b', w') ->
  exists au an ae,
    updated b' = (updated b ++ au)%list
    /\ new b' = (new b ++ an)%list
    /\ error b' = (error b ++ ae)%list
    /\ (forall x, x ∈ (au ++ an ++ ae)%list -> x ∈ flist).
Proof.
  induction flist as [|fpath rest IH]; intros b w b' w' H.
  - injection H as <- <-. exists [], [], []. rewrite !app_nil_r.
    split_and!; done.
  - simpl in H. apply bind_inv in H as [(b1 & w1 & H1 & H) | (e & _ & [=])].
    apply process_inv in H1 as (st & _ & ->).
    apply IH in H as (au & an & ae & Hu & Hn & He & Hin).
    destruct (record_grows fpath
                (bool_decide (is_Some (fs w !! local_path data_dir fpath))) st b)
      as (u1 & n1 & e1 & Hu1 & Hn1 & He1 & Hone & _).
    exists (u1 ++ au)%list, (n1 ++ an)%list, (e1 ++ ae)%list.
    rewrite Hu, Hn, He, Hu1, Hn1, He1, <- !app_assoc. split_and!; try done.
    intros x Hx. rewrite !elem_of_app in Hx. rewrite elem_of_cons.
    assert (Hx1 : x ∈ (u1 ++ n1 ++ e1)%list -> x = fpath).
    { destruct Hone as [-> | ->]; [now intros ->%list_elem_of_singleton|].
      now intros ?%elem_of_nil. }
    rewrite !elem_of_app in Hx1.
    assert (Hx2 : x ∈ (au ++ an ++ ae)%list -> x ∈ rest) by apply Hin.
    rewrite !elem_of_app in Hx2. clear -Hx Hx1 Hx2. tauto.
Qed.

Lemma download_all_app r data_dir l1 l2 b w :
  download_all http_get check_mdt r data_dir (l1 ++ l2) b w
  = (let* b1 := download_all http_get check_mdt r data_dir l1 b in
     download_all http_get check_mdt r data_dir l2 b1) w.
Proof.
  revert b w. induction l1 as [|x l1 IH]; intros b w; [done|].
  simpl. rewrite bind_assoc. apply bind_ext. intros b1 w1. apply IH.
Qed.

Lemma record_NoDup fpath update status b rest :
  NoDup (all_entries b ++ fpath :: rest) ->
  NoDup (all_entries (record fpath update status b) ++ rest).
Proof.
  unfold all_entries, record. intros H.
  assert (Hskip : NoDup ((updated b ++ new b ++ error b) ++ rest)).
  { refine (sublist_NoDup _ _ H _).
    apply sublist_app; [done|]. now apply sublist_cons. }
  destruct (String.eqb status "complete"); [destruct update|
    destruct (String.eqb status "incomplete")]; simpl; try done.
  - eapply NoDup_Permutation_proper; [|exact H]. solve_Permutation.
  - eapply NoDup_Permutation_proper; [|exact H]. solve_Permutation.
  - eapply NoDup_Permutation_proper; [|exact H]. solve_Permutation.
Qed.

Lemma download_all_NoDup r data_dir flist : forall b w b' w',
  download_all http_get check_mdt r data_dir flist b w = (Ok b', w') ->
  NoDup (all_entries b ++ flist) -> NoDup (all_entries b').
Proof.
  induction flist as [|fpath rest IH]; intros b w b' w' H Hnd.
  - injection H as <- <-. now rewrite app_nil_r in Hnd.
  - simpl in H. apply bind_inv in H as [(b1 & w1 & H1 & H) | (e & _ & [=])].
    apply process_inv in H1 as (st & _ & ->).
    eapply IH; [exact H|]. now apply record_NoDup.
Qed.

(** C4, for a plan without repeated targets: in a run that reaches the
    summary, every target of the plan gets exactly one status, skip, complete
    or incomplete, from the one download made at its turn.  It is listed as
    updated exactly when that status is complete in update mode, as new
    exactly when it is complete outside update mode, as error exactly when it
    is incomplete, and in none of the three lists when it is skip; and no
    path occurs twice in the three lists taken together, so that they are
    pairwise disjoint. *)
Theorem every_target_is_classified_once (r : Response) (data_dir : string)
    (pre : list string) (fpath : string) (post : list string)
    (w : World) (b' : Buckets) (w' : World) :
  NoDup (pre ++ fpath :: post) ->
  download_all http_get check_mdt r data_dir (pre ++ fpath :: post) no_buckets w
  = (Ok b', w') ->
  exists b1 w1 status w2,
    let update := bool_decide (is_Some (fs w1 !! local_path data_dir fpath)) in
    download_all http_get check_mdt r data_dir pre no_buckets w = (Ok b1, w1)
    /\ download_file http_get check_mdt r (remote_url fpath)
         (local_path data_dir fpath) update w1 = (Ok status, w2)
    /\ download_all http_get check_mdt r data_dir post
         (record fpath update status b1) w2 = (Ok b', w')
    /\ (status = "skip" \/ status = "complete" \/ status = "incomplete")
    /\ (fpath ∈ updated b' <-> status = "complete" /\ update = true)
    /\ (fpath ∈ new b' <-> status = "complete" /\ update = false)
    /\ (fpath ∈ error b' <-> status = "incomplete")
    /\ (status = "skip" -> fpath ∉ all_entries b')
    /\ NoDup (updated b' ++ new b' ++ error b').
Proof.
  intros Hnd H.
  pose proof (download_all_NoDup _ _ _ _ _ _ _ H Hnd) as Hnd'.
  rewrite download_all_app in H.
  apply bind_inv in H as [(b1 & w1 & Hpre & H) | (e & _ & [=])].
  simpl in H. apply bind_inv in H as [(b2 & w2 & Hproc & Hpost) | (e & _ & [=])].
  apply process_inv in Hproc as (status & Hdl & ->).
  exists b1, w1, status, w2. cbv zeta.
  set (update := bool_decide _) in *.
  apply NoDup_app in Hnd as (_ & Hpre_post & Hpost_nd).
  apply NoDup_cons in Hpost_nd as [Hnot_post _].
  assert (Hnot_pre : fpath ∉ pre).
  { intros Hin. apply (Hpre_post _ Hin). now left. }
  pose proof (download_all_grows _ _ _ _ _ _ _ Hpre)
    as (u1 & n1 & e1 & Hu1 & Hn1 & He1 & Hin1).
  pose proof (download_all_grows _ _ _ _ _ _ _ Hpost)
    as (u3 & n3 & e3 & Hu3 & Hn3 & He3 & Hin3).
  destruct (record_grows fpath update status b1)
    as (u2 & n2 & e2 & Hu2 & Hn2 & He2 & _ & Hcu & Hcn & Hce).
  simpl in Hu1, Hn1, He1.
  assert (Hno1 : (fpath ∉ u1) /\ (fpath ∉ n1) /\ (fpath ∉ e1)).
  { split_and!; intros Hin; apply Hnot_pre, Hin1; rewrite !elem_of_app; auto. }
  assert (Hno3 : (fpath ∉ u3) /\ (fpath ∉ n3) /\ (fpath ∉ e3)).
  { split_and!; intros Hin; apply Hnot_post, Hin3; rewrite !elem_of_app; auto. }
  destruct Hno1 as (? & ? & ?), Hno3 as (? & ? & ?).
  assert (Hmu : fpath ∈ updated b' <-> status = "complete" /\ update = true).
  { rewrite Hu3, Hu2, Hu1, !elem_of_app, <- Hcu. tauto. }
  assert (Hmn : fpath ∈ new b' <-> status = "complete" /\ update = false).
  { rewrite Hn3, Hn2, Hn1, !elem_of_app, <- Hcn. tauto. }
  assert (Hme : fpath ∈ error b' <-> status = "incomplete").
  { rewrite He3, He2, He1, !elem_of_app, <- Hce. tauto. }
  split_and!; try done.
  - eapply download_file_status, Hdl.
  - intros ->. unfold all_entries. rewrite !elem_of_app, Hmu, Hmn, Hme.
    intros [[[=] _] | [[[=] _] | [=]]].
Qed.

(** *** The two names of a target *)

Lemma record_skip fpath update b : record fpath update "skip" b = b.
Proof. reflexivity. Qed.

Lemma download_file_opens r url path update w st w' :
  download_file http_get check_mdt r url path update w = (Ok st, w') ->
  st <> "skip" ->
  exists evs1 evs2,
    trace w' = (trace w ++ EvGet url :: evs1 ++ EvOpen path :: evs2)%list.
Proof.
  unfold download_file. intros H Hskip.
  apply bind_inv in H as [(req & w1 & H1 & H) | (e & _ & [=])].
  apply requests_get_spec in H1 as (_ & _ & _ & Ht1 & _).
  apply bind_inv in H as [(len & w2 & [_ ->]%lift_inv & H) | (e & _ & [=])].
  apply bind_inv in H as [(fsz & w3 & [_ ->]%lift_inv & H) | (e & _ & [=])].
  apply bind_inv in H as [(up & w4 & H4 & H) | (e & _ & [=])].
  destruct up; [now injection H as <- _|].
  apply fetch_spec in H as (_ & _ & _ & (evs & Ht & _) & _).
  destruct update.
  - apply call_check_mdt_spec in H4 as (_ & _ & _ & Ht4 & _).
    exists [EvCheckMdt path], evs. rewrite Ht, Ht4, Ht1. now rewrite <- !app_assoc.
  - injection H4 as <-. exists [], evs. rewrite Ht, Ht1. now rewrite <- !app_assoc.
Qed.

(** C8, below the two roots: every target [fpath] of a plan returned by
    [get_filelist] starts with v1.0/30min/8km/ and so does not carry the
    cmorph_ prefix.  At its turn the GET goes to the data set root followed
    by cmorph_ and [fpath]; every other call of the turn, staleness check,
    opening, writes and size checks, is made on the data directory followed
    by a slash and [fpath], and no other file changes; a target that ends up
    in one of the three lists has had its file opened under that name.  So
    the remote name below https://rda.ucar.edu/data/ds502.2/ is the local
    name below the data directory, preceded by cmorph_ . *)
Theorem remote_name_is_local_name_with_cmorph_prefix (r : Response)
    (yr : string) (mns : list string) (data_dir : string) (w0 w0' : World)
    (flist : list string) (fpath : string) (b : Buckets) (w : World)
    (res : Res Buckets) (w' : World) :
  get_filelist yr mns data_dir w0 = (Ok flist, w0') ->
  fpath ∈ flist ->
  process http_get check_mdt r data_dir fpath b w = (res, w') ->
  (exists rest, fpath = "v1.0/30min/8km/" ++ rest)
  /\ String.prefix "cmorph_" fpath = false
  /\ (exists evs,
        trace w'
        = (trace w
           ++ EvGet ("https://rda.ucar.edu/data/ds502.2/" ++ "cmorph_" ++ fpath)
           :: evs)%list
        /\ Forall (local_event (data_dir ++ "/" ++ fpath)) evs
        /\ (forall b', res = Ok b' -> b' <> b ->
              EvOpen (data_dir ++ "/" ++ fpath) ∈ evs))
  /\ (forall q, q <> data_dir ++ "/" ++ fpath -> fs w' !! q = fs w !! q).
Proof.
  intros Hrun Hin H. unfold get_filelist in Hrun.
  destruct (PlanTheorems.get_filelist_from_elems _ _ _ _ _ _ _ Hrun fpath Hin)
    as [[]%elem_of_nil | (mn & n & _ & Hmf)].
  apply PlanTheorems.month_files_prefix in Hmf as (rest & Hrest).
  split; [eauto|]. split; [now rewrite Hrest|].
  change ("https://rda.ucar.edu/data/ds502.2/" ++ "cmorph_" ++ fpath)
    with (remote_url fpath).
  change (data_dir ++ "/" ++ fpath) with (local_path data_dir fpath).
  unfold process, bind at 1, path_exists in H.
  set (update := bool_decide (is_Some (fs w !! local_path data_dir fpath))) in H.
  assert (Hdl : exists st,
            download_file http_get check_mdt r (remote_url fpath)
              (local_path data_dir fpath) update w = (st, w')
            /\ (forall b', res = Ok b' ->
                  exists status, st = Ok status /\ b' = record fpath update status b)).
  { destruct update;
      apply bind_inv in H as [(st & w2 & Hdl & H) | (e & Hdl & ->)];
      [injection H as <- <-| |injection H as <- <-|];
      eexists; (split; [exact Hdl|]); intros b' [=]; eauto. }
  destruct Hdl as (st & Hdl & Hres).
  pose proof (download_file_frame _ _ _ _ _ _ _ Hdl) as (_ & Hfs & evs & Ht & Hevs).
  split; [|exact Hfs].
  exists evs. split_and!; [done|done|].
  intros b' Hb' Hneq. destruct (Hres b' Hb') as (status & -> & ->).
  destruct (download_file_opens _ _ _ _ _ _ _ Hdl) as (evs1 & evs2 & Ht2).
  { intros ->. now rewrite record_skip in Hneq. }
  rewrite Ht in Ht2. apply app_inv_head in Ht2. injection Ht2 as ->.
  apply elem_of_app. right. now left.
Qed.

End CmorphFacts.

Section Authentication.

Variable http_post : string -> list (string * string) -> option Response.
Variable http_get : nat -> string -> string -> option Response.
Variable environ : gmap string string.
Variable today : string.
Variable check_mdt : Response -> string -> gmap string File -> Res bool * list string.

(** C7, as the script behaves: when the login answers with a status other
    than 200, [main] logs the fixed line Bad Authentication and the body of
    the response, and exits with code 1.  The POST is the only call made: no
    directory is created, no file is requested and no summary is produced. *)
Theorem bad_authentication_aborts_the_run (args : Args) (w : World)
    (pswd : string) (r : Response) :
  environ !! "RDAPSWD" = Some pswd ->
  http_post login_url
    [("email", user args); ("passwd", pswd); ("action", "login")] = Some r ->
  status_code r <> 200 ->
  exists w',
    main http_post http_get environ today check_mdt args w = (Raise (SystemExit 1), w')
    /\ log w' = (log w ++ [("Updated on " ++ today ++ " by "
                              ++ default "None" (environ !! "USER"))%string;
                           "Bad Authentication"; text r])%list
    /\ trace w' = (trace w ++ [EvPost login_url])%list
    /\ fs w' = fs w /\ dirs w' = dirs w.
Proof.
  intros Henv Hpost Hstatus.
  unfold main, authenticate, requests_post, login_url in *.
  unfold bind, log_info, lift, emit, tick, raise, ret. simpl.
  rewrite Henv, Hpost. simpl.
  destruct (Z.eqb_spec (status_code r) 200) as [|_]; [done|]. simpl.
  eexists. split_and!; try reflexivity. simpl. now rewrite <- !app_assoc.
Qed.

End Authentication.

(** ** The completeness check *)

Section Completeness.

Set Default Proof Using "Type".

Variable http_get : nat -> string -> string -> option Response.
Variable check_mdt : Response -> string -> gmap string File -> Res bool * list string.

(** C1, for declared lengths below 2^53: whenever the completeness check
    returns a status, that status is complete exactly when the size on disk
    equals the declared content length, and incomplete exactly when it does
    not.  The check does return a status when the declared length is
    positive and the file is smaller than 2^63 bytes.  For a download that
    returns a status other than skip, the size compared is the number of
    bytes of the chunks received, now on disk. *)
Theorem complete_iff_size_equals_declared_length (filesize : Z) :
  filesize < 2 ^ 53 ->
  (forall path w f st w',
     fs w !! path = Some f ->
     check_file_status path filesize w = (Ok st, w') ->
     (st = "complete" <-> Z.of_nat (length (content f)) = filesize)
     /\ (st = "incomplete" <-> Z.of_nat (length (content f)) <> filesize))
  /\ (forall path w f,
       fs w !! path = Some f -> 0 < filesize ->
       Z.of_nat (length (content f)) < 2 ^ 63 ->
       exists st, fst (check_file_status path filesize w) = Ok st)
  /\ (forall r url path update w req len status w',
       http_get (now w) url (cookies r) = Some req ->
       header_item (headers req) "Content-length" = Ok len ->
       PyStr.py_int len = Some filesize ->
       download_file http_get check_mdt r url path update w = (Ok status, w') ->
       status <> "skip" ->
       exists f,
         fs w' !! path = Some f /\ content f = concat (chunks req)
         /\ (status = "complete" <-> Z.of_nat (length (content f)) = filesize)
         /\ (status = "incomplete" <-> Z.of_nat (length (content f)) <> filesize)).
Proof.
  intros H53. split_and!.
  - intros path w f st w' Hf Hrun.
    apply check_file_status_result in Hrun as (f' & Hf' & Hst).
    rewrite Hf in Hf'. injection Hf' as <-.
    apply (RoundingFacts.file_status_spec _ filesize); [lia|done|done].
  - intros path w f Hf Hpos H63. rewrite check_file_status_eq, Hf. simpl.
    apply (RoundingFacts.file_status_spec _ filesize); [lia|done..].
  - intros r url path update w req len status w' Hget Hlen Hint Hrun Hskip.
    unfold download_file in Hrun.
    apply bind_inv in Hrun as [(rq & w1 & H1 & H) | (e & _ & [=])].
    apply requests_get_spec in H1 as (_ & _ & _ & _ & Hr).
    rewrite Hget in Hr. injection Hr as ->.
    apply bind_inv in H as [(len' & w2 & H2 & H) | (e & _ & [=])].
    apply lift_inv in H2 as [Hl ->]. rewrite Hlen in Hl. injection Hl as ->.
    apply bind_inv in H as [(fsz & w3 & H3 & H) | (e & _ & [=])].
    apply lift_inv in H3 as [Hi ->]. unfold PyStr.int in Hi. rewrite Hint in Hi.
    injection Hi as ->.
    apply bind_inv in H as [(up & w4 & _ & H) | (e & _ & [=])].
    destruct up; [injection H as <- _; done|].
    apply fetch_spec in H as (_ & _ & _ & _ & Hst & _).
    destruct (Hst status eq_refl) as (_ & f & Hf & Hc & Hfst).
    exists f. split_and!; [done|done|..];
      apply (RoundingFacts.file_status_spec _ filesize); try done; lia.
Qed.

End Completeness.

(** ** The theorems at work on concrete runs *)

Lemma skip_leaves_local_file_unmodified_run :
  let w := world_with_feb_first in
  let path := local_path "/g/data" feb_first in
  let w' := snd (download_file (one_byte_server "1") always_fresh (ok_response "2" [])
                   (remote_url feb_first) path true w) in
  true = true
  /\ fs w' = fs w
  /\ (forall f, fs w !! path = Some f -> fs w' !! path = Some f)
  /\ dirs w' = dirs w
  /\ trace w' = (trace w ++ [EvGet (remote_url feb_first); EvCheckMdt path])%list.
Proof.
  cbv zeta.
  apply (skip_leaves_local_file_unmodified (one_byte_server "1") always_fresh
           (ok_response "2" []) (remote_url feb_first)
           (local_path "/g/data" feb_first) true world_with_feb_first).
  vm_compute. reflexivity.
Defined.

Lemma content_length_is_read_before_the_staleness_check_run :
  exists w',
    download_file headerless_server always_fresh (ok_response "2" [])
      (remote_url feb_first) (local_path "/g/data" feb_first) true world_with_feb_first
    = (Raise (KeyError "content-length"), w')
    /\ trace w' = (trace world_with_feb_first ++ [EvGet (remote_url feb_first)])%list
    /\ fs w' = fs world_with_feb_first /\ log w' = log world_with_feb_first.
Proof.
  assert (Hno : lacks_content_length no_length_response).
  { unfold lacks_content_length. repeat constructor. simpl. discriminate. }
  apply (proj1 (content_length_is_read_before_the_staleness_check
                  headerless_server always_fresh (ok_response "2" [])
                  (remote_url feb_first) (local_path "/g/data" feb_first) true
                  world_with_feb_first no_length_response eq_refl)).
  exact Hno.
Defined.

Lemma absent_local_file_never_enters_update_mode_run :
  let path := local_path "/g/data" feb_first in
  exists b' w',
    process (one_byte_server "1") always_fresh (ok_response "2" [])
      "/g/data" feb_first no_buckets feb_world = (Ok b', w')
    /\ trace w'
       = [EvGet (remote_url feb_first); EvOpen path; EvWrite path 1; EvStat path]
    /\ (exists f, fs w' !! path = Some f /\ content f = [Byte.x00])
    /\ updated b' = [].
Proof.
  cbv zeta.
  destruct (process (one_byte_server "1") always_fresh (ok_response "2" [])
              "/g/data" feb_first no_buckets feb_world) as [res w'] eqn:Hrun.
  destruct (absent_local_file_never_enters_update_mode (one_byte_server "1")
              always_fresh (ok_response "2" []) "/g/data" feb_first no_buckets
              feb_world res w' eq_refl Hrun) as (_ & _ & Hfetch).
  destruct (Hfetch (ok_response "1" [[Byte.x00]]) "1" 1 eq_refl eq_refl eq_refl)
    as (Hok & Hret & _).
  destruct Hret as [b' ->].
  - vm_compute. reflexivity.
  - reflexivity.
  - lia.
  - simpl. lia.
  - destruct (Hok b' eq_refl) as (Ht & Hf & Hu & _).
    exists b', w'. split_and!; [reflexivity|exact Ht|exact Hf|exact Hu].
Defined.

Lemma bad_authentication_aborts_the_run_403 :
  exists w',
    main login_forbids headerless_server rda_environ "2022-06-28" always_fresh
      {| year := "2022"; month := Some ["02"]; debug := false; user := "me@example.org" |}
      empty_world
    = (Raise (SystemExit 1), w')
    /\ log w' = (log empty_world
                 ++ [("Updated on " ++ "2022-06-28" ++ " by "
                      ++ default "None" (rda_environ !! "USER"))%string;
                     "Bad Authentication"; text forbidden_response])%list
    /\ trace w' = (trace empty_world ++ [EvPost login_url])%list
    /\ fs w' = fs empty_world /\ dirs w' = dirs empty_world.
Proof.
  apply (bad_authentication_aborts_the_run login_forbids headerless_server rda_environ
           "2022-06-28" always_fresh _ empty_world "secret" forbidden_response).
  - reflexivity.
  - reflexivity.
  - discriminate.
Defined.

Lemma every_target_is_classified_once_run :
  let get := one_byte_server "1" in
  let r := ok_response "2" [] in
  let run := download_all get always_stale r "/g/data" [feb_first; feb_second]
               no_buckets feb_world in
  exists b1 w1 status w2,
    let update := bool_decide (is_Some (fs w1 !! local_path "/g/data" feb_second)) in
    download_all get always_stale r "/g/data" [feb_first] no_buckets feb_world
    = (Ok b1, w1)
    /\ download_file get always_stale r (remote_url feb_second)
         (local_path "/g/data" feb_second) update w1 = (Ok status, w2)
    /\ download_all get always_stale r "/g/data" []
         (record feb_second update status b1) w2
       = (Ok {| updated := []; new := [feb_first; feb_second]; error := [] |}, snd run)
    /\ (status = "skip" \/ status = "complete" \/ status = "incomplete")
    /\ (feb_second ∈ updated {| updated := []; new := [feb_first; feb_second]; error := [] |}
        <-> status = "complete" /\ update = true)
    /\ (feb_second ∈ new {| updated := []; new := [feb_first; feb_second]; error := [] |}
        <-> status = "complete" /\ update = false)
    /\ (feb_second ∈ error {| updated := []; new := [feb_first; feb_second]; error := [] |}
        <-> status = "incomplete")
    /\ (status = "skip" ->
        feb_second ∉ all_entries {| updated := []; new := [feb_first; feb_second]; error := [] |})
    /\ NoDup (updated {| updated := []; new := [feb_first; feb_second]; error := [] |}
              ++ new {| updated := []; new := [feb_first; feb_second]; error := [] |}
              ++ error {| updated := []; new := [feb_first; feb_second]; error := [] |}).
Proof.
  cbv zeta.
  apply (every_target_is_classified_once (one_byte_server "1") always_stale
           (ok_response "2" []) "/g/data" [feb_first] feb_second [] feb_world).
  - apply NoDup_cons. split; [|apply NoDup_singleton].
    intros Hin%list_elem_of_singleton. discriminate Hin.
  - vm_compute. reflexivity.
Defined.

(** C4, for every run: a request that names February twice lists each of its
    28 targets twice in the plan.  With a server whose copies are newer than
    the local ones the first pass files the target as new and the second as
    updated, so the two lists of the summary share it. *)
Lemma repeated_month_files_a_target_twice :
  exists w' u n e,
    main login_accepts (one_byte_server "1") rda_environ "2022-06-28" always_stale
      {| year := "2022"; month := Some ["02"; "02"]; debug := false;
         user := "me@example.org" |} empty_world
    = (Ok tt, w')
    /\ last (trace w') = Some (EvSummary u n e)
    /\ feb_first ∈ u /\ feb_first ∈ n.
Proof.
  exists (snd (main login_accepts (one_byte_server "1") rda_environ "2022-06-28"
                 always_stale
                 {| year := "2022"; month := Some ["02"; "02"]; debug := false;
                    user := "me@example.org" |} empty_world)),
         (plan "2022" ["02"]), (plan "2022" ["02"]), [].
  split.
  { match goal with |- ?X = _ => set (run := X) end.
    assert (Hres : fst run = Ok tt) by (vm_compute; reflexivity).
    clearbody run. destruct run as [res w']. simpl in *. now subst res. }
  split; [vm_compute; reflexivity|].
  split; vm_compute; left.
Qed.

Lemma zero_content_length_makes_the_check_crash_run :
  fst (download_file (one_byte_server "0") always_stale (ok_response "2" [])
         (remote_url feb_first) (local_path "/g/data" feb_first) false feb_world)
  = Raise ZeroDivisionError.
Proof.
  apply (proj1 (proj2 (zero_content_length_makes_the_check_crash
                         (one_byte_server "0") always_stale
                         (local_path "/g/data" feb_first) feb_world))
           (ok_response "2" []) (remote_url feb_first) false
           (ok_response "0" [[Byte.x00]]) "0").
  - reflexivity.
  - reflexivity.
  - reflexivity.
  - reflexivity.
  - now left.
Defined.

(** C7, as worded: with a login answered by 403 Forbidden the run logs three
    lines, and the status code 403 occurs in none of them. *)
Lemma bad_authentication_does_not_log_the_status_code :
  exists w',
    main login_forbids headerless_server rda_environ "2022-06-28" always_fresh
      {| year := "2022"; month := Some ["02"]; debug := false; user := "me@example.org" |}
      empty_world
    = (Raise (SystemExit 1), w')
    /\ status_code forbidden_response = 403
    /\ log w' = ["Updated on 2022-06-28 by None"; "Bad Authentication"; "Forbidden"]
    /\ Forall (fun line => contains "403" line = false) (log w').
Proof.
  eexists. split; [vm_compute; reflexivity|].
  split; [reflexivity|]. split; [reflexivity|].
  vm_compute. repeat constructor.
Qed.

Lemma complete_iff_size_equals_declared_length_run :
  let path := local_path "/g/data" feb_first in
  let run := download_file (one_byte_server "1") always_stale (ok_response "2" [])
               (remote_url feb_first) path false feb_world in
  1 < 2 ^ 53
  /\ fst run = Ok "complete"
  /\ exists f, fs (snd run) !! path = Some f /\ Z.of_nat (length (content f)) = 1.
Proof.
  cbv zeta. split; [done|]. split; [vm_compute; reflexivity|].
  destruct (proj2 (proj2 (complete_iff_size_equals_declared_length
                            (one_byte_server "1") always_stale 1 eq_refl))
              (ok_response "2" []) (remote_url feb_first)
              (local_path "/g/data" feb_first) false feb_world
              (ok_response "1" [[Byte.x00]]) "1" "complete"
              (snd (download_file (one_byte_server "1") always_stale (ok_response "2" [])
                      (remote_url feb_first) (local_path "/g/data" feb_first) false
                      feb_world))
              eq_refl eq_refl eq_refl)
    as (f & Hf & _ & Hiff & _).
  - vm_compute. reflexivity.
  - discriminate.
  - exists f. split; [exact Hf|]. now apply Hiff.
Defined.

(** C1, for every attempt: between ints the ratio is a float, and two sizes
    that differ by one byte out of 2^54 have the ratio 1.0, so the file is
    reported complete one byte short; and an empty file declared with length 0
    is on disk with the declared size, yet the check raises ZeroDivisionError
    instead of reporting it complete. *)
Lemma complete_is_not_size_equality :
  (file_status (2 ^ 54 - 1) (2 ^ 54) = Ok "complete" /\ 2 ^ 54 - 1 <> 2 ^ 54)
  /\ (let path := local_path "/g/data" feb_first in
      let run := download_file empty_file_server always_stale (ok_response "2" [])
                   (remote_url feb_first) path false feb_world in
      PyStr.py_int "0" = Some 0
      /\ fst run = Raise ZeroDivisionError
      /\ last (trace (snd run)) = Some (EvStat path)
      /\ exists f, fs (snd run) !! path = Some f
                   /\ Z.of_nat (length (content f)) = 0).
Proof.
  split; [split; [vm_compute; reflexivity | discriminate]|].
  cbv zeta. split_and!; [reflexivity|vm_compute; reflexivity..|].
  eexists. split; [vm_compute; reflexivity | reflexivity].
Qed.

Lemma remote_name_is_local_name_with_cmorph_prefix_feb_first :
  exists res w' evs,
    process (one_byte_server "1") always_stale (ok_response "2" [])
      "/g/data" feb_first no_buckets feb_world = (res, w')
    /\ trace w'
       = (trace feb_world
          ++ EvGet ("https://rda.ucar.edu/data/ds502.2/" ++ "cmorph_" ++ feb_first)
          :: evs)%list
    /\ Forall (local_event ("/g/data" ++ "/" ++ feb_first)) evs.
Proof.
  destruct (process (one_byte_server "1") always_stale (ok_response "2" [])
              "/g/data" feb_first no_buckets feb_world) as [res w'] eqn:Hrun.
  destruct (remote_name_is_local_name_with_cmorph_prefix (one_byte_server "1")
              always_stale (ok_response "2" []) "2022" ["02"] "/g/data" empty_world
              (snd (get_filelist "2022" ["02"] "/g/data" empty_world))
              (plan "2022" ["02"]) feb_first no_buckets feb_world res w')
    as (_ & _ & (evs & Ht & Hevs & _) & _).
  - vm_compute. reflexivity.
  - vm_compute. left.
  - exact Hrun.
  - exists res, w', evs. split_and!; [reflexivity|exact Ht|exact Hevs].
Defined.

(** C8, as worded: the two names of the first target of February 2022 in a
    run with the default data directory.  The remote URL is not the local
    path with cmorph_ inserted somewhere: the two start with different
    roots. *)
Lemma full_names_differ_by_more_than_the_prefix :
  exists flist w' fpath,
    get_filelist "2022" ["02"] (data_dir rda_environ) empty_world = (Ok flist, w')
    /\ flist !! 0%nat = Some fpath
    /\ remote_url fpath
       = "https://rda.ucar.edu/data/ds502.2/cmorph_v1.0/30min/8km/2022/02/CMORPH_V1.0_ADJ_8km-30min_2022020100.nc"
    /\ local_path (data_dir rda_environ) fpath
       = "/g/data/ia39/aus-ref-clim-data-nci/cmorph/data/v1.0/30min/8km/2022/02/CMORPH_V1.0_ADJ_8km-30min_2022020100.nc"
    /\ (forall pre post,
          remote_url fpath = pre ++ "cmorph_" ++ post ->
          local_path (data_dir rda_environ) fpath <> pre ++ post).
Proof.
  exists (plan "2022" ["02"]),
         (snd (get_filelist "2022" ["02"] (data_dir rda_environ) empty_world)),
         feb_first.
  split.
  { match goal with |- ?X = _ => set (run := X) end.
    assert (Hres : fst run = Ok (plan "2022" ["02"])) by (vm_compute; reflexivity).
    clearbody run. destruct run as [res w']. simpl in *. now subst res. }
  split; [reflexivity|]. split; [reflexivity|]. split; [reflexivity|].
  intros pre post Hremote Hlocal.
  destruct pre as [|c pre].
  - vm_compute in Hremote. discriminate Hremote.
  - rewrite PlanFacts.append_cons in Hremote, Hlocal.
    vm_compute in Hremote. vm_compute in Hlocal.
    injection Hremote as <- _. discriminate Hlocal.
Qed.

(** * Further properties *)

(** ** The plan of several months *)

Module PlanMore.
Import PyStr PyStrFacts PlanFacts CalendarFacts PlanTheorems.

Lemma append_inv_head (a x y : string) : a ++ x = a ++ y -> x = y.
Proof.
  induction a as [|c a IH]; [done|]. rewrite !append_cons. intros [= H]. auto.
Qed.

Lemma append_length_inj (x x' s s' : string) :
  String.length x = String.length x' -> x ++ s = x' ++ s' -> x = x' /\ s = s'.
Proof.
  revert x'. induction x as [|c x IH]; intros [|c' x'] Hlen H; try discriminate.
  - done.
  - rewrite !append_cons in H. injection H as -> H. injection Hlen as Hlen.
    destruct (IH x' Hlen H) as [-> ->]. done.
Qed.

Lemma target_path_inj yr mn mn' x x' :
  String.length mn = String.length mn' -> String.length x = String.length x' ->
  target_path yr mn x = target_path yr mn' x' -> mn = mn' /\ x = x'.
Proof.
  intros Hmn Hx H. unfold target_path in H.
  do 3 apply append_inv_head in H.
  apply append_length_inj in H as [<- H]; [|done].
  do 3 apply append_inv_head in H.
  apply append_length_inj in H as [<- _]; done.
Qed.

Lemma int_fmt_2d_day d : 1 <= d <= 31 -> py_int (fmt_2d d) = Some d.
Proof.
  intros Hd.
  assert (Hin : d ∈ seqZ 1 31) by (apply elem_of_seqZ; lia).
  revert Hin. generalize d. apply Forall_forall.
  let l := eval vm_compute in (seqZ 1 31) in change (seqZ 1 31) with l.
  repeat (constructor; [vm_compute; reflexivity|]). constructor.
Qed.

Lemma NoDup_month_targets yr mn : valid_month mn -> NoDup (month_targets yr mn).
Proof.
  intros (_ & _ & _ & Hr)%valid_month_int. unfold month_targets.
  pose proof (calendar_days_range (dec_value 0 yr) _ Hr) as Hdays.
  apply NoDup_fmap_2_strong; [|apply NoDup_seqZ].
  intros d d' Hd%elem_of_seqZ Hd'%elem_of_seqZ Heq.
  apply target_path_inj in Heq as [_ Heq]; [|done|].
  - assert (Some d = Some d') as [=]; [|done].
    rewrite <- (int_fmt_2d_day d), <- (int_fmt_2d_day d') by lia. now rewrite Heq.
  - destruct (fmt_2d_two_digits d) as [-> _]; [lia|].
    destruct (fmt_2d_two_digits d') as [-> _]; [lia|]. done.
Qed.

Lemma NoDup_plan yr mns : Forall valid_month mns -> NoDup mns -> NoDup (plan yr mns).
Proof.
  intros Hv Hnd. unfold plan. rewrite Forall_forall in Hv.
  apply NoDup_bind; [|intros mn Hmn; apply NoDup_month_targets; auto|done].
  intros mn mn' y Hmn Hmn' Hy Hy'.
  apply list_elem_of_fmap in Hy as (d & -> & Hd%elem_of_seqZ).
  apply list_elem_of_fmap in Hy' as (d' & Heq & Hd'%elem_of_seqZ).
  destruct (valid_month_int mn (Hv mn Hmn)) as (_ & Hl & _ & Hr).
  destruct (valid_month_int mn' (Hv mn' Hmn')) as (_ & Hl' & _ & Hr').
  pose proof (calendar_days_range (dec_value 0 yr) _ Hr).
  pose proof (calendar_days_range (dec_value 0 yr) _ Hr').
  apply target_path_inj in Heq as [Heq _]; [done|congruence|].
  destruct (fmt_2d_two_digits d) as [-> _]; [lia|].
  destruct (fmt_2d_two_digits d') as [-> _]; [lia|]. done.
Qed.

(** X1: when no month is requested twice, the plan returned by [get_filelist]
    holds no target twice. *)
Theorem plan_has_no_repeated_target (yr : string) (mns : list string)
    (data_dir : string) (w w' : World) (flist : list string) :
  valid_year yr -> Forall valid_month mns -> NoDup mns ->
  get_filelist yr mns data_dir w = (Ok flist, w') ->
  NoDup flist.
Proof.
  intros Hy Hv Hnd Hrun.
  destruct (get_filelist_plan yr mns data_dir w Hy Hv) as (w2 & Hrun2 & _).
  rewrite Hrun in Hrun2. injection Hrun2 as -> _. now apply NoDup_plan.
Qed.

Lemma plan_has_no_repeated_target_jan_feb : NoDup (plan "2022" ["01"; "02"]).
Proof.
  apply (plan_has_no_repeated_target "2022" ["01"; "02"] "/g/data" empty_world
           (snd (get_filelist "2022" ["01"; "02"] "/g/data" empty_world))).
  - split; reflexivity.
  - repeat constructor; unfold valid_month, two_digit_months; set_solver.
  - apply NoDup_cons. split; [|apply NoDup_singleton].
    intros Hin%list_elem_of_singleton. discriminate Hin.
  - vm_compute. reflexivity.
Defined.

Lemma ends_with_slash_cons c s :
  ends_with_slash (String c s)
  = match s with EmptyString => Ascii.eqb c "/" | _ => ends_with_slash s end.
Proof. now destruct s. Qed.

Lemma ends_with_slash_app a b :
  ends_with_slash b = true -> ends_with_slash (a ++ b) = true.
Proof.
  intros Hb. induction a as [|c a IH]; [done|].
  rewrite append_cons, ends_with_slash_cons.
  destruct (a ++ b); [discriminate IH | exact IH].
Qed.

Lemma dir_prefixes_self p : ends_with_slash p = true -> p ∈ dir_prefixes p.
Proof.
  induction p as [|c p IH]; [done|].
  rewrite ends_with_slash_cons. cbn [dir_prefixes]. intros H.
  destruct p as [|c' p].
  - rewrite H. apply Ascii.eqb_eq in H as ->. now left.
  - apply elem_of_app. right. apply list_elem_of_fmap. eauto.
Qed.

(** A month directory is among the directories that [makedirs] records for
    it, whatever the year and the month are. *)
Lemma month_dir_made data_dir yr mn :
  month_dir data_dir yr mn
  ∈@{gset string} list_to_set (dir_prefixes (as_dir (month_dir data_dir yr mn))).
Proof.
  assert (Hend : ends_with_slash (month_dir data_dir yr mn) = true).
  { unfold month_dir. do 6 apply ends_with_slash_app. reflexivity. }
  unfold as_dir. rewrite Hend. apply elem_of_list_to_set. now apply dir_prefixes_self.
Qed.

Lemma get_filelist_from_dirs yr data_dir mns : forall flist w res w',
  get_filelist_from flist yr mns data_dir w = (res, w') ->
  dirs w ⊆ dirs w' /\ fs w' = fs w /\ log w' = log w /\ now w' = now w
  /\ (forall l, res = Ok l ->
        forall mn, mn ∈ mns -> month_dir data_dir yr mn ∈ dirs w').
Proof.
  induction mns as [|mn mns IH]; intros flist w res w' H.
  - injection H as <- <-. split_and!; try done. now intros l _ mn ?%elem_of_nil.
  - simpl in H. unfold bind at 1, makedirs in H.
    fold (month_dir data_dir yr mn) in H.
    set (w1 := {| fs := fs w; dirs := _; log := _; trace := _; now := _ |}) in H.
    assert (Hstop : forall e, (@Raise (list string) e, w1) = (res, w') ->
              dirs w ⊆ dirs w' /\ fs w' = fs w /\ log w' = log w /\ now w' = now w
              /\ (forall l, res = Ok l ->
                    forall mn', mn' ∈ mn :: mns -> month_dir data_dir yr mn' ∈ dirs w')).
    { intros e [= <- <-]. simpl. split_and!; try done.
      apply union_subseteq_r. }
    unfold int in H.
    destruct (py_int yr) as [y|]; [rewrite bind_lift_ok in H | exact (Hstop _ H)].
    destruct (py_int mn) as [m|]; [rewrite bind_lift_ok in H | exact (Hstop _ H)].
    destruct (Calendar.monthrange y m) as [r|e];
      [rewrite bind_lift_ok in H | exact (Hstop _ H)].
    apply IH in H as (Hsub & Hfs & Hlog & Hnow & Hdirs). simpl in *.
    split_and!; try done.
    + etransitivity; [|exact Hsub]. apply union_subseteq_r.
    + intros l Hl mn' [-> | Hin]%elem_of_cons; [|now apply (Hdirs l)].
      apply Hsub. simpl. apply elem_of_union_l, month_dir_made.
Qed.

Lemma length_plan yr mns :
  Forall valid_month mns ->
  Z.of_nat (length (plan yr mns))
  = foldr Z.add 0 ((fun mn => calendar_days (dec_value 0 yr) (dec_value 0 mn)) <$> mns).
Proof.
  induction 1 as [|mn mns Hmn Hm IH]; [done|].
  unfold plan in *. rewrite fmap_cons, foldr_cons, <- IH.
  change ((mn :: mns) ≫= month_targets yr)
    with (month_targets yr mn ++ (mns ≫= month_targets yr))%list.
  rewrite length_app, Nat2Z.inj_add. f_equal.
  unfold month_targets. rewrite length_fmap, length_seqZ.
  apply valid_month_int in Hmn as (_ & _ & _ & Hr).
  pose proof (calendar_days_range (dec_value 0 yr) _ Hr). lia.
Qed.

(** X2: for a valid year and valid months, in any number and order,
    [get_filelist] returns the targets of the months one after the other, one
    per calendar day; it calls [makedirs] for every month, in the order
    requested, so that the directory of every month exists afterwards and no
    directory is lost; it changes neither a file nor the log. *)
Theorem get_filelist_returns_the_whole_plan (yr : string) (mns : list string)
    (data_dir : string) (w : World) :
  valid_year yr -> Forall valid_month mns ->
  exists w',
    get_filelist yr mns data_dir w = (Ok (plan yr mns), w')
    /\ Z.of_nat (length (plan yr mns))
       = foldr Z.add 0
           ((fun mn => calendar_days (dec_value 0 yr) (dec_value 0 mn)) <$> mns)
    /\ dirs w ⊆ dirs w'
    /\ (forall mn, mn ∈ mns -> month_dir data_dir yr mn ∈ dirs w')
    /\ trace w' = (trace w ++ (EvMakedirs <$> (month_dir data_dir yr <$> mns)))%list
    /\ fs w' = fs w /\ log w' = log w.
Proof.
  intros Hy Hm.
  destruct (get_filelist_plan yr mns data_dir w Hy Hm)
    as (w' & Hrun & Hfs & Hlog & _ & Htr).
  exists w'. split_and!; try done.
  - now apply length_plan.
  - unfold get_filelist in Hrun.
    now apply get_filelist_from_dirs in Hrun as (Hsub & _).
  - unfold get_filelist in Hrun.
    apply get_filelist_from_dirs in Hrun as (_ & _ & _ & _ & Hd). eauto.
Qed.

Lemma get_filelist_returns_the_whole_plan_jan_feb :
  exists w',
    get_filelist "2022" ["01"; "02"] "/g/data" empty_world
    = (Ok (plan "2022" ["01"; "02"]), w')
    /\ Z.of_nat (length (plan "2022" ["01"; "02"])) = 59.
Proof.
  destruct (get_filelist_returns_the_whole_plan "2022" ["01"; "02"] "/g/data" empty_world)
    as (w' & Hrun & Hlen & _).
  - split; reflexivity.
  - repeat constructor; unfold valid_month, two_digit_months; set_solver.
  - exists w'. split; [exact Hrun|]. rewrite Hlen. reflexivity.
Defined.

Lemma length_whole_year_plan (yr : string) :
  fmt_2d <$> seqZ 1 12 = two_digit_months
  /\ Forall valid_month (fmt_2d <$> seqZ 1 12)
  /\ length (plan yr (fmt_2d <$> seqZ 1 12))
     = if leap_year (dec_value 0 yr) then 366%nat else 365%nat.
Proof.
  assert (Hmns : fmt_2d <$> seqZ 1 12 = two_digit_months) by (vm_compute; reflexivity).
  split; [exact Hmns|]. rewrite Hmns. split.
  - apply Forall_forall. intros mn Hmn. exact Hmn.
  - apply Nat2Z.inj. rewrite length_plan by (apply Forall_forall; auto).
    unfold two_digit_months. rewrite !fmap_cons, !foldr_cons. cbn [fmap list_fmap foldr].
    change (dec_value 0 "01") with 1. change (dec_value 0 "02") with 2.
    change (dec_value 0 "03") with 3. change (dec_value 0 "04") with 4.
    change (dec_value 0 "05") with 5. change (dec_value 0 "06") with 6.
    change (dec_value 0 "07") with 7. change (dec_value 0 "08") with 8.
    change (dec_value 0 "09") with 9. change (dec_value 0 "10") with 10.
    change (dec_value 0 "11") with 11. change (dec_value 0 "12") with 12.
    cbn [calendar_days]. destruct (leap_year (dec_value 0 yr)); reflexivity.
Qed.




(** *** The directory of a target *)







End PlanMore.

(** ** Downloads: what they touch and what they request *)

Section DownloadMore.

Set Default Proof Using "Type".

Variable http_get : nat -> string -> string -> option Response.
Variable check_mdt : Response -> string -> gmap string File -> Res bool * list string.

Lemma local_path_inj data_dir a b : local_path data_dir a = local_path data_dir b -> a = b.
Proof. unfold local_path. intros H. now do 2 apply PlanMore.append_inv_head in H. Qed.

Lemma gets_app l1 l2 : gets (l1 ++ l2) = (gets l1 ++ gets l2)%list.
Proof. apply omap_app. Qed.

Lemma summaries_app l1 l2 : summaries (l1 ++ l2) = (summaries l1 ++ summaries l2)%list.
Proof. apply omap_app. Qed.

Lemma local_events_silent path evs :
  Forall (local_event path) evs -> gets evs = [] /\ summaries evs = [].
Proof.
  induction 1 as [|e evs He _ [IHg IHs]]; [done|].
  unfold gets, summaries in *. cbn [omap list_omap].
  destruct He as [-> | [-> | [-> | [n ->]]]]; simpl; now rewrite ?IHg, ?IHs.
Qed.

Lemma download_all_frame r data_dir flist : forall b w res w',
  download_all http_get check_mdt r data_dir flist b w = (res, w') ->
  dirs w' = dirs w
  /\ (forall q, q ∉ local_path data_dir <$> flist -> fs w' !! q = fs w !! q)
  /\ summaries (trace w') = summaries (trace w)
  /\ (forall b', res = Ok b' ->
        gets (trace w') = (gets (trace w) ++ (remote_url <$> flist))%list).
Proof.
  induction flist as [|fpath rest IH]; intros b w res w' H.
  - injection H as <- <-. split_and!; try done. intros b' _. now rewrite app_nil_r.
  - simpl in H.
    assert (Hstep : forall rs w1,
              process http_get check_mdt r data_dir fpath b w = (rs, w1) ->
              dirs w1 = dirs w
              /\ (forall q, q <> local_path data_dir fpath -> fs w1 !! q = fs w !! q)
              /\ summaries (trace w1) = summaries (trace w)
              /\ gets (trace w1) = (gets (trace w) ++ [remote_url fpath])%list).
    { intros rs w1 Hp. unfold process, bind at 1, path_exists in Hp.
      assert (Hdl : exists st, download_file http_get check_mdt r (remote_url fpath)
                      (local_path data_dir fpath)
                      (bool_decide (is_Some (fs w !! local_path data_dir fpath))) w
                    = (st, w1)).
      { destruct (bool_decide _);
          apply bind_inv in Hp as [(st & w2 & Hdl & Hp) | (e & Hdl & ->)];
          [injection Hp as _ <-| |injection Hp as _ <-|]; eauto. }
      destruct Hdl as (st & Hdl).
      apply download_file_frame in Hdl as (Hd & Hfs & evs & Ht & Hevs).
      apply local_events_silent in Hevs as [Hg Hs].
      split_and!; [done|done| |].
      - rewrite Ht, summaries_app. cbn. unfold summaries in Hs. cbn in Hs.
        rewrite Hs. apply app_nil_r.
      - rewrite Ht, gets_app. cbn. unfold gets in Hg. now rewrite Hg. }
    apply bind_inv in H as [(b1 & w1 & H1 & H) | (e & H1 & ->)];
      apply Hstep in H1 as (Hd1 & Hfs1 & Hs1 & Hg1).
    + apply IH in H as (Hd & Hfs & Hs & Hg).
      split_and!; [congruence| |congruence|].
      * intros q Hq. rewrite fmap_cons, not_elem_of_cons in Hq. destruct Hq as [Hq1 Hq2].
        rewrite Hfs by done. now apply Hfs1.
      * intros b' Hb'. rewrite (Hg b' Hb'), Hg1, fmap_cons. now rewrite <- app_assoc.
    + split_and!; [done| |done|done].
      intros q Hq. rewrite fmap_cons, not_elem_of_cons in Hq. destruct Hq as [Hq1 Hq2].
      now apply Hfs1.
Qed.

(** X5: the download loop, however it ends, changes no file besides the
    local files of its targets, and no directory. *)
Theorem download_loop_touches_only_its_targets (r : Response) (data_dir : string)
    (flist : list string) (b : Buckets) (w : World) (res : Res Buckets) (w' : World) :
  download_all http_get check_mdt r data_dir flist b w = (res, w') ->
  dirs w' = dirs w
  /\ forall q, q ∉ local_path data_dir <$> flist -> fs w' !! q = fs w !! q.
Proof.
  intros H. apply download_all_frame in H as (Hd & Hfs & _). auto.
Qed.

(** X6: a loop that runs to its end has requested every target once, at its
    remote URL and in the order of the plan. *)
Theorem one_request_per_target_in_plan_order (r : Response) (data_dir : string)
    (flist : list string) (b : Buckets) (w : World) (b' : Buckets) (w' : World) :
  download_all http_get check_mdt r data_dir flist b w = (Ok b', w') ->
  gets (trace w') = (gets (trace w) ++ (remote_url <$> flist))%list.
Proof.
  intros H. apply download_all_frame in H as (_ & _ & _ & Hg). eauto.
Qed.

Lemma record_without_update fpath status b :
  updated (record fpath false status b) = updated b.
Proof.
  unfold record. destruct (String.eqb status "complete"); [done|].
  now destruct (String.eqb status "incomplete").
Qed.

(** X7: when none of the local files of a plan without repetition exists
    before the loop, no target is listed as updated: each one is fetched
    outside update mode, and a completed one is listed as new. *)
Theorem first_run_updates_nothing (r : Response) (data_dir : string)
    (flist : list string) (w : World) (b' : Buckets) (w' : World) :
  NoDup flist ->
  (forall fpath, fpath ∈ flist -> fs w !! local_path data_dir fpath = None) ->
  download_all http_get check_mdt r data_dir flist no_buckets w = (Ok b', w') ->
  updated b' = [].
Proof.
  intros Hnd Habsent H.
  change [] with (updated no_buckets). generalize dependent no_buckets.
  revert w Habsent. induction Hnd as [|fpath rest Hnotin Hnd IH]; intros w Habsent b H.
  - now injection H as <- _.
  - simpl in H. apply bind_inv in H as [(b1 & w1 & H1 & H) | (e & _ & [=])].
    apply process_inv in H1 as (st & Hdl & ->).
    rewrite (Habsent fpath) in Hdl by now left.
    rewrite bool_decide_eq_false_2 in Hdl by (intros [? [=]]).
    rewrite bool_decide_eq_false_2 in H by (rewrite Habsent; [intros [? [=]] | now left]).
    apply download_file_frame in Hdl as (_ & Hfs & _).
    apply IH in H; [now rewrite H, record_without_update|].
    intros q Hq. rewrite Hfs.
    + apply Habsent. now right.
    + intros Heq%local_path_inj. now subst q.
Qed.

Lemma download_file_skips r url path w req len n :
  http_get (now w) url (cookies r) = Some req ->
  header_item (headers req) "Content-length" = Ok len ->
  PyStr.py_int len = Some n ->
  fst (check_mdt req path (fs w)) = Ok true ->
  exists w',
    download_file http_get check_mdt r url path true w = (Ok "skip", w')
    /\ fs w' = fs w /\ dirs w' = dirs w
    /\ trace w' = (trace w ++ [EvGet url; EvCheckMdt path])%list.
Proof.
  intros Hget Hlen Hint Hfresh.
  destruct (download_file http_get check_mdt r url path true w) as [res w'] eqn:H.
  exists w'. unfold download_file in H.
  apply bind_inv in H as [(rq & w1 & H1 & H) | (e & H1 & ->)];
    apply requests_get_spec in H1 as (Hfs1 & Hd1 & _ & Ht1 & Hr);
    rewrite Hget in Hr; [|done]. injection Hr as ->.
  rewrite Hlen, bind_lift_ok in H. unfold PyStr.int in H.
  rewrite Hint, bind_lift_ok in H.
  apply bind_inv in H as [(up & w4 & H4 & H) | (e & H4 & ->)];
    apply call_check_mdt_spec in H4 as (Hfs4 & Hd4 & _ & Ht4 & Hr4);
    rewrite Hfs1, Hfresh in Hr4; [|done].
  injection Hr4 as ->. injection H as <- <-.
  split_and!; [done|congruence|congruence|].
  rewrite Ht4, Ht1. now rewrite <- app_assoc.
Qed.

(** X8: a second run over files that are all present and up to date, on a
    server that answers every GET with an integer content length, skips every
    target: the lists of the summary are as before the loop, no file is
    changed, and each target costs one GET and one staleness check. *)
Theorem rerun_over_fresh_files_skips_every_target (r : Response) (data_dir : string)
    (flist : list string) (b : Buckets) (w : World) :
  (forall fpath, fpath ∈ flist -> is_Some (fs w !! local_path data_dir fpath)) ->
  (forall t url c, exists req len n,
      http_get t url c = Some req
      /\ header_item (headers req) "Content-length" = Ok len
      /\ PyStr.py_int len = Some n) ->
  (forall req path m, fst (check_mdt req path m) = Ok true) ->
  exists w',
    download_all http_get check_mdt r data_dir flist b w = (Ok b, w')
    /\ fs w' = fs w /\ dirs w' = dirs w
    /\ trace w'
       = (trace w ++ (flist ≫= fun fpath =>
                        [EvGet (remote_url fpath);
                         EvCheckMdt (local_path data_dir fpath)]))%list.
Proof.
  intros Hpresent Hserver Hfresh. revert w Hpresent.
  induction flist as [|fpath rest IH]; intros w Hpresent.
  - exists w. simpl. split_and!; try done. now rewrite app_nil_r.
  - destruct (Hserver (now w) (remote_url fpath) (cookies r))
      as (req & len & n & Hget & Hlen & Hint).
    destruct (download_file_skips r (remote_url fpath) (local_path data_dir fpath)
                w req len n Hget Hlen Hint (Hfresh _ _ _))
      as (w1 & Hdl & Hfs1 & Hd1 & Ht1).
    destruct (IH w1) as (w' & Hrun & Hfs & Hd & Ht).
    { intros q Hq. rewrite Hfs1. apply Hpresent. now right. }
    exists w'. split_and!; [|congruence|congruence|].
    + simpl. erewrite bind_ok; [exact Hrun|].
      unfold process, bind at 1, path_exists.
      rewrite bool_decide_eq_true_2 by (apply Hpresent; now left).
      erewrite bind_ok; [|exact Hdl]. reflexivity.
    + rewrite Ht, Ht1. rewrite bind_cons. now rewrite <- !app_assoc.
Qed.

(** X9: a GET that fails, or a Content-length header that is not an integer,
    ends the whole loop with the exception of that target: nothing has been
    written, the targets after it are not requested, and no list of outcomes
    is returned. *)
Theorem failed_request_aborts_the_loop (r : Response) (data_dir fpath : string)
    (rest : list string) (b : Buckets) (w : World) (e : exn) :
  (http_get (now w) (remote_url fpath) (cookies r) = None /\ e = RequestException)
  \/ (exists req len,
        http_get (now w) (remote_url fpath) (cookies r) = Some req
        /\ header_item (headers req) "Content-length" = Ok len
        /\ PyStr.py_int len = None /\ e = ValueError) ->
  exists w',
    download_all http_get check_mdt r data_dir (fpath :: rest) b w = (Raise e, w')
    /\ fs w' = fs w /\ log w' = log w
    /\ trace w' = (trace w ++ [EvGet (remote_url fpath)])%list.
Proof.
  intros Hfail.
  assert (Hdl : forall update, exists w',
            download_file http_get check_mdt r (remote_url fpath)
              (local_path data_dir fpath) update w = (Raise e, w')
            /\ fs w' = fs w /\ log w' = log w
            /\ trace w' = (trace w ++ [EvGet (remote_url fpath)])%list).
  { intros update. unfold download_file.
    destruct (requests_get http_get (remote_url fpath) (cookies r) w) as [rq w1] eqn:H1.
    pose proof (requests_get_spec _ _ _ _ _ _ H1) as (Hfs1 & _ & Hl1 & Ht1 & Hr).
    exists w1. destruct Hfail as [[Hget ->] | (req & len & Hget & Hlen & Hint & ->)];
      rewrite Hget in Hr; subst rq.
    - now rewrite (bind_raise _ _ _ _ _ H1).
    - rewrite (bind_ok _ _ _ _ _ H1), Hlen, bind_lift_ok. unfold PyStr.int.
      now rewrite Hint. }
  destruct (Hdl (bool_decide (is_Some (fs w !! local_path data_dir fpath))))
    as (w' & Hrun & Hrest).
  exists w'. split; [|exact Hrest]. simpl.
  erewrite bind_raise; [reflexivity|].
  unfold process, bind at 1, path_exists.
  destruct (bool_decide _); erewrite bind_raise; done.
Qed.

(** X10: the calls of a download that returns complete or incomplete are the
    GET, the staleness check in update mode, the opening of the local file,
    one write per chunk received, followed by a progress check exactly when
    the declared length exceeds one chunk of 1 MiB, and the final check. *)
Theorem completed_download_events (r : Response) (url path : string) (update : bool)
    (w : World) (req : Response) (len : string) (filesize : Z)
    (status : string) (w' : World) :
  http_get (now w) url (cookies r) = Some req ->
  header_item (headers req) "Content-length" = Ok len ->
  PyStr.py_int len = Some filesize ->
  download_file http_get check_mdt r url path update w = (Ok status, w') ->
  status <> "skip" ->
  trace w'
  = (trace w ++ EvGet url :: (if update then [EvCheckMdt path] else [])
       ++ EvOpen path :: (chunks req ≫= chunk_events path filesize)
       ++ [EvStat path])%list.
Proof.
  intros Hget Hlen Hint H Hskip. unfold download_file in H.
  apply bind_inv in H as [(rq & w1 & H1 & H) | (e & _ & [=])].
  apply requests_get_spec in H1 as (_ & _ & _ & Ht1 & Hr).
  rewrite Hget in Hr. injection Hr as ->.
  rewrite Hlen, bind_lift_ok in H. unfold PyStr.int in H.
  rewrite Hint, bind_lift_ok in H.
  apply bind_inv in H as [(up & w4 & H4 & H) | (e & _ & [=])].
  destruct up; [now injection H as <- _|].
  apply fetch_events in H. rewrite H.
  destruct update.
  - apply call_check_mdt_spec in H4 as (_ & _ & _ & Ht4 & _).
    rewrite Ht4, Ht1. now rewrite <- !app_assoc.
  - injection H4 as <-. rewrite Ht1. now rewrite <- !app_assoc.
Qed.

(** X11: when the stream breaks after its last chunk, a download that
    reaches the transfer, outside update mode or over a copy found stale,
    returns no status.  With the directory of the file in place and a
    declared length of at most one chunk it raises the error of the stream,
    and the bytes received so far stay on disk under the name of the target;
    without the directory it raises FileNotFoundError and writes nothing. *)
Theorem broken_stream_leaves_a_partial_file (r : Response) (url path : string)
    (update : bool) (w : World) (req : Response) (len : string) (filesize : Z)
    (res : Res string) (w' : World) :
  http_get (now w) url (cookies r) = Some req ->
  header_item (headers req) "Content-length" = Ok len ->
  PyStr.py_int len = Some filesize ->
  broken req = true ->
  (update = false \/ fst (check_mdt req path (fs w)) = Ok false) ->
  download_file http_get check_mdt r url path update w = (res, w') ->
  (forall st, res <> Ok st)
  /\ (dir_exists (dir_of path) w = true -> filesize <= chunk_size ->
      res = Raise RequestException
      /\ exists f, fs w' !! path = Some f /\ content f = concat (chunks req))
  /\ (dir_exists (dir_of path) w = false ->
      res = Raise (FileNotFoundError path) /\ fs w' = fs w).
Proof.
  intros Hget Hlen Hint Hbroken Hup H.
  destruct (download_file_reaches_fetch http_get check_mdt r url path update w
              req len filesize Hget Hlen Hint Hup) as (w1 & Hdl & Hfs1 & Hd1 & _).
  rewrite Hdl in H. split_and!.
  - intros st ->. apply fetch_spec in H as (_ & _ & _ & _ & Hst & _).
    destruct (Hst st eq_refl) as [Hb _]. congruence.
  - intros Hdir Hsmall. unfold fetch in H.
    rewrite <- (dir_exists_dirs _ w1 w Hd1) in Hdir.
    apply bind_inv in H as [(a & w2 & H2 & H) | (e & H2 & ->)];
      apply open_wb_spec in H2 as (_ & _ & _ & _ & Hyes & _);
      destruct (Hyes Hdir) as (Hr2 & f2 & Hf2 & Hc2); [|done].
    apply bind_inv in H as [(a3 & w3 & H3 & H) | (e & H3 & ->)];
      apply write_chunks_spec in H3 as (_ & _ & _ & _ & Hc3 & Hok3);
      [|now apply Hok3 in Hsmall].
    destruct a3. destruct (Hc3 f2 Hf2 eq_refl) as (f3 & Hf3 & Hcf3).
    rewrite Hbroken in H. injection H as <- <-.
    split; [done|]. exists f3. split; [done|]. now rewrite Hcf3, Hc2.
  - intros Hdir. rewrite <- (dir_exists_dirs _ w1 w Hd1) in Hdir.
    apply fetch_spec in H as (_ & _ & _ & _ & _ & _ & Hno).
    destruct (Hno Hdir) as (-> & Hfs & _). split; [done|congruence].
Qed.

(** *** Opening a file whose directory exists *)







End DownloadMore.

Lemma first_run_updates_nothing_run :
  exists b' w',
    download_all (one_byte_server "1") always_stale (ok_response "2" [])
      "/g/data" [feb_first; feb_second] no_buckets feb_world = (Ok b', w')
    /\ updated b' = [].
Proof.
  assert (Hok : is_Ok (fst (download_all (one_byte_server "1") always_stale
                              (ok_response "2" []) "/g/data" [feb_first; feb_second]
                              no_buckets feb_world)) = true)
    by (vm_compute; reflexivity).
  destruct (download_all _ _ _ _ _ _ _) as [[b'|e] w'] eqn:Hrun; [|discriminate Hok].
  exists b', w'. split; [reflexivity|].
  apply (first_run_updates_nothing (one_byte_server "1") always_stale (ok_response "2" [])
           "/g/data" [feb_first; feb_second] feb_world b' w').
  - apply NoDup_cons. split; [|apply NoDup_singleton].
    intros Hin%list_elem_of_singleton. discriminate Hin.
  - intros fpath _. reflexivity.
  - exact Hrun.
Defined.

Lemma download_loop_touches_only_its_targets_run :
  exists res w',
    download_all (one_byte_server "1") always_stale (ok_response "2" [])
      "/g/data" [feb_second] no_buckets world_with_feb_first = (res, w')
    /\ dirs w' = dirs world_with_feb_first
    /\ fs w' !! local_path "/g/data" feb_first
       = fs world_with_feb_first !! local_path "/g/data" feb_first.
Proof.
  destruct (download_all (one_byte_server "1") always_stale (ok_response "2" [])
              "/g/data" [feb_second] no_buckets world_with_feb_first)
    as [res w'] eqn:Hrun.
  exists res, w'. split; [reflexivity|].
  destruct (download_loop_touches_only_its_targets (one_byte_server "1") always_stale
              (ok_response "2" []) "/g/data" [feb_second] no_buckets
              world_with_feb_first res w' Hrun) as [Hd Hfs].
  split; [exact Hd|]. apply Hfs.
  intros Hin. apply list_elem_of_fmap in Hin as (x & Heq & Hx).
  apply list_elem_of_singleton in Hx. subst x.
  apply local_path_inj in Heq. discriminate Heq.
Defined.

Lemma one_request_per_target_in_plan_order_run :
  exists b' w',
    download_all (one_byte_server "1") always_stale (ok_response "2" [])
      "/g/data" [feb_first; feb_second] no_buckets feb_world = (Ok b', w')
    /\ gets (trace w') = [remote_url feb_first; remote_url feb_second].
Proof.
  assert (Hok : is_Ok (fst (download_all (one_byte_server "1") always_stale
                              (ok_response "2" []) "/g/data" [feb_first; feb_second]
                              no_buckets feb_world)) = true)
    by (vm_compute; reflexivity).
  destruct (download_all _ _ _ _ _ _ _) as [[b'|e] w'] eqn:Hrun; [|discriminate Hok].
  exists b', w'. split; [reflexivity|].
  exact (one_request_per_target_in_plan_order (one_byte_server "1") always_stale
           (ok_response "2" []) "/g/data" [feb_first; feb_second] no_buckets
           feb_world b' w' Hrun).
Defined.

Lemma rerun_over_fresh_files_skips_every_target_run :
  exists w',
    download_all (one_byte_server "1") always_fresh (ok_response "2" [])
      "/g/data" [feb_first] no_buckets world_with_feb_first = (Ok no_buckets, w')
    /\ fs w' = fs world_with_feb_first /\ dirs w' = dirs world_with_feb_first
    /\ trace w'
       = (trace world_with_feb_first
          ++ ([feb_first] ≫= fun fpath =>
                [EvGet (remote_url fpath);
                 EvCheckMdt (local_path "/g/data" fpath)]))%list.
Proof.
  apply (rerun_over_fresh_files_skips_every_target (one_byte_server "1") always_fresh
           (ok_response "2" []) "/g/data" [feb_first] no_buckets world_with_feb_first).
  - intros fpath Hin. apply list_elem_of_singleton in Hin. subst fpath.
    vm_compute. eexists. reflexivity.
  - intros t url c. exists (ok_response "1" [[Byte.x00]]), "1", 1.
    split_and!; reflexivity.
  - intros req path m. reflexivity.
Defined.

Lemma failed_request_aborts_the_loop_run :
  exists w',
    download_all (one_byte_server "1 MB") always_stale (ok_response "2" [])
      "/g/data" (feb_first :: [feb_second]) no_buckets empty_world
    = (Raise ValueError, w')
    /\ fs w' = fs empty_world /\ log w' = log empty_world
    /\ trace w' = (trace empty_world ++ [EvGet (remote_url feb_first)])%list.
Proof.
  apply (failed_request_aborts_the_loop (one_byte_server "1 MB") always_stale
           (ok_response "2" []) "/g/data" feb_first [feb_second] no_buckets
           empty_world ValueError).
  right. exists (ok_response "1 MB" [[Byte.x00]]), "1 MB".
  split_and!; reflexivity.
Defined.

Lemma completed_download_events_run :
  exists w',
    download_file (one_byte_server "1") always_stale (ok_response "2" [])
      (remote_url feb_first) (local_path "/g/data" feb_first) true world_with_feb_first
    = (Ok "complete", w')
    /\ trace w'
       = [EvGet (remote_url feb_first);
          EvCheckMdt (local_path "/g/data" feb_first);
          EvOpen (local_path "/g/data" feb_first);
          EvWrite (local_path "/g/data" feb_first) 1;
          EvStat (local_path "/g/data" feb_first)].
Proof.
  assert (Hres : fst (download_file (one_byte_server "1") always_stale (ok_response "2" [])
                        (remote_url feb_first) (local_path "/g/data" feb_first) true
                        world_with_feb_first) = Ok "complete")
    by (vm_compute; reflexivity).
  destruct (download_file _ _ _ _ _ _ _) as [res w'] eqn:Hrun.
  simpl in Hres. subst res. exists w'. split; [reflexivity|].
  apply (completed_download_events (one_byte_server "1") always_stale
           (ok_response "2" []) (remote_url feb_first)
           (local_path "/g/data" feb_first) true world_with_feb_first
           (ok_response "1" [[Byte.x00]]) "1" 1 "complete" w').
  - reflexivity.
  - reflexivity.
  - reflexivity.
  - exact Hrun.
  - discriminate.
Defined.

Lemma broken_stream_leaves_a_partial_file_run :
  exists w' f,
    download_file breaking_server always_stale (ok_response "2" [])
      (remote_url feb_first) (local_path "/g/data" feb_first) true world_with_feb_first
    = (Raise RequestException, w')
    /\ fs w' !! local_path "/g/data" feb_first = Some f
    /\ content f = [Byte.x00].
Proof.
  destruct (download_file breaking_server always_stale (ok_response "2" [])
              (remote_url feb_first) (local_path "/g/data" feb_first) true
              world_with_feb_first)
    as [res w'] eqn:Hrun.
  destruct (broken_stream_leaves_a_partial_file breaking_server always_stale
              (ok_response "2" []) (remote_url feb_first)
              (local_path "/g/data" feb_first) true world_with_feb_first
              broken_response "2" 2 res w') as (_ & Hsmall & _).
  - reflexivity.
  - reflexivity.
  - reflexivity.
  - reflexivity.
  - now right.
  - exact Hrun.
  - destruct Hsmall as [-> (f & Hf & Hc)];
      [vm_compute; reflexivity|unfold chunk_size; lia|].
    exists w', f. split_and!; [reflexivity|exact Hf|exact Hc].
Defined.

(** ** The whole run *)

Section MainMore.

Set Default Proof Using "Type".

Variable http_post : string -> list (string * string) -> option Response.
Variable http_get : nat -> string -> string -> option Response.
Variable environ : gmap string string.
Variable today : string.
Variable check_mdt : Response -> string -> gmap string File -> Res bool * list string.

Lemma log_info_spec msg w r w' :
  log_info msg w = (r, w') ->
  r = Ok tt /\ fs w' = fs w /\ dirs w' = dirs w /\ trace w' = trace w
  /\ log w' = (log w ++ [msg])%list.
Proof. unfold log_info. now intros [= <- <-]. Qed.

Lemma authenticate_quiet username w res w' :
  authenticate http_post environ username w = (res, w') ->
  fs w' = fs w /\ dirs w' = dirs w
  /\ summaries (trace w') = summaries (trace w)
  /\ gets (trace w') = gets (trace w).
Proof.
  unfold authenticate, requests_post.
  unfold bind, lift, emit, tick, log_info, raise, ret. simpl.
  destruct (environ !! "RDAPSWD") as [pswd|]; [|now intros [= <- <-]].
  destruct (http_post _ _) as [r|]; simpl.
  - destruct (negb (status_code r =? 200)); intros [= <- <-]; simpl;
      rewrite summaries_app, gets_app; simpl; now rewrite !app_nil_r.
  - intros [= <- <-]. simpl.
    rewrite summaries_app, gets_app. simpl. now rewrite !app_nil_r.
Qed.

Lemma get_filelist_from_quiet yr data_dir mns : forall flist w res w',
  get_filelist_from flist yr mns data_dir w = (res, w') ->
  summaries (trace w') = summaries (trace w) /\ gets (trace w') = gets (trace w).
Proof.
  induction mns as [|mn mns IH]; intros flist w res w' H.
  - now injection H as <- <-.
  - simpl in H. unfold bind at 1, makedirs in H.
    set (w1 := {| fs := fs w; dirs := _; log := _; trace := _; now := _ |}) in H.
    assert (Hw1 : summaries (trace w1) = summaries (trace w)
                  /\ gets (trace w1) = gets (trace w)).
    { subst w1. simpl. rewrite summaries_app, gets_app. simpl.
      now rewrite !app_nil_r. }
    assert (Hstop : forall e, (@Raise (list string) e, w1) = (res, w') ->
              summaries (trace w') = summaries (trace w)
              /\ gets (trace w') = gets (trace w)).
    { now intros e [= <- <-]. }
    unfold PyStr.int in H.
    destruct (PyStr.py_int yr) as [y|]; [rewrite bind_lift_ok in H | exact (Hstop _ H)].
    destruct (PyStr.py_int mn) as [m|]; [rewrite bind_lift_ok in H | exact (Hstop _ H)].
    destruct (Calendar.monthrange y m) as [r|e];
      [rewrite bind_lift_ok in H | exact (Hstop _ H)].
    apply IH in H as [Hs Hg]. destruct Hw1 as [Hs1 Hg1]. split; congruence.
Qed.

(** X12: without the variable RDAPSWD in the environment the run ends with
    KeyError right after its first log line: no request is sent, no
    directory is made and no file is touched. *)
Theorem missing_password_stops_before_any_request (args : Args) (w : World) :
  environ !! "RDAPSWD" = None ->
  exists w',
    main http_post http_get environ today check_mdt args w
    = (Raise (KeyError "RDAPSWD"), w')
    /\ log w' = (log w ++ [("Updated on " ++ today ++ " by "
                              ++ default "None" (environ !! "USER"))%string])%list
    /\ trace w' = trace w /\ fs w' = fs w /\ dirs w' = dirs w.
Proof.
  intros Henv. unfold main, authenticate.
  unfold bind, log_info, lift. simpl. rewrite Henv.
  eexists. split_and!; reflexivity.
Qed.

(** X13: the summary is printed by a run that reaches its end, as its last
    call and once; a run that ends with an exception, at the login, in the
    plan or in any download, prints no summary, whatever it has downloaded
    before. *)
Theorem summary_is_printed_by_complete_runs_only (args : Args) (w : World)
    (res : Res unit) (w' : World) :
  main http_post http_get environ today check_mdt args w = (res, w') ->
  match res with
  | Ok _ =>
      exists b, last (trace w') = Some (EvSummary (updated b) (new b) (error b))
                /\ summaries (trace w') = (summaries (trace w) ++ [b])%list
  | Raise _ => summaries (trace w') = summaries (trace w)
  end.
Proof.
  unfold main. intros H.
  apply bind_inv in H as [(a0 & w0 & H0 & H) | (e & H0 & ->)];
    apply log_info_spec in H0 as (Hr0 & _ & _ & Ht0 & _); [|done].
  apply bind_inv in H as [(r & w1 & H1 & H) | (e & H1 & ->)];
    apply authenticate_quiet in H1 as (_ & _ & Hs1 & _); [|congruence].
  apply bind_inv in H as [(flist & w2 & H2 & H) | (e & H2 & ->)];
    apply get_filelist_from_quiet in H2 as [Hs2 _]; [|congruence].
  apply bind_inv in H as [(b & w3 & H3 & H) | (e & H3 & ->)];
    apply download_all_frame in H3 as (_ & _ & Hs3 & _); [|congruence].
  unfold print_summary, emit in H. injection H as <- <-. simpl.
  exists b. split.
  - apply last_snoc.
  - rewrite summaries_app, Hs3, Hs2, Hs1, Ht0. simpl. now destruct b.
Qed.

(** A run that reaches its end: the login, the plan, the loop, the summary. *)
Lemma main_ok_inv args w w' :
  main http_post http_get environ today check_mdt args w = (Ok tt, w') ->
  exists w1 flist w2 r b w3,
    fs w1 = fs w /\ dirs w1 = dirs w /\ gets (trace w1) = gets (trace w)
    /\ get_filelist (year args) (months_of args) (data_dir environ) w1 = (Ok flist, w2)
    /\ download_all http_get check_mdt r (data_dir environ) flist no_buckets w2
       = (Ok b, w3)
    /\ gets (trace w') = gets (trace w3)
    /\ fs w' = fs w3 /\ dirs w' = dirs w3.
Proof.
  intros H. unfold main in H. fold (months_of args) in H.
  apply bind_inv in H as [(a0 & w0 & H0 & H) | (e & _ & [=])].
  apply log_info_spec in H0 as (_ & Hfs0 & Hd0 & Ht0 & _).
  apply bind_inv in H as [(r & w1 & H1 & H) | (e & _ & [=])].
  apply authenticate_quiet in H1 as (Hfs1 & Hd1 & _ & Hg1).
  apply bind_inv in H as [(flist & w2 & H2 & H) | (e & _ & [=])].
  apply bind_inv in H as [(b & w3 & H3 & H) | (e & _ & [=])].
  unfold print_summary, emit in H. injection H as <-.
  exists w1, flist, w2, r, b, w3. simpl.
  split_and!; [congruence|congruence|congruence|done|done| |done|done].
  rewrite gets_app. simpl. apply app_nil_r.
Qed.

Lemma gets_makedirs l : gets (EvMakedirs <$> l) = [].
Proof. induction l as [|x l IH]; [done|exact IH]. Qed.

(** X14: a run for a valid year and valid months that reaches its end has
    requested the targets of the plan, each once and in the order of the
    plan; the directory of every month requested exists afterwards and no
    directory is lost; and no file has changed besides the local files of
    the plan. *)
Theorem complete_run_requests_the_plan (args : Args) (w w' : World) :
  valid_year (year args) ->
  Forall valid_month (months_of args) ->
  main http_post http_get environ today check_mdt args w = (Ok tt, w') ->
  gets (trace w')
  = (gets (trace w) ++ (remote_url <$> plan (year args) (months_of args)))%list
  /\ dirs w ⊆ dirs w'
  /\ (forall mn, mn ∈ months_of args ->
        month_dir (data_dir environ) (year args) mn ∈ dirs w')
  /\ forall q, q ∉ local_path (data_dir environ) <$> plan (year args) (months_of args) ->
       fs w' !! q = fs w !! q.
Proof.
  intros Hy Hm H.
  apply main_ok_inv in H
    as (w1 & flist & w2 & r & b & w3 & Hfs1 & Hd1 & Hg1 & H2 & H3 & Hg & Hfs & Hd).
  destruct (PlanTheorems.get_filelist_plan (year args) (months_of args)
              (data_dir environ) w1 Hy Hm) as (w2' & Hplan & Hfs2 & _ & _ & Ht2).
  rewrite Hplan in H2. injection H2 as <- <-.
  unfold get_filelist in Hplan.
  apply PlanMore.get_filelist_from_dirs in Hplan as (Hsub & _ & _ & _ & Hd2).
  specialize (Hd2 _ eq_refl).
  apply download_all_frame in H3 as (Hd3 & Hfs3 & _ & Hg3).
  specialize (Hg3 b eq_refl).
  split_and!.
  - rewrite Hg, Hg3, Ht2, gets_app, gets_makedirs, app_nil_r. congruence.
  - rewrite Hd, Hd3, <- Hd1. exact Hsub.
  - intros mn Hmn. rewrite Hd, Hd3. now apply Hd2.
  - intros q Hq. rewrite Hfs, Hfs3 by done. congruence.
Qed.

(** X3: a run without -m is a run over the months 01 to 12.  For a valid
    year [get_filelist] then returns 366 targets in a leap year and 365
    otherwise, and a run that reaches its end has sent that many GETs. *)
Theorem whole_year_plan_has_365_or_366_targets (args : Args) (w : World) :
  month args = None ->
  valid_year (year args) ->
  months_of args = two_digit_months
  /\ (exists flist w1,
        get_filelist (year args) (months_of args) (data_dir environ) w = (Ok flist, w1)
        /\ length flist
           = if leap_year (PyStr.dec_value 0 (year args)) then 366%nat else 365%nat)
  /\ (forall w',
        main http_post http_get environ today check_mdt args w = (Ok tt, w') ->
        length (gets (trace w'))
        = (length (gets (trace w))
           + if leap_year (PyStr.dec_value 0 (year args)) then 366 else 365)%nat).
Proof.
  intros Hnone Hy.
  destruct (PlanMore.length_whole_year_plan (year args)) as (Hmns & Hvalid & Hlen).
  assert (Hall : months_of args = PyStr.fmt_2d <$> seqZ 1 12)
    by (unfold months_of; now rewrite Hnone).
  rewrite <- Hall in Hmns, Hvalid, Hlen.
  split_and!; [exact Hmns| |].
  - destruct (PlanTheorems.get_filelist_plan (year args) (months_of args)
                (data_dir environ) w Hy Hvalid) as (w1 & Hplan & _).
    eauto.
  - intros w' H.
    apply main_ok_inv in H
      as (w1 & flist & w2 & r & b & w3 & _ & _ & Hg1 & H2 & H3 & Hg & _).
    destruct (PlanTheorems.get_filelist_plan (year args) (months_of args)
                (data_dir environ) w1 Hy Hvalid) as (w2' & Hplan & _ & _ & _ & Ht2).
    rewrite Hplan in H2. injection H2 as <- <-.
    apply download_all_frame in H3 as (_ & _ & _ & Hg3).
    rewrite Hg, (Hg3 b eq_refl), Ht2, gets_app, gets_makedirs, app_nil_r, Hg1.
    now rewrite length_app, length_fmap, Hlen.
Qed.


End MainMore.

Lemma missing_password_stops_before_any_request_run :
  exists w',
    main login_accepts (one_byte_server "1") ∅ "2022-06-28" always_stale feb_args
      empty_world
    = (Raise (KeyError "RDAPSWD"), w')
    /\ log w' = (log empty_world
                 ++ [("Updated on " ++ "2022-06-28" ++ " by "
                      ++ default "None" ((∅ : gmap string string) !! "USER"))%string])%list
    /\ trace w' = trace empty_world /\ fs w' = fs empty_world
    /\ dirs w' = dirs empty_world.
Proof.
  apply (missing_password_stops_before_any_request login_accepts (one_byte_server "1")
           ∅ "2022-06-28" always_stale feb_args empty_world).
  reflexivity.
Defined.

Lemma summary_is_printed_by_complete_runs_only_run :
  exists w' b,
    main login_accepts (one_byte_server "1") rda_environ "2022-06-28" always_stale
      feb_args empty_world = (Ok tt, w')
    /\ last (trace w') = Some (EvSummary (updated b) (new b) (error b))
    /\ summaries (trace w') = [b].
Proof.
  assert (Hok : fst (main login_accepts (one_byte_server "1") rda_environ "2022-06-28"
                       always_stale feb_args empty_world) = Ok tt)
    by (vm_compute; reflexivity).
  destruct (main _ _ _ _ _ _ _) as [res w'] eqn:Hrun.
  simpl in Hok. subst res.
  destruct (summary_is_printed_by_complete_runs_only login_accepts (one_byte_server "1")
              rda_environ "2022-06-28" always_stale feb_args empty_world (Ok tt) w' Hrun)
    as (b & Hlast & Hs).
  exists w', b. split_and!; [reflexivity|exact Hlast|exact Hs].
Defined.

Lemma complete_run_requests_the_plan_run :
  exists w',
    main login_accepts (one_byte_server "1") rda_environ "2022-06-28" always_stale
      feb_args empty_world = (Ok tt, w')
    /\ gets (trace w') = remote_url <$> plan "2022" ["02"].
Proof.
  assert (Hok : fst (main login_accepts (one_byte_server "1") rda_environ "2022-06-28"
                       always_stale feb_args empty_world) = Ok tt)
    by (vm_compute; reflexivity).
  destruct (main _ _ _ _ _ _ _) as [res w'] eqn:Hrun.
  simpl in Hok. subst res.
  destruct (complete_run_requests_the_plan login_accepts (one_byte_server "1")
              rda_environ "2022-06-28" always_stale feb_args empty_world w')
    as (Hg & _).
  - split; reflexivity.
  - repeat constructor; unfold valid_month, two_digit_months; set_solver.
  - exact Hrun.
  - exists w'. split; [reflexivity|]. exact Hg.
Defined.

Lemma whole_year_plan_has_365_or_366_targets_2024 :
  exists flist w1,
    get_filelist "2024" (months_of year_2024_args) (data_dir rda_environ) empty_world
    = (Ok flist, w1)
    /\ length flist = 366%nat.
Proof.
  destruct (whole_year_plan_has_365_or_366_targets login_accepts
              (one_byte_server "1") rda_environ "2022-06-28" always_stale
              year_2024_args empty_world) as (_ & (flist & w1 & Hrun & Hlen) & _).
  - reflexivity.
  - split; reflexivity.
  - exists flist, w1. split; [exact Hrun | exact Hlen].
Defined.

